(** * Task lifecycle and reminder scheduling: a shallow embedding

    The development embeds the task manager of the meeting summariser
    ([task_manager.py]), the part of the store it relies on ([db.py]) and
    the deadline heuristic and item cleaning of the NLP module
    ([ollama_nlp.py]), and proves properties of these functions.

    Conventions of the embedding:
    - a Python [str] is a [string]; each character is read as the code
      point 0..255 it carries, and [py_lower], [py_isspace] follow
      Python's tables on that range;
    - a [datetime] is a calendar date with the microsecond of the day; the
      calendar arithmetic is the one of CPython's [datetime] module;
    - the running system is a [world]: the [tasks] collection, the counter
      ObjectIds are drawn from, the scheduler's job store and the sequence
      of write effects performed so far;
    - the clock is read once per operation and passed as [now]. *)

From stdpp Require Import gmap strings list fin_maps.
From Stdlib Require Import ZArith Ascii String Lia Sorted Permutation OrderedTypeEx.

Local Open Scope string_scope.
Local Open Scope Z_scope.

(** ** Python strings *)

(** [str.isspace] on the code points 0..255: TAB..CR, FS..US, space,
    NEL (133) and NBSP (160). *)
Definition py_isspace (c : ascii) : bool :=
  let n := N_of_ascii c in
  (((9 <=? n) && (n <=? 13)) || ((28 <=? n) && (n <=? 32))
   || (n =? 133) || (n =? 160))%N.

(** [str.lower] on one code point of 0..255: A..Z and the Latin-1 capitals
    192..222 (but not the multiplication sign 215) move up by 32. *)
Definition lower_char (c : ascii) : ascii :=
  let n := N_of_ascii c in
  if (((65 <=? n) && (n <=? 90))
      || ((192 <=? n) && (n <=? 222) && negb (n =? 215)))%N
  then ascii_of_N (n + 32) else c.

Fixpoint py_lower (s : string) : string :=
  match s with
  | EmptyString => EmptyString
  | String c s' => String (lower_char c) (py_lower s')
  end.

Fixpoint py_lstrip (s : string) : string :=
  match s with
  | EmptyString => EmptyString
  | String c s' => if py_isspace c then py_lstrip s' else s
  end.

Fixpoint py_rstrip (s : string) : string :=
  match s with
  | EmptyString => EmptyString
  | String c s' =>
      match py_rstrip s' with
      | EmptyString => if py_isspace c then EmptyString else String c EmptyString
      | r => String c r
      end
  end.

(** [s.strip()] *)
Definition py_strip (s : string) : string := py_rstrip (py_lstrip s).

(** [kw in s] for two strings: [kw] occurs as a contiguous substring. *)
Fixpoint py_in (kw s : string) : bool :=
  String.prefix kw s
  || match s with
     | EmptyString => false
     | String _ s' => py_in kw s'
     end.

(** [any(keyword in s for keyword in keywords)] *)
Definition any_in (keywords : list string) (s : string) : bool :=
  existsb (fun keyword => py_in keyword s) keywords.

(** Truth value of an optional string: [None] and [''] are falsy. *)
Definition truthy (v : option string) : bool :=
  match v with
  | Some (String _ _) => true
  | _ => false
  end.

Definition opt_string_eqb (a b : option string) : bool :=
  match a, b with
  | None, None => true
  | Some x, Some y => String.eqb x y
  | _, _ => false
  end.

(** ** Python datetimes *)

Record datetime := {
  year : Z;
  month : Z;
  day : Z;
  usec : Z   (* microseconds since midnight *)
}.

Definition _is_leap (y : Z) : bool :=
  (y mod 4 =? 0) && (negb (y mod 100 =? 0) || (y mod 400 =? 0)).

Definition _days_before_year (y : Z) : Z :=
  let y' := y - 1 in y' * 365 + y' / 4 - y' / 100 + y' / 400.

Definition _DAYS_IN_MONTH (m : Z) : Z :=
  match m with
  | 1 => 31 | 2 => 28 | 3 => 31 | 4 => 30 | 5 => 31 | 6 => 30
  | 7 => 31 | 8 => 31 | 9 => 30 | 10 => 31 | 11 => 30 | 12 => 31
  | _ => -1
  end.

Definition _DAYS_BEFORE_MONTH (m : Z) : Z :=
  match m with
  | 1 => 0 | 2 => 31 | 3 => 59 | 4 => 90 | 5 => 120 | 6 => 151
  | 7 => 181 | 8 => 212 | 9 => 243 | 10 => 273 | 11 => 304 | 12 => 334
  | _ => -1
  end.

Definition _days_in_month (y m : Z) : Z :=
  if (m =? 2) && _is_leap y then 29 else _DAYS_IN_MONTH m.

Definition _days_before_month (y m : Z) : Z :=
  _DAYS_BEFORE_MONTH m + (if (2 <? m) && _is_leap y then 1 else 0).

Definition _ymd2ord (y m d : Z) : Z :=
  _days_before_year y + _days_before_month y m + d.

Definition _DI400Y : Z := 146097.
Definition _DI100Y : Z := 36524.
Definition _DI4Y : Z := 1461.
Definition _MAXORDINAL : Z := 3652059.

(** Ordinal to (year, month, day), with ordinal 1 the first of January of
    year 1. *)
Definition _ord2ymd (ordinal : Z) : Z * Z * Z :=
  let n := ordinal - 1 in
  let n400 := n / _DI400Y in
  let n := n mod _DI400Y in
  let y := n400 * 400 + 1 in
  let n100 := n / _DI100Y in
  let n := n mod _DI100Y in
  let n4 := n / _DI4Y in
  let n := n mod _DI4Y in
  let n1 := n / 365 in
  let n := n mod 365 in
  let y := y + n100 * 100 + n4 * 4 + n1 in
  if (n1 =? 4) || (n100 =? 4) then (y - 1, 12, 31)
  else
    let leapyear := (n1 =? 3) && (negb (n4 =? 24) || (n100 =? 3)) in
    let m := Z.shiftr (n + 50) 5 in
    let preceding :=
      _DAYS_BEFORE_MONTH m + (if (2 <? m) && leapyear then 1 else 0) in
    if n <? preceding
    then
      let m' := m - 1 in
      let preceding' :=
        preceding
        - (_DAYS_IN_MONTH m' + (if (m' =? 2) && leapyear then 1 else 0)) in
      (y, m', n - preceding' + 1)
    else (y, m, n - preceding + 1).

Definition toordinal (dt : datetime) : Z :=
  _ymd2ord (year dt) (month dt) (day dt).

(** [dt + timedelta(days=n)]; [None] stands for the [OverflowError] Python
    raises when the result leaves the years 1..9999. *)
Definition add_days (dt : datetime) (n : Z) : option datetime :=
  let o := toordinal dt + n in
  if (0 <? o) && (o <=? _MAXORDINAL) then
    let '(y, m, d) := _ord2ymd o in
    Some {| year := y; month := m; day := d; usec := usec dt |}
  else None.

Definition digit_char (d : Z) : ascii := ascii_of_N (48 + Z.to_N d).

Fixpoint dec_digits (fuel : nat) (n : Z) (acc : string) : string :=
  match fuel with
  | O => acc
  | S fuel' =>
      let acc' := String (digit_char (n mod 10)) acc in
      if n <? 10 then acc' else dec_digits fuel' (n / 10) acc'
  end.

(** [%Y]: the year in decimal (four digits from year 1000 on). *)
Definition fmt_year (y : Z) : string := dec_digits 19 y EmptyString.

(** [%m] and [%d]: two digits, zero padded. *)
Definition fmt_2 (n : Z) : string :=
  String (digit_char (n / 10)) (String (digit_char (n mod 10)) EmptyString).

(** [dt.strftime('%Y-%m-%d')] *)
Definition strftime (dt : datetime) : string :=
  (fmt_year (year dt) ++ "-" ++ fmt_2 (month dt) ++ "-" ++ fmt_2 (day dt))%string.

(** Comparison of the calendar dates of two datetimes ([dt.date()]). *)
Definition date_compare (a b : datetime) : comparison :=
  match year a ?= year b with
  | Eq => match month a ?= month b with
          | Eq => day a ?= day b
          | c => c
          end
  | c => c
  end.

Definition datetime_compare (a b : datetime) : comparison :=
  match date_compare a b with
  | Eq => usec a ?= usec b
  | c => c
  end.

Definition datetime_eqb (a b : datetime) : bool :=
  (year a =? year b) && (month a =? month b) && (day a =? day b)
  && (usec a =? usec b).

Definition is_digit (c : ascii) : bool :=
  let n := N_of_ascii c in ((48 <=? n) && (n <=? 57))%N.

Definition digit_val (c : ascii) : Z := Z.of_N (N_of_ascii c) - 48.

(** The month token of [%m]: [1[0-2]|0[1-9]|[1-9]]. *)
Definition parse_month (tok : string) : option Z :=
  match tok with
  | String a EmptyString =>
      if is_digit a && negb (digit_val a =? 0) then Some (digit_val a)
      else None
  | String a (String b EmptyString) =>
      if is_digit a && is_digit b then
        let v := 10 * digit_val a + digit_val b in
        if (1 <=? v) && (v <=? 12) then Some v else None
      else None
  | _ => None
  end.

(** The day token of [%d]: [3[01]|[12]\d|0[1-9]|[1-9]| [1-9]]. *)
Definition parse_day (tok : string) : option Z :=
  match tok with
  | String a EmptyString =>
      if is_digit a && negb (digit_val a =? 0) then Some (digit_val a)
      else None
  | String a (String b EmptyString) =>
      if is_digit b then
        if is_digit a then
          let v := 10 * digit_val a + digit_val b in
          if (1 <=? v) && (v <=? 31) then Some v else None
        else if Ascii.eqb a " "%char && negb (digit_val b =? 0)
             then Some (digit_val b) else None
      else None
  | _ => None
  end.

(** Splits [s] at its first ["-"]. *)
Fixpoint split_dash (s : string) : option (string * string) :=
  match s with
  | EmptyString => None
  | String c s' =>
      if Ascii.eqb c "-"%char then Some (EmptyString, s')
      else match split_dash s' with
           | Some (a, b) => Some (String c a, b)
           | None => None
           end
  end.

(** [datetime.strptime(s, '%Y-%m-%d')]; [None] stands for [ValueError]
    (no match, unconverted data, year 0, day out of range for month). *)
Definition strptime (s : string) : option datetime :=
  match s with
  | String y1 (String y2 (String y3 (String y4 (String sep rest)))) =>
      if is_digit y1 && is_digit y2 && is_digit y3 && is_digit y4
         && Ascii.eqb sep "-"%char
      then
        match split_dash rest with
        | Some (mtok, dtok) =>
            match parse_month mtok, parse_day dtok with
            | Some m, Some d =>
                let y := 1000 * digit_val y1 + 100 * digit_val y2
                         + 10 * digit_val y3 + digit_val y4 in
                if (1 <=? y) && (d <=? _days_in_month y m)
                then Some {| year := y; month := m; day := d; usec := 0 |}
                else None
            | _, _ => None
            end
        | None => None
        end
      else None
  | _ => None
  end.


(** ** Exceptions and results *)

Inductive exn :=
| ValueError (msg : string)
| OverflowError
| JobLookupError (job_id : string).

Inductive outcome (A : Type) :=
| Returned (a : A)
| Raised (e : exn).
Arguments Returned {A} a.
Arguments Raised {A} e.

(** ** The [tasks] collection *)

(** The dict [create_task] builds and MongoDB stores. *)
Record task_dict := {
  task : string;
  assignee : string;
  priority : string;
  context : string;
  status : string;
  meeting_id : option string;
  transcript_id : option string;
  suggested_deadline : option string;
  actual_deadline : option string;
  created_at : datetime;
  updated_at : datetime
}.

(** A stored document: the ObjectId [insert_one] assigned and the dict. *)
Record task_doc := {
  _id : N;
  body : task_dict
}.

(** What a caller passes as [task_id]: the [str] that [create_task] and
    [save_task] return, or the ObjectId read from a document's ['_id']
    (as the task list page does). *)
Inductive id_value :=
| IdStr (s : string)
| IdOid (o : N).

Definition hex_char (n : N) : ascii :=
  if (n <? 10)%N then ascii_of_N (48 + n) else ascii_of_N (87 + n).

Fixpoint hex_fixed (width : nat) (n : N) (acc : string) : string :=
  match width with
  | O => acc
  | S width' =>
      hex_fixed width' (n / 16)%N (String (hex_char (n mod 16)%N) acc)
  end.

(** [str(oid)]: the 24 hexadecimal digits of an ObjectId. *)
Definition oid_str (o : N) : string := hex_fixed 24 o EmptyString.

(** [f"{task_id}"] *)
Definition id_text (task_id : id_value) : string :=
  match task_id with
  | IdStr s => s
  | IdOid o => oid_str o
  end.

(** The filter [{'_id': task_id}]: BSON equality is typed, an ObjectId
    equals an ObjectId with the same bytes and never a string. *)
Definition id_matches (task_id : id_value) (d : task_doc) : bool :=
  match task_id with
  | IdOid o => (o =? _id d)%N
  | IdStr _ => false
  end.

(** BSON stores a datetime with millisecond precision. *)
Definition bson_datetime (dt : datetime) : datetime :=
  {| year := year dt; month := month dt; day := day dt;
     usec := usec dt - usec dt mod 1000 |}.

Definition task_dict_eqb (a b : task_dict) : bool :=
  String.eqb (task a) (task b)
  && String.eqb (assignee a) (assignee b)
  && String.eqb (priority a) (priority b)
  && String.eqb (context a) (context b)
  && String.eqb (status a) (status b)
  && opt_string_eqb (meeting_id a) (meeting_id b)
  && opt_string_eqb (transcript_id a) (transcript_id b)
  && opt_string_eqb (suggested_deadline a) (suggested_deadline b)
  && opt_string_eqb (actual_deadline a) (actual_deadline b)
  && datetime_eqb (created_at a) (created_at b)
  && datetime_eqb (updated_at a) (updated_at b).

(** One key of an [updates] dict with its value. *)
Inductive field_update :=
| SetTask (v : string)
| SetAssignee (v : string)
| SetPriority (v : string)
| SetContext (v : string)
| SetStatus (v : string)
| SetMeetingId (v : option string)
| SetTranscriptId (v : option string)
| SetSuggestedDeadline (v : option string)
| SetActualDeadline (v : option string)
| SetCreatedAt (v : datetime)
| SetUpdatedAt (v : datetime).

(** [b[key] = value] on a Python dict. *)
Definition apply_update (u : field_update) (b : task_dict) : task_dict :=
  let mk t a p c s m tr sd ad ca ua :=
    {| task := t; assignee := a; priority := p; context := c; status := s;
       meeting_id := m; transcript_id := tr; suggested_deadline := sd;
       actual_deadline := ad; created_at := ca; updated_at := ua |} in
  let t := task b in let a := assignee b in let p := priority b in
  let c := context b in let s := status b in let m := meeting_id b in
  let tr := transcript_id b in let sd := suggested_deadline b in
  let ad := actual_deadline b in let ca := created_at b in
  let ua := updated_at b in
  match u with
  | SetTask v => mk v a p c s m tr sd ad ca ua
  | SetAssignee v => mk t v p c s m tr sd ad ca ua
  | SetPriority v => mk t a v c s m tr sd ad ca ua
  | SetContext v => mk t a p v s m tr sd ad ca ua
  | SetStatus v => mk t a p c v m tr sd ad ca ua
  | SetMeetingId v => mk t a p c s v tr sd ad ca ua
  | SetTranscriptId v => mk t a p c s m v sd ad ca ua
  | SetSuggestedDeadline v => mk t a p c s m tr v ad ca ua
  | SetActualDeadline v => mk t a p c s m tr sd v ca ua
  | SetCreatedAt v => mk t a p c s m tr sd ad v ua
  | SetUpdatedAt v => mk t a p c s m tr sd ad ca v
  end.

(** The value of an [updates] entry as BSON holds it. *)
Definition bson_update (u : field_update) : field_update :=
  match u with
  | SetCreatedAt v => SetCreatedAt (bson_datetime v)
  | SetUpdatedAt v => SetUpdatedAt (bson_datetime v)
  | _ => u
  end.

(** [{'$set': updates}] on one document's dict; a later entry of the list
    stands for a later assignment to the same key. *)
Definition set_fields (updates : list field_update) (b : task_dict) : task_dict :=
  fold_left (fun acc u => apply_update (bson_update u) acc) updates b.

(** ['actual_deadline' in updates] *)
Definition sets_actual_deadline (updates : list field_update) : bool :=
  existsb (fun u => match u with SetActualDeadline _ => true | _ => false end)
          updates.

(** [collection.find_one({'_id': task_id})] *)
Definition find_one (task_id : id_value) (docs : list task_doc) : option task_doc :=
  List.find (id_matches task_id) docs.

(** [collection.update_one({'_id': task_id}, {'$set': updates})]: the first
    matching document is rewritten; the result is [modified_count], which
    counts the document only if it differs after the update. *)
Fixpoint update_one (task_id : id_value) (updates : list field_update)
    (docs : list task_doc) : nat * list task_doc :=
  match docs with
  | [] => (O, [])
  | d :: ds =>
      if id_matches task_id d then
        let b' := set_fields updates (body d) in
        ((if task_dict_eqb b' (body d) then 0 else 1)%nat,
         {| _id := _id d; body := b' |} :: ds)
      else
        let '(n, ds') := update_one task_id updates ds in (n, d :: ds')
  end.

(** [collection.delete_one({'_id': task_id})]: removes the first matching
    document; the result is [deleted_count]. *)
Fixpoint delete_one (task_id : id_value) (docs : list task_doc) : nat * list task_doc :=
  match docs with
  | [] => (O, [])
  | d :: ds =>
      if id_matches task_id d then (1%nat, ds)
      else let '(n, ds') := delete_one task_id ds in (n, d :: ds')
  end.

(** [collection.count_documents({'status': s})] *)
Definition count_status (s : string) (docs : list task_doc) : nat :=
  List.length (List.filter (fun d => String.eqb (status (body d)) s) docs).

(** ** The scheduler's job store *)

Inductive trigger :=
| DateTrigger (run_date : datetime)
| IntervalTrigger (days : Z).

Inductive job_func :=
| SendTaskReminder (task_id : id_value) (reminder_type : string)
| CheckOverdueTasks.

Record job := {
  func : job_func;
  job_trigger : trigger
}.

(** ** The world *)

Inductive event :=
| InsertOne (o : N)
| UpdateOne (task_id : id_value)
| DeleteOne (task_id : id_value)
| AddJob (job_id : string)
| RemoveJob (job_id : string).

Record world := {
  tasks : list task_doc;        (* the collection, in insertion order *)
  next_oid : N;                 (* the next ObjectId to hand out *)
  jobs : gmap string job;       (* the memory job store, keyed by job id *)
  trace : list event            (* store writes and scheduler calls so far *)
}.

Definition empty_world : world :=
  {| tasks := []; next_oid := 0%N; jobs := ∅; trace := [] |}.

(** The dict as BSON holds it: its datetimes lose their microseconds. *)
Definition to_bson (b : task_dict) : task_dict :=
  apply_update (bson_update (SetUpdatedAt (updated_at b)))
    (apply_update (bson_update (SetCreatedAt (created_at b))) b).

(** [collection.insert_one(doc)]: the driver draws a fresh ObjectId for the
    document, which has no ['_id'] of its own; the model numbers them. *)
Definition insert_one (doc : task_dict) (w : world) : N * world :=
  let o := next_oid w in
  (o, {| tasks := tasks w ++ [{| _id := o; body := to_bson doc |}];
         next_oid := N.succ o;
         jobs := jobs w;
         trace := trace w ++ [InsertOne o] |}).

(** [scheduler.add_job(..., id=job_id, replace_existing=True)]: the call
    stores the job under its id, in place of any job of that id.  The job
    store is followed through the calls the program makes ([add_job] and
    [remove_job]); what the scheduler's own thread does with a stored job
    afterwards (running it when due, dropping a date job whose run date has
    passed) is not part of these calls and is not modelled. *)
Definition add_job (job_id : string) (j : job) (w : world) : world :=
  {| tasks := tasks w; next_oid := next_oid w;
     jobs := <[job_id := j]> (jobs w);
     trace := trace w ++ [AddJob job_id] |}.

(** [scheduler.remove_job(job_id)]: raises [JobLookupError] when no job
    has that id. *)
Definition remove_job (job_id : string) (w : world) : outcome unit * world :=
  let w' := {| tasks := tasks w; next_oid := next_oid w;
               jobs := delete job_id (jobs w);
               trace := trace w ++ [RemoveJob job_id] |} in
  match jobs w !! job_id with
  | Some _ => (Returned tt, w')
  | None => (Raised (JobLookupError job_id), w')
  end.

(** ** db.py *)

(** [DatabaseManager.save_task] *)
Definition save_task (now : datetime) (task_data : task_dict) (w : world)
  : string * world :=
  let task_data := apply_update (SetCreatedAt now) task_data in
  let '(inserted_id, w') := insert_one task_data w in
  (oid_str inserted_id, w').

(** ** task_manager.py *)

(** The [task_data] dict of [create_task]: each key is absent ([None]) or
    holds a string. *)
Record raw_item := {
  raw_task : option string;
  raw_assignee : option string;
  raw_priority : option string;
  raw_context : option string;
  raw_transcript_id : option string;
  raw_suggested_deadline : option string;
  raw_actual_deadline : option string
}.

Definition datetime_gtb (a b : datetime) : bool :=
  match datetime_compare a b with Gt => true | _ => false end.

Definition date_geb (a b : datetime) : bool :=
  match date_compare a b with Lt => false | _ => true end.

Definition job_ids (task_id : id_value) : list string :=
  [ ("reminder_1day_" ++ id_text task_id)%string;
    ("reminder_deadline_" ++ id_text task_id)%string;
    ("overdue_check_" ++ id_text task_id)%string ].

(** [TaskManager._schedule_task_reminders]; the [try] around the body logs
    every exception and returns. *)
Definition _schedule_task_reminders (now : datetime) (task_id : id_value)
    (task_data : task_dict) (w : world) : world :=
  if negb (truthy (actual_deadline task_data)) then w
  else
    match strptime (default "" (actual_deadline task_data)) with
    | None => w                           (* ValueError, logged *)
    | Some deadline =>
        match add_days deadline (-1) with
        | None => w                       (* OverflowError, logged *)
        | Some reminder_date =>
            let w1 :=
              if datetime_gtb reminder_date now then
                add_job ("reminder_1day_" ++ id_text task_id)%string
                  {| func := SendTaskReminder task_id "1 day before deadline";
                     job_trigger := DateTrigger reminder_date |} w
              else w in
            let w2 :=
              if date_geb deadline now then
                add_job ("reminder_deadline_" ++ id_text task_id)%string
                  {| func := SendTaskReminder task_id "deadline today";
                     job_trigger := DateTrigger deadline |} w1
              else w1 in
            add_job ("overdue_check_" ++ id_text task_id)%string
              {| func := CheckOverdueTasks;
                 job_trigger := IntervalTrigger 1 |} w2
        end
    end.

(** [TaskManager._cancel_task_reminders]: each [remove_job] sits in its own
    [try: ... except: pass]. *)
Definition _cancel_task_reminders (task_id : id_value) (w : world)
  : outcome unit * world :=
  fold_left
    (fun (acc : outcome unit * world) job_id =>
       match acc with
       | (Raised e, w) => (Raised e, w)
       | (Returned _, w) =>
           match remove_job job_id w with
           | (Returned _, w') => (Returned tt, w')
           | (Raised _, w') => (Returned tt, w')   (* job might not exist *)
           end
       end)
    (job_ids task_id) (Returned tt, w).

(** [TaskManager.get_task] *)
Definition get_task (task_id : id_value) (w : world) : option task_doc :=
  find_one task_id (tasks w).

(** [TaskManager._reschedule_task_reminders] *)
Definition _reschedule_task_reminders (now : datetime) (task_id : id_value)
    (w : world) : outcome unit * world :=
  match _cancel_task_reminders task_id w with
  | (Raised e, w1) => (Raised e, w1)
  | (Returned _, w1) =>
      match get_task task_id w1 with
      | Some t => (Returned tt, _schedule_task_reminders now task_id (body t) w1)
      | None => (Returned tt, w1)
      end
  end.

(** [TaskManager.create_task] *)
Definition create_task (now : datetime) (task_data : raw_item)
    (meeting : option string) (w : world) : outcome string * world :=
  let task_doc :=
    {| task := py_strip (default "" (raw_task task_data));
       assignee := py_strip (default "TBD" (raw_assignee task_data));
       priority := py_lower (default "medium" (raw_priority task_data));
       context := py_strip (default "" (raw_context task_data));
       status := "pending";
       meeting_id := meeting;
       transcript_id := raw_transcript_id task_data;
       suggested_deadline := raw_suggested_deadline task_data;
       actual_deadline := raw_actual_deadline task_data;
       created_at := now;
       updated_at := now |} in
  if String.eqb (task task_doc) "" then
    (Raised (ValueError "Task description is required"), w)
  else
    let resolved : outcome task_dict :=
      if negb (truthy (actual_deadline task_doc))
         && truthy (suggested_deadline task_doc)
      then
        Returned
          (apply_update (SetActualDeadline (suggested_deadline task_doc))
             task_doc)
      else if negb (truthy (actual_deadline task_doc)) then
        match add_days now 7 with
        | Some default_deadline =>
            Returned
              (apply_update
                 (SetActualDeadline (Some (strftime default_deadline)))
                 task_doc)
        | None => Raised OverflowError
        end
      else Returned task_doc in
    match resolved with
    | Raised e => (Raised e, w)
    | Returned task_doc =>
        let '(task_id, w1) := save_task now task_doc w in
        let w2 := _schedule_task_reminders now (IdStr task_id) task_doc w1 in
        (Returned task_id, w2)
    end.

(** [TaskManager.create_tasks_from_action_items]: a failing item is logged
    and skipped. *)
Fixpoint create_tasks_from_action_items (now : datetime)
    (action_items : list raw_item) (meeting transcript : option string)
    (w : world) : list string * world :=
  match action_items with
  | [] => ([], w)
  | item :: rest =>
      let task_data :=
        {| raw_task := Some (default "" (raw_task item));
           raw_assignee := Some (default "TBD" (raw_assignee item));
           raw_priority := Some (default "medium" (raw_priority item));
           raw_context := Some (default "" (raw_context item));
           raw_transcript_id := transcript;
           raw_suggested_deadline := raw_suggested_deadline item;
           raw_actual_deadline := None |} in
      match create_task now task_data meeting w with
      | (Returned task_id, w') =>
          let '(task_ids, w'') :=
            create_tasks_from_action_items now rest meeting transcript w' in
          (task_id :: task_ids, w'')
      | (Raised _, w') =>
          create_tasks_from_action_items now rest meeting transcript w'
      end
  end.

(** [TaskManager.update_task]; an exception inside the [try] is logged and
    the result is [False]. *)
Definition update_task (now : datetime) (task_id : id_value)
    (updates : list field_update) (w : world) : bool * world :=
  let updates := (updates ++ [SetUpdatedAt now])%list in
  let '(modified_count, docs) := update_one task_id updates (tasks w) in
  let w1 := {| tasks := docs; next_oid := next_oid w; jobs := jobs w;
               trace := trace w ++ [UpdateOne task_id] |} in
  if (0 <? modified_count)%nat then
    if sets_actual_deadline updates then
      match _reschedule_task_reminders now task_id w1 with
      | (Returned _, w2) => (true, w2)
      | (Raised _, w2) => (false, w2)
      end
    else (true, w1)
  else (false, w1).

(** [TaskManager.mark_task_completed] *)
Definition mark_task_completed (now : datetime) (task_id : id_value)
    (w : world) : bool * world :=
  update_task now task_id [SetStatus "completed"] w.

(** [TaskManager.mark_task_in_progress] *)
Definition mark_task_in_progress (now : datetime) (task_id : id_value)
    (w : world) : bool * world :=
  update_task now task_id [SetStatus "in_progress"] w.

(** [TaskManager.delete_task]; the result [false] of the last line is the
    "Task not found" branch, and an exception inside the [try] is logged
    and gives [False] too. *)
Definition delete_task (task_id : id_value) (w : world) : bool * world :=
  match _cancel_task_reminders task_id w with
  | (Raised _, w1) => (false, w1)
  | (Returned _, w1) =>
      let '(deleted_count, docs) := delete_one task_id (tasks w1) in
      let w2 := {| tasks := docs; next_oid := next_oid w1; jobs := jobs w1;
                   trace := trace w1 ++ [DeleteOne task_id] |} in
      ((0 <? deleted_count)%nat, w2)
  end.

(** ['status': {'$in': ['pending', 'in_progress']}] *)
Definition is_open (d : task_doc) : bool :=
  String.eqb (status (body d)) "pending"
  || String.eqb (status (body d)) "in_progress".

(** ['actual_deadline': {'$lt': bound}]: only a string compares with a
    string, in code point order. *)
Definition deadline_lt (bound : string) (d : task_doc) : bool :=
  match actual_deadline (body d) with
  | Some s => String.ltb s bound
  | None => false
  end.

(** ['actual_deadline': {'$gte': lo, '$lte': hi}] *)
Definition deadline_between (lo hi : string) (d : task_doc) : bool :=
  match actual_deadline (body d) with
  | Some s => String.leb lo s && String.leb s hi
  | None => false
  end.

(** The order of [.sort('actual_deadline', 1)]: a missing value sorts
    before every string. *)
Definition deadline_leb (a b : task_doc) : bool :=
  match actual_deadline (body a), actual_deadline (body b) with
  | None, _ => true
  | Some _, None => false
  | Some x, Some y => String.leb x y
  end.

Fixpoint insert_by_deadline (d : task_doc) (l : list task_doc) : list task_doc :=
  match l with
  | [] => [d]
  | x :: xs =>
      if deadline_leb d x then d :: l else x :: insert_by_deadline d xs
  end.

Definition sort_by_actual_deadline (l : list task_doc) : list task_doc :=
  fold_right insert_by_deadline [] l.

(** [TaskManager.get_overdue_tasks] *)
Definition get_overdue_tasks (now : datetime) (w : world) : list task_doc :=
  let today := strftime now in
  sort_by_actual_deadline
    (List.filter (fun d => is_open d && deadline_lt today d) (tasks w)).

(** [TaskManager.get_upcoming_tasks] *)
Definition get_upcoming_tasks (now : datetime) (days_ahead : Z) (w : world)
  : outcome (list task_doc) :=
  match add_days now days_ahead with
  | None => Raised OverflowError
  | Some future =>
      let future_date := strftime future in
      Returned
        (sort_by_actual_deadline
           (List.filter
              (fun d => is_open d
                        && deadline_between (strftime now) future_date d)
              (tasks w)))
  end.

Record statistics := {
  total_tasks : nat;
  pending_tasks : nat;
  in_progress_tasks : nat;
  completed_tasks : nat;
  overdue_tasks : nat;
  upcoming_tasks : nat
}.

(** [TaskManager.get_task_statistics] *)
Definition get_task_statistics (now : datetime) (w : world) : outcome statistics :=
  let total := List.length (tasks w) in
  let pending := count_status "pending" (tasks w) in
  let in_progress := count_status "in_progress" (tasks w) in
  let completed := count_status "completed" (tasks w) in
  let overdue := List.length (get_overdue_tasks now w) in
  match get_upcoming_tasks now 7 w with
  | Raised e => Raised e
  | Returned upcoming =>
      Returned {| total_tasks := total;
                  pending_tasks := pending;
                  in_progress_tasks := in_progress;
                  completed_tasks := completed;
                  overdue_tasks := overdue;
                  upcoming_tasks := List.length upcoming |}
  end.

(** ** ollama_nlp.py *)

Definition urgent_keywords : list string :=
  ["urgent"; "asap"; "immediately"; "today"; "tomorrow"; "deadline"; "critical"].

Definition medium_keywords : list string :=
  ["next week"; "soon"; "priority"; "important"].

(** [OllamaNLPProcessor._suggest_deadline] *)
Definition _suggest_deadline (now : datetime) (task_text : string) : outcome string :=
  let task_lower := py_lower task_text in
  let days_ahead :=
    if any_in urgent_keywords task_lower then 1
    else if any_in medium_keywords task_lower then 3
    else 7 in
  match add_days now days_ahead with
  | Some deadline => Returned (strftime deadline)
  | None => Raised OverflowError
  end.

(** The cleaning of one parsed item in
    [OllamaNLPProcessor._parse_action_items]; an item without a ['task'] key
    is dropped. *)
Definition clean_action_item (item : raw_item) : option raw_item :=
  match raw_task item with
  | None => None
  | Some _ =>
      let p := py_lower (default "medium" (raw_priority item)) in
      Some {| raw_task := Some (py_strip (default "" (raw_task item)));
              raw_assignee := Some (py_strip (default "TBD" (raw_assignee item)));
              raw_priority :=
                Some (if existsb (String.eqb p) ["high"; "medium"; "low"]
                      then p else "medium");
              raw_context := Some (py_strip (default "" (raw_context item)));
              raw_transcript_id := None;
              raw_suggested_deadline := None;
              raw_actual_deadline := None |}
  end.

(** ** Sequences of manager calls *)

Inductive manager_call :=
| CreateTask (now : datetime) (task_data : raw_item) (meeting : option string)
| UpdateTask (now : datetime) (task_id : id_value) (updates : list field_update)
| MarkTaskInProgress (now : datetime) (task_id : id_value)
| MarkTaskCompleted (now : datetime) (task_id : id_value)
| DeleteTask (task_id : id_value).

Definition run_call (w : world) (c : manager_call) : world :=
  match c with
  | CreateTask now task_data meeting => snd (create_task now task_data meeting w)
  | UpdateTask now task_id updates => snd (update_task now task_id updates w)
  | MarkTaskInProgress now task_id => snd (mark_task_in_progress now task_id w)
  | MarkTaskCompleted now task_id => snd (mark_task_completed now task_id w)
  | DeleteTask task_id => snd (delete_task task_id w)
  end.

(** The world after the calls, made in order on the empty store. *)
Definition run_calls (calls : list manager_call) : world :=
  fold_left run_call calls empty_world.

(** ** Vocabulary of the statements *)

(** The world after a call of [remove_job], found or not. *)
Definition drop_job (job_id : string) (w : world) : world :=
  {| tasks := tasks w; next_oid := next_oid w;
     jobs := delete job_id (jobs w);
     trace := trace w ++ [RemoveJob job_id] |}.


(** The string is empty or made of whitespace only. *)
Fixpoint all_space (s : string) : bool :=
  match s with
  | EmptyString => true
  | String c s' => py_isspace c && all_space s'
  end.

(** A [task] field that is absent, empty or whitespace-only. *)
Definition blank_task (task_data : raw_item) : bool :=
  all_space (default "" (raw_task task_data)).

(** A reading of the clock that [datetime.utcnow()] can give and that leaves
    room for a week: a calendar date of the years 1..9998. *)
Definition clock_ok (now : datetime) : bool :=
  (1 <=? year now) && (year now <=? 9998)
  && (1 <=? month now) && (month now <=? 12)
  && (1 <=? day now) && (day now <=? _days_in_month (year now) (month now)).

(** The month and day of the day of the year [n] (from 0), as the tail of
    [_ord2ymd] computes them. *)
Definition month_day (n : Z) (leapyear : bool) : Z * Z :=
  let m := Z.shiftr (n + 50) 5 in
  let preceding :=
    _DAYS_BEFORE_MONTH m + (if (2 <? m) && leapyear then 1 else 0) in
  if n <? preceding
  then
    let m' := m - 1 in
    let preceding' :=
      preceding
      - (_DAYS_IN_MONTH m' + (if (m' =? 2) && leapyear then 1 else 0)) in
    (m', n - preceding' + 1)
  else (m, n - preceding + 1).

(** [month_day] is right on the day [i] of a year. *)
Definition month_day_check (leap : bool) (i : nat) : bool :=
  let n := Z.of_nat i in
  let '(m, d) := month_day n leap in
  (1 <=? m) && (m <=? 12) && (1 <=? d)
  && (d <=? _DAYS_IN_MONTH m + (if (m =? 2) && leap then 1 else 0))
  && (_DAYS_BEFORE_MONTH m + (if (2 <? m) && leap then 1 else 0) + d =? n + 1).

(** A calendar date of the years 1..9999. *)
Definition valid_date (d : datetime) : bool :=
  (1 <=? year d) && (year d <=? 9999)
  && (1 <=? month d) && (month d <=? 12)
  && (1 <=? day d) && (day d <=? _days_in_month (year d) (month d)).

(** The shape YYYY-MM-DD: ten characters, digits around two dashes. *)
Definition ymd_shape (s : string) : bool :=
  match s with
  | String y1 (String y2 (String y3 (String y4 (String s1
      (String m1 (String m2 (String s2 (String d1 (String d2 EmptyString))))))))) =>
      is_digit y1 && is_digit y2 && is_digit y3 && is_digit y4
      && Ascii.eqb s1 "-"%char
      && is_digit m1 && is_digit m2
      && Ascii.eqb s2 "-"%char
      && is_digit d1 && is_digit d2
  | _ => false
  end.

(** A date that [strftime] prints as ten characters, YYYY-MM-DD. *)
Definition date_wf (d : datetime) : bool :=
  (1000 <=? year d) && (year d <=? 9999)
  && (1 <=? month d) && (month d <=? 12)
  && (1 <=? day d) && (day d <=? 31).

(** [kw] occurs in [text] up to letter case: some contiguous part of
    [text] lower-cases to [kw]. *)
Definition occurs_ci (kw text : string) : Prop :=
  exists pre mid post,
    text = (pre ++ mid ++ post)%string /\ py_lower mid = kw.

Definition status_enum : list string := ["pending"; "in_progress"; "completed"].

Definition status_in_enum (s : string) : bool :=
  existsb (String.eqb s) status_enum.

(** The patch leaves [status] alone or sets it to a value of the enum. *)
Definition patch_keeps_enum (updates : list field_update) : bool :=
  forallb (fun u => match u with
                    | SetStatus v => status_in_enum v
                    | _ => true
                    end) updates.

(** Every stored status is one of pending, in_progress, completed. *)
Definition enum_only (docs : list task_doc) : Prop :=
  Forall (fun d => status_in_enum (status (body d)) = true) docs.

Definition call_keeps_enum (c : manager_call) : bool :=
  match c with
  | UpdateTask _ _ updates => patch_keeps_enum updates
  | _ => true
  end.

(** The deadline of [a] is not after the deadline of [b], in the order of
    the sort key. *)
Definition deadline_le (a b : task_doc) : Prop := deadline_leb a b = true.

(** The deadline policy in the words of the specification: the provided
    [actual_deadline] if present, else the provided [suggested_deadline] if
    present, else the current time plus seven days, formatted.  A field is
    present when it holds a non-empty string. *)
Definition deadline_policy_spec (now : datetime) (task_data : raw_item)
  : option string :=
  if truthy (raw_actual_deadline task_data) then raw_actual_deadline task_data
  else if truthy (raw_suggested_deadline task_data)
       then raw_suggested_deadline task_data
       else option_map strftime (add_days now 7).

(** ** Queries, the other writers of the store, and the text fallback *)

Definition datetime_leb (a b : datetime) : bool :=
  match datetime_compare a b with Gt => false | _ => true end.

(** The order of [.sort('created_at', -1)]: the most recent first. *)
Definition created_geb (a b : task_doc) : bool :=
  datetime_leb (created_at (body b)) (created_at (body a)).

Fixpoint insert_by_created (d : task_doc) (l : list task_doc) : list task_doc :=
  match l with
  | [] => [d]
  | x :: xs =>
      if created_geb d x then d :: l else x :: insert_by_created d xs
  end.

Definition sort_by_created_desc (l : list task_doc) : list task_doc :=
  fold_right insert_by_created [] l.

(** A query dict of exact matches, [{key: value, ...}], written like an
    [updates] dict: the document matches when every key of the dict already
    holds the dict's value, that is when writing the dict changes nothing. *)
Definition matches_query (query : list field_update) (d : task_doc) : bool :=
  task_dict_eqb (set_fields query (body d)) (body d).

(** [TaskManager.get_tasks]; [filters or {}] reads an absent filter as the
    empty query. *)
Definition get_tasks (filters : option (list field_update)) (w : world)
  : list task_doc :=
  let query := default [] filters in
  sort_by_created_desc (List.filter (matches_query query) (tasks w)).

(** [DatabaseManager.get_all_tasks] *)
Definition get_all_tasks (status_filter : option string) (w : world)
  : list task_doc :=
  let query := match status_filter with
               | None => []
               | Some s => [SetStatus s]
               end in
  sort_by_created_desc (List.filter (matches_query query) (tasks w)).

(** [DatabaseManager.get_tasks_by_meeting] *)
Definition get_tasks_by_meeting (meeting : string) (w : world) : list task_doc :=
  sort_by_created_desc
    (List.filter (matches_query [SetMeetingId (Some meeting)]) (tasks w)).

(** [Py_ISSPACE]: the ASCII whitespace [bytes.fromhex] skips. *)
Definition is_ascii_space (c : ascii) : bool :=
  let n := N_of_ascii c in (((9 <=? n) && (n <=? 13)) || (n =? 32))%N.

Definition hex_val (c : ascii) : option N :=
  let n := N_of_ascii c in
  if ((48 <=? n) && (n <=? 57))%N then Some (n - 48)%N
  else if ((97 <=? n) && (n <=? 102))%N then Some (n - 87)%N
  else if ((65 <=? n) && (n <=? 70))%N then Some (n - 55)%N
  else None.

(** [bytes.fromhex(s)]: pairs of hexadecimal digits, with whitespace allowed
    before a pair; [None] stands for [ValueError]. *)
Fixpoint bytes_fromhex (s : string) : option (list N) :=
  match s with
  | EmptyString => Some []
  | String c s' =>
      if is_ascii_space c then bytes_fromhex s'
      else
        match hex_val c, s' with
        | Some top, String c' s'' =>
            match hex_val c' with
            | Some bot =>
                option_map (cons (16 * top + bot)%N) (bytes_fromhex s'')
            | None => None
            end
        | _, _ => None
        end
  end.

(** The number a sequence of bytes stands for, first byte first. *)
Definition be_value (bytes : list N) : N :=
  fold_left (fun acc b => (256 * acc + b)%N) bytes 0%N.

(** [ObjectId(s)] for a string: the string needs 24 characters that
    [bytes.fromhex] accepts, else [InvalidId] is raised ([None]).  A string
    with blanks among its 24 characters gives fewer than twelve bytes, which
    is the id of no document; it is [None] here too. *)
Definition ObjectId (s : string) : option N :=
  if (String.length s =? 24)%nat then
    match bytes_fromhex s with
    | Some bytes =>
        if (List.length bytes =? 12)%nat then Some (be_value bytes) else None
    | None => None
    end
  else None.

(** [DatabaseManager.update_task_status]; an exception in the [try] is
    logged and the result is [False]. *)
Definition update_task_status (now : datetime) (task_id : string)
    (new_status : string) (w : world) : bool * world :=
  match ObjectId task_id with
  | None => (false, w)
  | Some o =>
      let '(modified_count, docs) :=
        update_one (IdOid o) [SetStatus new_status; SetUpdatedAt now] (tasks w) in
      ((0 <? modified_count)%nat,
       {| tasks := docs; next_oid := next_oid w; jobs := jobs w;
          trace := trace w ++ [UpdateOne (IdOid o)] |})
  end.

(** [TaskManager._send_task_reminder]: the lines it logs. *)
Definition _send_task_reminder (task_id : id_value) (reminder_type : string)
    (w : world) : list string :=
  match get_task task_id w with
  | Some t =>
      if existsb (String.eqb (status (body t))) ["pending"; "in_progress"]
      then
        [ ("REMINDER: Task '" ++ task (body t) ++ "' is " ++ reminder_type)%string;
          ("Assignee: " ++ assignee (body t) ++ ", Priority: "
           ++ priority (body t))%string ]
      else []
  | None => []
  end.

(** [TaskManager._check_overdue_tasks]: the lines it logs. *)
Definition _check_overdue_tasks (now : datetime) (w : world) : list string :=
  map (fun t => ("OVERDUE TASK: '" ++ task (body t) ++ "' (Assignee: "
                 ++ assignee (body t) ++ ")")%string)
      (get_overdue_tasks now w).

(** What the scheduler does when a job is due: it calls the job's function
    with the job's arguments. *)
Definition run_job (now : datetime) (j : job) (w : world) : list string :=
  match func j with
  | SendTaskReminder task_id reminder_type =>
      _send_task_reminder task_id reminder_type w
  | CheckOverdueTasks => _check_overdue_tasks now w
  end.

(** [s.split(sep)] for a separator of one character. *)
Fixpoint py_split (sep : ascii) (s : string) : list string :=
  match s with
  | EmptyString => [EmptyString]
  | String c s' =>
      if Ascii.eqb c sep then EmptyString :: py_split sep s'
      else match py_split sep s' with
           | [] => [String c EmptyString]
           | x :: xs => String c x :: xs
           end
  end.

(** [s.split(sep, 1)] for a separator of one character. *)
Fixpoint py_split_once (sep : ascii) (s : string) : list string :=
  match s with
  | EmptyString => [EmptyString]
  | String c s' =>
      if Ascii.eqb c sep then [EmptyString; s']
      else match py_split_once sep s' with
           | [] => [String c EmptyString]
           | x :: xs => String c x :: xs
           end
  end.

(** The body of the loop of
    [OllamaNLPProcessor._extract_action_items_from_text] for one line: the
    items it appends. *)
Definition extract_from_line (line : string) : list raw_item :=
  let line := py_strip line in
  if negb (String.eqb line "")
     && (py_in "task" (py_lower line) || py_in "action" (py_lower line)
         || py_in "todo" (py_lower line))
  then
    if py_in ":" line then
      match py_split_once ":" line with
      | [_; rest] =>
          let task_text := py_strip rest in
          if negb (String.eqb task_text "") then
            [ {| raw_task := Some task_text;
                 raw_assignee := Some "TBD";
                 raw_priority := Some "medium";
                 raw_context := Some "";
                 raw_transcript_id := None;
                 raw_suggested_deadline := None;
                 raw_actual_deadline := None |} ]
          else []
      | _ => []
      end
    else []
  else [].

(** [OllamaNLPProcessor._extract_action_items_from_text] *)
Definition _extract_action_items_from_text (text : string) : list raw_item :=
  flat_map extract_from_line (py_split "010" text).

(** What [create_task] stores for an item of a batch. *)
Definition stored_for (meeting : option string) (item : raw_item)
    (d : task_doc) : Prop :=
  task (body d) = py_strip (default "" (raw_task item))
  /\ assignee (body d) = py_strip (default "TBD" (raw_assignee item))
  /\ priority (body d) = py_lower (default "medium" (raw_priority item))
  /\ context (body d) = py_strip (default "" (raw_context item))
  /\ status (body d) = "pending"
  /\ meeting_id (body d) = meeting.

(** [add_job] under a condition, on the job store alone. *)
Definition insert_if (c : bool) (job_id : string) (j : job)
    (m : gmap string job) : gmap string job :=
  if c then <[job_id := j]> m else m.

(** The same instant of the same day, at midnight. *)
Definition midnight (d : datetime) : datetime :=
  {| year := year d; month := month d; day := day d; usec := 0 |}.

(** The three jobs of a task with the deadline [deadline]. *)
Definition job_1day (task_id : id_value) (reminder_date : datetime) : job :=
  {| func := SendTaskReminder task_id "1 day before deadline";
     job_trigger := DateTrigger reminder_date |}.

Definition job_deadline (task_id : id_value) (deadline : datetime) : job :=
  {| func := SendTaskReminder task_id "deadline today";
     job_trigger := DateTrigger deadline |}.

Definition job_overdue : job :=
  {| func := CheckOverdueTasks; job_trigger := IntervalTrigger 1 |}.

(** The ids of the stored documents differ and were all handed out. *)
Definition ids_fresh (w : world) : Prop :=
  NoDup (map _id (tasks w))
  /\ Forall (fun d => (_id d < next_oid w)%N) (tasks w).

(** ** Sample inputs *)

Definition item_with (task_text : string) (assignee_text priority_text : option string)
  : raw_item :=
  {| raw_task := Some task_text; raw_assignee := assignee_text;
     raw_priority := priority_text; raw_context := None;
     raw_transcript_id := None; raw_suggested_deadline := None;
     raw_actual_deadline := None |}.

(** An item that brings its own deadline. *)
Definition item_due (task_text deadline : string) : raw_item :=
  {| raw_task := Some task_text; raw_assignee := None;
     raw_priority := None; raw_context := None;
     raw_transcript_id := None; raw_suggested_deadline := None;
     raw_actual_deadline := Some deadline |}.

(** 2024-01-[d], ten o'clock in the morning. *)
Definition jan_2024 (d : Z) : datetime :=
  {| year := 2024; month := 1; day := d; usec := 36000000000 |}.

(** The store after one task was created on 2024-01-15, and its document. *)
Definition sample_world : world :=
  snd (create_task (jan_2024 15) (item_with "Book a room" None None) None
         empty_world).

Definition sample_doc : task_doc :=
  {| _id := 0%N;
     body := {| task := "Book a room"; assignee := "TBD"; priority := "medium";
                context := ""; status := "pending"; meeting_id := None;
                transcript_id := None; suggested_deadline := None;
                actual_deadline := Some "2024-01-22";
                created_at := jan_2024 15; updated_at := jan_2024 15 |} |}.

(** * Properties *)

(** ** Strings *)

Lemma py_rstrip_head c r : py_isspace c = false -> py_rstrip (String c r) <> "".
Proof.
  intros Hc. simpl. destruct (py_rstrip r); [rewrite Hc|]; discriminate.
Qed.

Lemma py_lstrip_cases s :
  (py_lstrip s = "" /\ all_space s = true)
  \/ (exists c r, py_lstrip s = String c r /\ py_isspace c = false
                  /\ all_space s = false).
Proof.
  induction s as [|c s IH]; simpl.
  - left; split; reflexivity.
  - destruct (py_isspace c) eqn:Hc; simpl.
    + exact IH.
    + right. exists c, s. repeat split; assumption.
Qed.

Lemma py_strip_empty_iff s : py_strip s = "" <-> all_space s = true.
Proof.
  unfold py_strip. destruct (py_lstrip_cases s) as [[Hl Ha]|(c & r & Hl & Hc & Ha)].
  - rewrite Hl, Ha. simpl. split; reflexivity.
  - rewrite Hl, Ha. split; [|discriminate].
    intros H. exfalso. exact (py_rstrip_head c r Hc H).
Qed.

Lemma string_eqb_empty s : String.eqb s "" = true <-> s = "".
Proof. apply String.eqb_eq. Qed.

(** ** The calendar *)

Lemma month_cases m :
  1 <= m <= 12 ->
  m = 1 \/ m = 2 \/ m = 3 \/ m = 4 \/ m = 5 \/ m = 6 \/ m = 7 \/ m = 8
  \/ m = 9 \/ m = 10 \/ m = 11 \/ m = 12.
Proof. lia. Qed.

Lemma days_before_year_bounds y :
  1 <= y <= 9998 -> 0 <= _days_before_year y <= 3651329.
Proof. intros H. unfold _days_before_year. Z.div_mod_to_equations. lia. Qed.

Lemma days_before_month_bounds y m :
  1 <= m <= 12 -> 0 <= _days_before_month y m <= 335.
Proof.
  intros H. unfold _days_before_month.
  destruct (month_cases m H) as [->|[->|[->|[->|[->|[->|[->|[->|[->|[->|[->| ->]]]]]]]]]]];
    simpl; destruct (_is_leap y); lia.
Qed.

Lemma days_in_month_bounds y m : 1 <= m <= 12 -> 28 <= _days_in_month y m <= 31.
Proof.
  intros H. unfold _days_in_month.
  destruct (month_cases m H) as [->|[->|[->|[->|[->|[->|[->|[->|[->|[->|[->| ->]]]]]]]]]]];
    simpl; try destruct (_is_leap y); lia.
Qed.

Lemma clock_ok_inv now :
  clock_ok now = true ->
  1 <= year now <= 9998 /\ 1 <= month now <= 12
  /\ 1 <= day now <= _days_in_month (year now) (month now).
Proof. unfold clock_ok. intros H. lia. Qed.

Lemma toordinal_bounds now :
  clock_ok now = true -> 1 <= toordinal now <= 3651695.
Proof.
  intros H. apply clock_ok_inv in H. destruct H as (Hy & Hm & Hd).
  pose proof (days_before_year_bounds _ Hy).
  pose proof (days_before_month_bounds (year now) _ Hm).
  pose proof (days_in_month_bounds (year now) _ Hm).
  unfold toordinal, _ymd2ord. lia.
Qed.

Lemma add_days_Some now k :
  clock_ok now = true -> 0 <= k <= 7 -> exists d, add_days now k = Some d.
Proof.
  intros H Hk. pose proof (toordinal_bounds now H) as Ho.
  unfold add_days.
  replace ((0 <? toordinal now + k) && (toordinal now + k <=? _MAXORDINAL))
    with true by (unfold _MAXORDINAL; lia).
  destruct (_ord2ymd (toordinal now + k)) as [[y m] d].
  eexists. reflexivity.
Qed.

(** *** [_ord2ymd] inverts [_ymd2ord] *)

Lemma month_day_checked leap :
  forallb (month_day_check leap) (seq 0 (if leap then 366 else 365)) = true.
Proof. destruct leap; vm_compute; reflexivity. Qed.

Lemma month_day_ok (n : Z) (leap : bool) :
  0 <= n < (if leap then 366 else 365) ->
  1 <= fst (month_day n leap) <= 12
  /\ 1 <= snd (month_day n leap)
     <= _DAYS_IN_MONTH (fst (month_day n leap))
        + (if (fst (month_day n leap) =? 2) && leap then 1 else 0)
  /\ _DAYS_BEFORE_MONTH (fst (month_day n leap))
     + (if (2 <? fst (month_day n leap)) && leap then 1 else 0)
     + snd (month_day n leap) = n + 1.
Proof.
  intros Hn.
  pose proof (month_day_checked leap) as H.
  rewrite forallb_forall in H.
  assert (Hin : In (Z.to_nat n) (seq 0 (if leap then 366 else 365))).
  { apply in_seq. destruct leap; lia. }
  specialize (H (Z.to_nat n) Hin). unfold month_day_check in H.
  rewrite Z2Nat.id in H by lia.
  destruct (month_day n leap) as [m d]. simpl fst. simpl snd.
  lia.
Qed.

Lemma ord2ymd_month_day ordinal :
  _ord2ymd ordinal =
  let n := ordinal - 1 in
  let n400 := n / _DI400Y in
  let n := n mod _DI400Y in
  let n100 := n / _DI100Y in
  let n := n mod _DI100Y in
  let n4 := n / _DI4Y in
  let n := n mod _DI4Y in
  let n1 := n / 365 in
  let n := n mod 365 in
  let y := n400 * 400 + 1 + n100 * 100 + n4 * 4 + n1 in
  if (n1 =? 4) || (n100 =? 4) then (y - 1, 12, 31)
  else
    let leapyear := (n1 =? 3) && (negb (n4 =? 24) || (n100 =? 3)) in
    (y, fst (month_day n leapyear), snd (month_day n leapyear)).
Proof.
  unfold _ord2ymd, month_day. cbv zeta.
  destruct (_ || _); [reflexivity|].
  match goal with |- context [?a <? ?b] => destruct (a <? b) end; reflexivity.
Qed.

Ltac by_div := Z.div_mod_to_equations; lia.

Lemma is_leap_of_cycles n400 n100 n4 n1 :
  0 <= n400 -> 0 <= n100 <= 3 -> 0 <= n4 <= 24 -> 0 <= n1 <= 3 ->
  _is_leap (n400 * 400 + 1 + n100 * 100 + n4 * 4 + n1)
  = (n1 =? 3) && (negb (n4 =? 24) || (n100 =? 3)).
Proof.
  intros H400 H100 H4 H1. unfold _is_leap.
  destruct (Z.eqb_spec n1 3) as [E1|E1]; simpl andb.
  - replace ((n400 * 400 + 1 + n100 * 100 + n4 * 4 + n1) mod 4 =? 0)
      with true by (symmetry; apply Z.eqb_eq; by_div).
    simpl andb.
    destruct (Z.eqb_spec n4 24) as [E4|E4]; simpl negb; simpl orb.
    + replace ((n400 * 400 + 1 + n100 * 100 + n4 * 4 + n1) mod 100 =? 0)
        with true by (symmetry; apply Z.eqb_eq; by_div).
      simpl. destruct (Z.eqb_spec n100 3) as [E100|E100].
      * apply Z.eqb_eq. by_div.
      * apply Z.eqb_neq. by_div.
    + replace ((n400 * 400 + 1 + n100 * 100 + n4 * 4 + n1) mod 100 =? 0)
        with false by (symmetry; apply Z.eqb_neq; by_div).
      reflexivity.
  - replace ((n400 * 400 + 1 + n100 * 100 + n4 * 4 + n1) mod 4 =? 0)
      with false by (symmetry; apply Z.eqb_neq; by_div).
    reflexivity.
Qed.

(** Every ordinal of the years 1..9999 is the ordinal of the date
    [_ord2ymd] gives for it, and that date is a calendar date. *)
Lemma ord2ymd_ok n :
  1 <= n <= _MAXORDINAL ->
  let '(y, m, d) := _ord2ymd n in
  1 <= y <= 9999 /\ 1 <= m <= 12 /\ 1 <= d <= _days_in_month y m
  /\ _ymd2ord y m d = n.
Proof.
  intros Hn. rewrite ord2ymd_month_day. cbv zeta.
  unfold _DI400Y, _DI100Y, _DI4Y, _MAXORDINAL in *.
  set (n0 := n - 1).
  set (n400 := n0 / 146097). set (r400 := n0 mod 146097).
  set (n100 := r400 / 36524). set (r100 := r400 mod 36524).
  set (n4 := r100 / 1461). set (r4 := r100 mod 1461).
  set (n1 := r4 / 365). set (r1 := r4 mod 365).
  assert (H400 : n0 = 146097 * n400 + r400 /\ 0 <= r400 < 146097)
    by (subst n400 r400; by_div).
  assert (H100 : r400 = 36524 * n100 + r100 /\ 0 <= r100 < 36524)
    by (subst n100 r100; by_div).
  assert (H4 : r100 = 1461 * n4 + r4 /\ 0 <= r4 < 1461)
    by (subst n4 r4; by_div).
  assert (H1 : r4 = 365 * n1 + r1 /\ 0 <= r1 < 365)
    by (subst n1 r1; by_div).
  assert (Hn0 : n0 = n - 1) by reflexivity.
  clearbody n0 n400 r400 n100 r100 n4 r4 n1 r1.
  assert (Hb : 0 <= n400 <= 24 /\ 0 <= n100 <= 4 /\ 0 <= n4 <= 24
               /\ 0 <= n1 <= 4) by lia.
  destruct ((n1 =? 4) || (n100 =? 4)) eqn:Hsp.
  - (* the last day of a leap year *)
    unfold _ymd2ord, _days_in_month, _days_before_month, _days_before_year,
      _is_leap.
    simpl _DAYS_BEFORE_MONTH. simpl _DAYS_IN_MONTH.
    change (12 =? 2) with false. change (2 <? 12) with true. simpl andb.
    apply orb_prop in Hsp.
    assert (Hl :
      ((n400 * 400 + 1 + n100 * 100 + n4 * 4 + n1 - 1) mod 4 =? 0)
      && (negb ((n400 * 400 + 1 + n100 * 100 + n4 * 4 + n1 - 1) mod 100 =? 0)
          || ((n400 * 400 + 1 + n100 * 100 + n4 * 4 + n1 - 1) mod 400 =? 0))
      = true).
    { assert (n100 = 4 \/ (n100 <> 4 /\ n1 = 4)) as [Hx|[Hx Hx']]
        by (destruct Hsp as [Hs|Hs]; apply Z.eqb_eq in Hs; lia).
      - apply andb_true_intro. split; [apply Z.eqb_eq; by_div|].
        apply orb_true_intro. right. apply Z.eqb_eq. by_div.
      - apply andb_true_intro. split; [apply Z.eqb_eq; by_div|].
        apply orb_true_intro. left. apply negb_true_iff. apply Z.eqb_neq.
        by_div. }
    rewrite Hl.
    assert (Hs : n1 = 4 \/ n100 = 4)
      by (destruct Hsp as [Hs|Hs]; apply Z.eqb_eq in Hs; lia).
    split; [lia|]. split; [lia|]. split; [lia|].
    destruct Hs; by_div.
  - apply orb_false_elim in Hsp. destruct Hsp as [Hs1 Hs2].
    apply Z.eqb_neq in Hs1. apply Z.eqb_neq in Hs2.
    rewrite <- (is_leap_of_cycles n400 n100 n4 n1) by lia.
    set (y := n400 * 400 + 1 + n100 * 100 + n4 * 4 + n1).
    assert (Hr : 0 <= r1 < (if _is_leap y then 366 else 365))
      by (destruct (_is_leap y); lia).
    destruct (month_day_ok r1 (_is_leap y) Hr) as (Hm & Hd & Ho).
    set (m := fst (month_day r1 (_is_leap y))) in *.
    set (d := snd (month_day r1 (_is_leap y))) in *.
    clearbody m d.
    unfold _ymd2ord, _days_in_month, _days_before_month.
    split; [unfold y; lia|]. split; [exact Hm|].
    split.
    + destruct ((m =? 2) && _is_leap y) eqn:E; [|lia].
      apply andb_prop in E. destruct E as [E _]. apply Z.eqb_eq in E.
      subst m. simpl in Hd. lia.
    + assert (Hy : _days_before_year y
                   = 146097 * n400 + 36524 * n100 + 1461 * n4 + 365 * n1).
      { unfold _days_before_year, y. by_div. }
      lia.
Qed.

(** [dt + timedelta(days=k)], when it exists, is the calendar date [k] days
    after [dt], at the same time of the day. *)
Lemma add_days_spec dt k d :
  add_days dt k = Some d ->
  valid_date d = true /\ toordinal d = toordinal dt + k /\ usec d = usec dt.
Proof.
  unfold add_days. intros H.
  destruct ((0 <? toordinal dt + k) && (toordinal dt + k <=? _MAXORDINAL))
    eqn:Hr; [|discriminate].
  assert (Ho : 1 <= toordinal dt + k <= _MAXORDINAL) by lia.
  pose proof (ord2ymd_ok _ Ho) as Hok.
  destruct (_ord2ymd (toordinal dt + k)) as [[y m] d0].
  injection H as <-. unfold valid_date, toordinal. simpl.
  destruct Hok as (Hy & Hm & Hd & Hord).
  split; [lia|]. split; [exact Hord|reflexivity].
Qed.

Lemma days_before_year_mono a b :
  1 <= a <= b -> _days_before_year a <= _days_before_year b.
Proof. intros H. unfold _days_before_year. by_div. Qed.

Lemma days_before_year_succ y :
  _days_before_year (y + 1)
  = _days_before_year y + 365 + (if _is_leap y then 1 else 0).
Proof.
  unfold _days_before_year.
  destruct (_is_leap y) eqn:E; unfold _is_leap in E; by_div.
Qed.

Lemma valid_date_inv d :
  valid_date d = true ->
  1 <= year d <= 9999 /\ 1 <= month d <= 12
  /\ 1 <= day d <= _days_in_month (year d) (month d).
Proof. unfold valid_date. intros H. lia. Qed.

Lemma toordinal_in_year d :
  valid_date d = true ->
  _days_before_year (year d) < toordinal d <= _days_before_year (year d + 1).
Proof.
  intros H. apply valid_date_inv in H. destruct H as (Hy & Hm & Hd).
  rewrite days_before_year_succ.
  unfold toordinal, _ymd2ord, _days_before_month, _days_in_month in *.
  destruct (month_cases _ Hm)
    as [E|[E|[E|[E|[E|[E|[E|[E|[E|[E|[E|E]]]]]]]]]]];
    rewrite E in *; simpl in *; destruct (_is_leap (year d)); simpl in *; lia.
Qed.

(** Adding days never goes back in the calendar years. *)
Lemma add_days_year dt k d :
  valid_date dt = true -> 0 <= k -> add_days dt k = Some d ->
  year dt <= year d.
Proof.
  intros Hv Hk H. destruct (add_days_spec _ _ _ H) as (Hvd & Ho & _).
  pose proof (toordinal_in_year _ Hv) as H1.
  pose proof (toordinal_in_year _ Hvd) as H2.
  apply valid_date_inv in Hv. apply valid_date_inv in Hvd.
  destruct (Z_lt_le_dec (year d) (year dt)) as [Hlt|Hge]; [|exact Hge].
  pose proof (days_before_year_mono (year d + 1) (year dt) ltac:(lia)).
  lia.
Qed.

Lemma clock_ok_valid now : clock_ok now = true -> valid_date now = true.
Proof. unfold clock_ok, valid_date. intros H. lia. Qed.

(** *** The order of dates is the order of their ordinals *)

Lemma days_before_month_succ y m :
  1 <= m <= 11 ->
  _days_before_month y (m + 1) = _days_before_month y m + _days_in_month y m.
Proof.
  intros H. unfold _days_before_month, _days_in_month.
  assert (Hc : 1 <= m <= 12) by lia.
  destruct (month_cases m Hc)
    as [->|[->|[->|[->|[->|[->|[->|[->|[->|[->|[->| ->]]]]]]]]]]];
    simpl; destruct (_is_leap y); simpl; lia.
Qed.

Lemma days_before_month_steps y m k :
  1 <= m -> m + Z.of_nat k <= 12 ->
  _days_before_month y m <= _days_before_month y (m + Z.of_nat k).
Proof.
  intros H1. induction k as [|k IH]; intros H2.
  - rewrite Z.add_0_r. lia.
  - replace (m + Z.of_nat (S k)) with (m + Z.of_nat k + 1) in * by lia.
    rewrite days_before_month_succ by lia.
    pose proof (days_in_month_bounds y (m + Z.of_nat k) ltac:(lia)).
    specialize (IH ltac:(lia)). lia.
Qed.

Lemma days_before_month_mono y m1 m2 :
  1 <= m1 -> m1 <= m2 -> m2 <= 12 ->
  _days_before_month y m1 <= _days_before_month y m2.
Proof.
  intros H1 H12 H2.
  replace m2 with (m1 + Z.of_nat (Z.to_nat (m2 - m1))) by lia.
  apply days_before_month_steps; lia.
Qed.

Lemma date_compare_toordinal a b :
  valid_date a = true -> valid_date b = true ->
  date_compare a b = (toordinal a ?= toordinal b).
Proof.
  intros Ha Hb.
  pose proof (toordinal_in_year _ Ha) as Oa.
  pose proof (toordinal_in_year _ Hb) as Ob.
  apply valid_date_inv in Ha. apply valid_date_inv in Hb.
  destruct Ha as (Hya & Hma & Hda), Hb as (Hyb & Hmb & Hdb).
  unfold date_compare.
  destruct (Z.compare_spec (year a) (year b)) as [Ey|Ey|Ey].
  - unfold toordinal, _ymd2ord. rewrite Ey in *.
    destruct (Z.compare_spec (month a) (month b)) as [Em|Em|Em].
    + rewrite Em. destruct (Z.compare_spec (day a) (day b));
        symmetry; [apply Z.compare_eq_iff|apply Z.compare_lt_iff
                  |apply Z.compare_gt_iff]; lia.
    + symmetry. apply Z.compare_lt_iff.
      pose proof (days_before_month_succ (year b) (month a) ltac:(lia)).
      pose proof (days_before_month_mono (year b) (month a + 1) (month b)
                    ltac:(lia) ltac:(lia) ltac:(lia)).
      lia.
    + symmetry. apply Z.compare_gt_iff.
      pose proof (days_before_month_succ (year b) (month b) ltac:(lia)).
      pose proof (days_before_month_mono (year b) (month b + 1) (month a)
                    ltac:(lia) ltac:(lia) ltac:(lia)).
      lia.
  - symmetry. apply Z.compare_lt_iff.
    pose proof (days_before_year_mono (year a + 1) (year b) ltac:(lia)). lia.
  - symmetry. apply Z.compare_gt_iff.
    pose proof (days_before_year_mono (year b + 1) (year a) ltac:(lia)). lia.
Qed.

(** *** The order of date strings *)

Lemma digit_char_compare a b :
  0 <= a <= 9 -> 0 <= b <= 9 ->
  Ascii.compare (digit_char a) (digit_char b) = (a ?= b).
Proof.
  intros Ha Hb. unfold Ascii.compare, digit_char.
  rewrite !N_ascii_embedding by lia.
  destruct (Z.compare_spec a b) as [E|E|E].
  - subst. apply N.compare_refl.
  - apply N.compare_lt_iff. lia.
  - apply N.compare_gt_iff. lia.
Qed.

Lemma ascii_compare_refl c : Ascii.compare c c = Eq.
Proof. unfold Ascii.compare. apply N.compare_refl. Qed.

Lemma string_compare_cons c1 s1 c2 s2 :
  String.compare (String c1 s1) (String c2 s2)
  = match Ascii.compare c1 c2 with
    | Eq => String.compare s1 s2
    | c => c
    end.
Proof. reflexivity. Qed.

Lemma append_cons c s t : (String c s ++ t)%string = String c (s ++ t)%string.
Proof. reflexivity. Qed.

Lemma append_empty s : (EmptyString ++ s)%string = s.
Proof. reflexivity. Qed.

Lemma append_empty_r s : (s ++ EmptyString)%string = s.
Proof.
  induction s as [|c s IH]; [reflexivity|].
  rewrite append_cons, IH. reflexivity.
Qed.

Lemma dec_digits_step fuel n acc :
  dec_digits (S fuel) n acc
  = if n <? 10 then String (digit_char (n mod 10)) acc
    else dec_digits fuel (n / 10) (String (digit_char (n mod 10)) acc).
Proof. reflexivity. Qed.

Lemma fmt_year_four y :
  1000 <= y <= 9999 ->
  fmt_year y
  = String (digit_char (y / 10 / 10 / 10 mod 10))
      (String (digit_char (y / 10 / 10 mod 10))
         (String (digit_char (y / 10 mod 10))
            (String (digit_char (y mod 10)) EmptyString))).
Proof.
  intros Hy. unfold fmt_year.
  rewrite dec_digits_step.
  replace (y <? 10) with false by lia.
  rewrite dec_digits_step.
  replace (y / 10 <? 10) with false
    by (symmetry; apply Z.ltb_ge; Z.div_mod_to_equations; lia).
  rewrite dec_digits_step.
  replace (y / 10 / 10 <? 10) with false
    by (symmetry; apply Z.ltb_ge; Z.div_mod_to_equations; lia).
  rewrite dec_digits_step.
  replace (y / 10 / 10 / 10 <? 10) with true
    by (symmetry; apply Z.ltb_lt; Z.div_mod_to_equations; lia).
  reflexivity.
Qed.

Ltac settle_compare x y :=
  first
    [ replace (x ?= y) with Eq
        by (symmetry; apply Z.compare_eq_iff; Z.div_mod_to_equations; lia)
    | replace (x ?= y) with Lt
        by (symmetry; apply Z.compare_lt_iff; Z.div_mod_to_equations; lia)
    | replace (x ?= y) with Gt
        by (symmetry; apply Z.compare_gt_iff; Z.div_mod_to_equations; lia) ];
  reflexivity.

Lemma fmt_year_compare x y s t :
  1000 <= x <= 9999 -> 1000 <= y <= 9999 ->
  String.compare (fmt_year x ++ s) (fmt_year y ++ t)
  = match x ?= y with
    | Eq => String.compare s t
    | c => c
    end.
Proof.
  intros Hx Hy. rewrite !fmt_year_four by assumption.
  rewrite !append_cons, !append_empty, !string_compare_cons.
  rewrite !digit_char_compare by (Z.div_mod_to_equations; lia).
  destruct (Z.compare_spec (x / 10 / 10 / 10 mod 10) (y / 10 / 10 / 10 mod 10));
    [destruct (Z.compare_spec (x / 10 / 10 mod 10) (y / 10 / 10 mod 10));
     [destruct (Z.compare_spec (x / 10 mod 10) (y / 10 mod 10));
      [destruct (Z.compare_spec (x mod 10) (y mod 10))|..]|..]|..];
    settle_compare x y.
Qed.

Lemma fmt_2_compare x y s t :
  0 <= x <= 99 -> 0 <= y <= 99 ->
  String.compare (fmt_2 x ++ s) (fmt_2 y ++ t)
  = match x ?= y with
    | Eq => String.compare s t
    | c => c
    end.
Proof.
  intros Hx Hy. unfold fmt_2.
  rewrite !append_cons, !append_empty, !string_compare_cons.
  rewrite !digit_char_compare by (Z.div_mod_to_equations; lia).
  destruct (Z.compare_spec (x / 10) (y / 10));
    [destruct (Z.compare_spec (x mod 10) (y mod 10))|..];
    settle_compare x y.
Qed.

Lemma date_wf_inv d :
  date_wf d = true ->
  1000 <= year d <= 9999 /\ 1 <= month d <= 12 /\ 1 <= day d <= 31.
Proof. unfold date_wf. intros H. lia. Qed.

(** On dates printed with ten characters, the order of the strings is the
    order of the calendar. *)
Lemma strftime_compare a b :
  date_wf a = true -> date_wf b = true ->
  String.compare (strftime a) (strftime b) = date_compare a b.
Proof.
  intros Ha Hb.
  apply date_wf_inv in Ha. apply date_wf_inv in Hb.
  destruct Ha as (Hya & Hma & Hda), Hb as (Hyb & Hmb & Hdb).
  unfold strftime, date_compare.
  rewrite fmt_year_compare by assumption.
  destruct (year a ?= year b); try reflexivity.
  rewrite !append_cons, !append_empty, string_compare_cons, ascii_compare_refl.
  rewrite fmt_2_compare by lia.
  destruct (month a ?= month b); try reflexivity.
  rewrite string_compare_cons, ascii_compare_refl.
  rewrite <- (append_empty_r (fmt_2 (day a))).
  rewrite <- (append_empty_r (fmt_2 (day b))).
  rewrite fmt_2_compare by lia.
  destruct (day a ?= day b); reflexivity.
Qed.

(** *** The shape of a printed date *)

Lemma is_digit_digit_char x : 0 <= x <= 9 -> is_digit (digit_char x) = true.
Proof.
  intros H. unfold is_digit, digit_char.
  rewrite N_ascii_embedding by lia. cbv zeta.
  apply andb_true_intro. split; apply N.leb_le; lia.
Qed.

Lemma digit_val_digit_char x : 0 <= x <= 9 -> digit_val (digit_char x) = x.
Proof.
  intros H. unfold digit_val, digit_char.
  rewrite N_ascii_embedding by lia. lia.
Qed.

Lemma digit_char_not_dash x : 0 <= x <= 9 -> Ascii.eqb (digit_char x) "-" = false.
Proof.
  intros H. apply Ascii.eqb_neq. intros E.
  apply (f_equal N_of_ascii) in E. unfold digit_char in E.
  rewrite N_ascii_embedding in E by lia. simpl in E. lia.
Qed.

Lemma valid_date_wf d :
  valid_date d = true -> 1000 <= year d -> date_wf d = true.
Proof.
  intros H Hy. apply valid_date_inv in H. destruct H as (H1 & Hm & Hd).
  pose proof (days_in_month_bounds (year d) _ Hm).
  unfold date_wf. lia.
Qed.

Lemma strftime_shape d : date_wf d = true -> ymd_shape (strftime d) = true.
Proof.
  intros H. apply date_wf_inv in H. destruct H as (Hy & Hm & Hd).
  unfold strftime. rewrite fmt_year_four by exact Hy. unfold fmt_2.
  rewrite !append_cons, !append_empty. unfold ymd_shape.
  rewrite !is_digit_digit_char by by_div. reflexivity.
Qed.

(** A printed calendar date parses back to itself, at midnight. *)
Lemma strptime_strftime d :
  valid_date d = true -> 1000 <= year d ->
  strptime (strftime d)
  = Some {| year := year d; month := month d; day := day d; usec := 0 |}.
Proof.
  intros H Hy. apply valid_date_inv in H. destruct H as (H1 & Hm & Hd).
  pose proof (days_in_month_bounds (year d) _ Hm) as Hb.
  unfold strftime. rewrite fmt_year_four by lia. unfold fmt_2.
  rewrite !append_cons, !append_empty. unfold strptime.
  rewrite !is_digit_digit_char by by_div.
  rewrite Ascii.eqb_refl. simpl andb. cbv iota.
  unfold split_dash. rewrite !digit_char_not_dash by by_div.
  rewrite Ascii.eqb_refl.
  unfold parse_month, parse_day.
  rewrite !is_digit_digit_char by by_div. simpl andb. cbv iota.
  rewrite !digit_val_digit_char by by_div.
  replace (10 * (month d / 10) + month d mod 10) with (month d) by by_div.
  replace (10 * (day d / 10) + day d mod 10) with (day d) by by_div.
  replace ((1 <=? month d) && (month d <=? 12)) with true by lia.
  replace ((1 <=? day d) && (day d <=? 31)) with true by lia.
  replace (1000 * (year d / 10 / 10 / 10 mod 10)
           + 100 * (year d / 10 / 10 mod 10)
           + 10 * (year d / 10 mod 10) + year d mod 10)
    with (year d) by by_div.
  replace ((1 <=? year d) && (day d <=? _days_in_month (year d) (month d)))
    with true by lia.
  reflexivity.
Qed.

(** The date [k] days after the clock reading, for the offsets the code
    uses: it exists, it is the calendar date with the ordinal of today plus
    [k], and from the year 1000 on it is printed in the shape YYYY-MM-DD and
    parses back. *)
Lemma add_days_printed now k :
  clock_ok now = true -> 0 <= k <= 7 ->
  exists d,
    add_days now k = Some d
    /\ valid_date d = true
    /\ toordinal d = toordinal now + k
    /\ (1000 <= year now ->
        ymd_shape (strftime d) = true
        /\ strptime (strftime d)
           = Some {| year := year d; month := month d; day := day d;
                     usec := 0 |}).
Proof.
  intros Hc Hk. destruct (add_days_Some now k Hc Hk) as [d Hd].
  destruct (add_days_spec _ _ _ Hd) as (Hv & Ho & _).
  exists d. split; [exact Hd|]. split; [exact Hv|]. split; [exact Ho|].
  intros Hy.
  pose proof (add_days_year now k d (clock_ok_valid _ Hc) ltac:(lia) Hd) as Hyd.
  split.
  - apply strftime_shape. apply valid_date_wf; [exact Hv|lia].
  - apply strptime_strftime; [exact Hv|lia].
Qed.

(** The result of [strftime] depends on the calendar date only. *)
Lemma strftime_add_days_date a b k :
  year a = year b -> month a = month b -> day a = day b ->
  option_map strftime (add_days a k) = option_map strftime (add_days b k).
Proof.
  intros Hy Hm Hd. unfold add_days, toordinal. rewrite Hy, Hm, Hd.
  destruct ((0 <? _ymd2ord (year b) (month b) (day b) + k)
            && (_ymd2ord (year b) (month b) (day b) + k <=? _MAXORDINAL));
    [|reflexivity].
  destruct (_ord2ymd _) as [[y m] d]. reflexivity.
Qed.

(** ** Scheduling leaves the store alone *)

Lemma add_job_store job_id j w :
  tasks (add_job job_id j w) = tasks w
  /\ next_oid (add_job job_id j w) = next_oid w.
Proof. split; reflexivity. Qed.

Lemma schedule_store now task_id b w :
  tasks (_schedule_task_reminders now task_id b w) = tasks w
  /\ next_oid (_schedule_task_reminders now task_id b w) = next_oid w.
Proof.
  unfold _schedule_task_reminders.
  destruct (negb (truthy (actual_deadline b))); [split; reflexivity|].
  destruct (strptime _) as [deadline|]; [|split; reflexivity].
  destruct (add_days deadline (-1)) as [reminder_date|]; [|split; reflexivity].
  destruct (datetime_gtb reminder_date now), (date_geb deadline now);
    split; reflexivity.
Qed.

Lemma remove_job_world job_id w : snd (remove_job job_id w) = drop_job job_id w.
Proof. unfold remove_job. destruct (jobs w !! job_id); reflexivity. Qed.

Lemma cancel_unfold task_id w :
  _cancel_task_reminders task_id w
  = (Returned tt,
     drop_job ("overdue_check_" ++ id_text task_id)
       (drop_job ("reminder_deadline_" ++ id_text task_id)
          (drop_job ("reminder_1day_" ++ id_text task_id) w))).
Proof.
  unfold _cancel_task_reminders, job_ids. simpl.
  repeat match goal with
         | |- context [remove_job ?k ?w0] =>
             let H := fresh in
             pose proof (remove_job_world k w0) as H;
             destruct (remove_job k w0) as [[]]; simpl in H; subst
         end; reflexivity.
Qed.


Lemma reschedule_store now task_id w :
  tasks (snd (_reschedule_task_reminders now task_id w)) = tasks w
  /\ next_oid (snd (_reschedule_task_reminders now task_id w)) = next_oid w.
Proof.
  unfold _reschedule_task_reminders. rewrite cancel_unfold.
  destruct (get_task task_id _) as [t|]; [|split; reflexivity].
  simpl.
  match goal with
  | |- context [_schedule_task_reminders ?n ?i ?b ?w0] =>
      destruct (schedule_store n i b w0) as [Ht Hn]
  end.
  rewrite Ht, Hn. split; reflexivity.
Qed.

Lemma reschedule_returns now task_id w :
  fst (_reschedule_task_reminders now task_id w) = Returned tt.
Proof.
  unfold _reschedule_task_reminders. rewrite cancel_unfold.
  destruct (get_task task_id _); reflexivity.
Qed.

(** ** What [create_task] does *)

Lemma create_task_blank now task_data meeting w :
  blank_task task_data = true ->
  create_task now task_data meeting w
  = (Raised (ValueError "Task description is required"), w).
Proof.
  unfold blank_task. intros H. apply py_strip_empty_iff in H.
  unfold create_task. simpl. rewrite H. reflexivity.
Qed.

Lemma create_task_overflow now task_data meeting w :
  blank_task task_data = false ->
  deadline_policy_spec now task_data = None ->
  create_task now task_data meeting w = (Raised OverflowError, w).
Proof.
  unfold blank_task, deadline_policy_spec. intros Hb Hp.
  assert (Hne : String.eqb (py_strip (default "" (raw_task task_data))) "" = false).
  { apply not_true_is_false. intros E. apply String.eqb_eq in E.
    apply py_strip_empty_iff in E. congruence. }
  unfold create_task. simpl. rewrite Hne.
  destruct (raw_actual_deadline task_data) as [[|c a]|];
    destruct (raw_suggested_deadline task_data) as [[|c' s']|];
    simpl in *; try discriminate;
    destruct (add_days now 7); simpl in *; try discriminate; reflexivity.
Qed.

Lemma create_task_returns now task_data meeting w dl :
  blank_task task_data = false ->
  deadline_policy_spec now task_data = Some dl ->
  exists w' b,
    create_task now task_data meeting w = (Returned (oid_str (next_oid w)), w')
    /\ tasks w' = (tasks w ++ [{| _id := next_oid w; body := b |}])%list
    /\ next_oid w' = N.succ (next_oid w)
    /\ task b = py_strip (default "" (raw_task task_data))
    /\ assignee b = py_strip (default "TBD" (raw_assignee task_data))
    /\ priority b = py_lower (default "medium" (raw_priority task_data))
    /\ context b = py_strip (default "" (raw_context task_data))
    /\ status b = "pending"
    /\ meeting_id b = meeting
    /\ suggested_deadline b = raw_suggested_deadline task_data
    /\ actual_deadline b = Some dl.
Proof.
  unfold blank_task, deadline_policy_spec. intros Hb Hp.
  assert (Hne : String.eqb (py_strip (default "" (raw_task task_data))) "" = false).
  { apply not_true_is_false. intros E. apply String.eqb_eq in E.
    apply py_strip_empty_iff in E. congruence. }
  unfold create_task. simpl. rewrite Hne.
  destruct (raw_actual_deadline task_data) as [[|c a]|] eqn:Ha;
    destruct (raw_suggested_deadline task_data) as [[|c' s']|] eqn:Hs;
    simpl in *; try discriminate;
    try (destruct (add_days now 7) as [d7|]; simpl in *; try discriminate);
    injection Hp as <-;
    unfold save_task, insert_one; simpl;
    match goal with
    | |- context [_schedule_task_reminders ?n ?i ?b ?w0] =>
        destruct (schedule_store n i b w0) as [Ht Hn];
        exists (_schedule_task_reminders n i b w0)
    end;
    eexists; (split; [reflexivity|]);
    rewrite Ht, Hn; simpl; repeat split; reflexivity.
Qed.

Lemma truthy_Some v : truthy v = true -> exists c s, v = Some (String c s).
Proof. destruct v as [[|c s]|]; simpl; try discriminate. eauto. Qed.

Lemma deadline_policy_Some now task_data :
  clock_ok now = true -> exists dl, deadline_policy_spec now task_data = Some dl.
Proof.
  intros H. unfold deadline_policy_spec.
  destruct (truthy (raw_actual_deadline task_data)) eqn:Ha.
  { destruct (truthy_Some _ Ha) as (c & s & ->). eauto. }
  destruct (truthy (raw_suggested_deadline task_data)) eqn:Hs.
  { destruct (truthy_Some _ Hs) as (c & s & ->). eauto. }
  destruct (add_days_Some now 7 H ltac:(lia)) as [d ->]. simpl. eauto.
Qed.

(** C5: a raw item whose [task] is absent, empty or whitespace-only makes
    [create_task] raise the validation error ([ValueError]), and the failed
    call leaves the whole world as it was: no document is stored, no job is
    registered, no write is performed. *)
Theorem create_task_blank_is_rejected now task_data meeting w :
  blank_task task_data = true ->
  fst (create_task now task_data meeting w)
  = Raised (ValueError "Task description is required")
  /\ snd (create_task now task_data meeting w) = w
  /\ tasks (snd (create_task now task_data meeting w)) = tasks w.
Proof.
  intros H. rewrite (create_task_blank now task_data meeting w H).
  repeat split.
Qed.

Lemma create_task_blank_is_rejected_witness :
  blank_task (item_with "   " (Some "Ann") None) = true
  /\ fst (create_task (jan_2024 15) (item_with "   " (Some "Ann") None) None empty_world)
     = Raised (ValueError "Task description is required").
Proof.
  split; [reflexivity|].
  apply (create_task_blank_is_rejected (jan_2024 15)
           (item_with "   " (Some "Ann") None) None empty_world).
  reflexivity.
Defined.

(** C9: at [create_task] the default "TBD" is the value of [assignee] only
    when the key is absent; a provided assignee is stored trimmed, so one
    made of whitespace only is stored as the empty string and not as
    "TBD". *)
Theorem create_task_assignee_default now task_data meeting w :
  blank_task task_data = false ->
  clock_ok now = true ->
  exists w' b,
    create_task now task_data meeting w = (Returned (oid_str (next_oid w)), w')
    /\ tasks w' = (tasks w ++ [{| _id := next_oid w; body := b |}])%list
    /\ (raw_assignee task_data = None -> assignee b = "TBD")
    /\ (forall a, raw_assignee task_data = Some a -> assignee b = py_strip a)
    /\ (forall a, raw_assignee task_data = Some a -> all_space a = true ->
        assignee b = "" /\ assignee b <> "TBD").
Proof.
  intros Hb Hc.
  destruct (deadline_policy_Some now task_data Hc) as [dl Hdl].
  destruct (create_task_returns now task_data meeting w dl Hb Hdl)
    as (w' & b & Hr & Ht & _ & _ & Ha & _).
  exists w', b. split; [exact Hr|]. split; [exact Ht|].
  rewrite Ha. split; [|split].
  - intros ->. reflexivity.
  - intros a ->. reflexivity.
  - intros a -> Hsp. simpl. apply py_strip_empty_iff in Hsp. rewrite Hsp.
    split; [reflexivity|discriminate].
Qed.

Lemma create_task_assignee_default_witness :
  exists w' b,
    create_task (jan_2024 15) (item_with "Book a room" (Some "  ") None) None
      empty_world = (Returned (oid_str 0), w')
    /\ tasks w' = [{| _id := 0%N; body := b |}]
    /\ assignee b = "".
Proof.
  destruct (create_task_assignee_default (jan_2024 15)
              (item_with "Book a room" (Some "  ") None) None empty_world
              eq_refl eq_refl) as (w' & b & Hr & Ht & _ & _ & Hw).
  exists w', b. split; [exact Hr|]. split; [exact Ht|].
  exact (proj1 (Hw "  " eq_refl eq_refl)).
Defined.

(** C3: the [actual_deadline] that [create_task] persists is the provided
    [actual_deadline] if present; else the provided [suggested_deadline] if
    present; else the current time plus seven days in the format
    YYYY-MM-DD.  A field is present when it holds a non-empty string. *)
Theorem create_task_deadline_resolution now task_data meeting w :
  blank_task task_data = false ->
  clock_ok now = true ->
  exists w' b,
    create_task now task_data meeting w = (Returned (oid_str (next_oid w)), w')
    /\ tasks w' = (tasks w ++ [{| _id := next_oid w; body := b |}])%list
    /\ actual_deadline b = deadline_policy_spec now task_data
    /\ (forall a, raw_actual_deadline task_data = Some a -> a <> "" ->
        actual_deadline b = Some a)
    /\ (truthy (raw_actual_deadline task_data) = false ->
        forall s, raw_suggested_deadline task_data = Some s -> s <> "" ->
        actual_deadline b = Some s)
    /\ (truthy (raw_actual_deadline task_data) = false ->
        truthy (raw_suggested_deadline task_data) = false ->
        exists d, add_days now 7 = Some d
                  /\ valid_date d = true
                  /\ toordinal d = toordinal now + 7
                  /\ actual_deadline b = Some (strftime d)
                  /\ (1000 <= year now -> ymd_shape (strftime d) = true)).
Proof.
  intros Hb Hc.
  destruct (deadline_policy_Some now task_data Hc) as [dl Hdl].
  destruct (create_task_returns now task_data meeting w dl Hb Hdl)
    as (w' & b & Hr & Ht & _ & _ & _ & _ & _ & _ & _ & _ & Had).
  exists w', b. split; [exact Hr|]. split; [exact Ht|].
  rewrite Had, <- Hdl. split; [reflexivity|].
  unfold deadline_policy_spec. split; [|split].
  - intros a -> Ha. destruct a; [congruence|reflexivity].
  - intros -> s -> Hs. destruct s; [congruence|reflexivity].
  - intros -> ->.
    destruct (add_days_printed now 7 Hc ltac:(lia)) as (d & Hd & Hv & Ho & Hs).
    exists d. rewrite Hd. repeat split; try assumption. apply Hs.
Qed.

Lemma create_task_deadline_resolution_witness :
  exists w' b,
    create_task (jan_2024 15) (item_with "Book a room" None None) None
      empty_world = (Returned (oid_str 0), w')
    /\ tasks w' = [{| _id := 0%N; body := b |}]
    /\ actual_deadline b = Some "2024-01-22".
Proof.
  destruct (create_task_deadline_resolution (jan_2024 15)
              (item_with "Book a room" None None) None empty_world
              eq_refl eq_refl) as (w' & b & Hr & Ht & Hp & _).
  exists w', b. split; [exact Hr|]. split; [exact Ht|].
  rewrite Hp. reflexivity.
Defined.

(** In a batch, an item with a blank task is skipped and leaves no trace. *)
Lemma batch_skips_blank now item rest meeting transcript w :
  blank_task item = true ->
  create_tasks_from_action_items now (item :: rest) meeting transcript w
  = create_tasks_from_action_items now rest meeting transcript w.
Proof.
  intros Hb. simpl.
  rewrite create_task_blank; [reflexivity|].
  unfold blank_task in *. simpl. exact Hb.
Qed.

(** ** Looking documents up by id *)

Lemma find_one_str s docs : find_one (IdStr s) docs = None.
Proof. induction docs as [|d ds IH]; [reflexivity|exact IH]. Qed.

Lemma update_one_str s updates docs :
  update_one (IdStr s) updates docs = (O, docs).
Proof.
  induction docs as [|d ds IH]; [reflexivity|].
  simpl. rewrite IH. reflexivity.
Qed.

Lemma delete_one_str s docs : delete_one (IdStr s) docs = (O, docs).
Proof.
  induction docs as [|d ds IH]; [reflexivity|].
  simpl. rewrite IH. reflexivity.
Qed.

Lemma update_one_missing task_id updates docs :
  find_one task_id docs = None -> update_one task_id updates docs = (O, docs).
Proof.
  unfold find_one. induction docs as [|d ds IH]; [reflexivity|].
  simpl. destruct (id_matches task_id d); [discriminate|].
  intros H. rewrite (IH H). reflexivity.
Qed.


Lemma update_one_found task_id updates docs d :
  find_one task_id docs = Some d ->
  fst (update_one task_id updates docs)
  = if task_dict_eqb (set_fields updates (body d)) (body d) then O else 1%nat.
Proof.
  unfold find_one. induction docs as [|x xs IH]; [discriminate|].
  simpl. destruct (id_matches task_id x).
  - intros [= ->]. reflexivity.
  - intros H. specialize (IH H).
    destruct (update_one task_id updates xs). exact IH.
Qed.

(** ** Equality of stored dicts *)

Lemma opt_string_eqb_eq a b : opt_string_eqb a b = true <-> a = b.
Proof.
  destruct a as [x|], b as [y|]; simpl; split; intros H;
    try discriminate; try reflexivity.
  - apply String.eqb_eq in H. congruence.
  - injection H as ->. apply String.eqb_refl.
Qed.

Lemma datetime_eqb_eq a b : datetime_eqb a b = true <-> a = b.
Proof.
  unfold datetime_eqb. split.
  - intros H. destruct a, b; simpl in *.
    assert (year0 = year1 /\ month0 = month1 /\ day0 = day1 /\ usec0 = usec1)
      as (-> & -> & -> & ->) by lia.
    reflexivity.
  - intros ->. rewrite !Z.eqb_refl. reflexivity.
Qed.

Lemma task_dict_eqb_eq a b : task_dict_eqb a b = true <-> a = b.
Proof.
  unfold task_dict_eqb. split.
  - intros H. repeat (apply andb_prop in H; destruct H as [H ?]).
    repeat match goal with
           | E : String.eqb _ _ = true |- _ => apply String.eqb_eq in E
           | E : opt_string_eqb _ _ = true |- _ => apply opt_string_eqb_eq in E
           | E : datetime_eqb _ _ = true |- _ => apply datetime_eqb_eq in E
           end.
    destruct a, b; simpl in *; congruence.
  - intros ->.
    rewrite !String.eqb_refl.
    rewrite !(proj2 (opt_string_eqb_eq _ _) eq_refl).
    rewrite !(proj2 (datetime_eqb_eq _ _) eq_refl). reflexivity.
Qed.

Lemma update_one_unmodified task_id updates docs :
  fst (update_one task_id updates docs) = O ->
  snd (update_one task_id updates docs) = docs.
Proof.
  induction docs as [|x xs IH]; [reflexivity|].
  simpl. destruct (id_matches task_id x).
  - simpl. destruct (task_dict_eqb _ _) eqn:E; [|discriminate].
    intros _. apply task_dict_eqb_eq in E. rewrite E. destruct x; reflexivity.
  - destruct (update_one task_id updates xs) as [n ds]. simpl in *.
    intros H. rewrite (IH H). reflexivity.
Qed.

Lemma set_fields_app u1 u2 b :
  set_fields (u1 ++ u2) b = set_fields u2 (set_fields u1 b).
Proof. unfold set_fields. apply fold_left_app. Qed.

(** ** What [update_task] does *)

Lemma update_task_str now s updates w :
  update_task now (IdStr s) updates w
  = (false, {| tasks := tasks w; next_oid := next_oid w; jobs := jobs w;
               trace := trace w ++ [UpdateOne (IdStr s)] |}).
Proof. unfold update_task. rewrite update_one_str. reflexivity. Qed.

Lemma update_task_result now task_id updates w :
  fst (update_task now task_id updates w)
  = (0 <? fst (update_one task_id (updates ++ [SetUpdatedAt now]) (tasks w)))%nat.
Proof.
  unfold update_task.
  destruct (update_one task_id _ (tasks w)) as [n docs]. simpl.
  destruct (0 <? n)%nat; [|reflexivity].
  destruct (sets_actual_deadline _); [|reflexivity].
  match goal with
  | |- context [_reschedule_task_reminders ?n ?i ?w0] =>
      pose proof (reschedule_returns n i w0) as Hr;
      destruct (_reschedule_task_reminders n i w0) as [[] w2]
  end; simpl in *; [reflexivity|discriminate].
Qed.

Lemma update_task_false now task_id updates w :
  fst (update_task now task_id updates w) = false ->
  snd (update_task now task_id updates w)
  = {| tasks := tasks w; next_oid := next_oid w; jobs := jobs w;
       trace := trace w ++ [UpdateOne task_id] |}.
Proof.
  rewrite update_task_result. intros H.
  assert (H0 : fst (update_one task_id (updates ++ [SetUpdatedAt now]) (tasks w)) = O).
  { destruct (fst _); [reflexivity|discriminate]. }
  pose proof (update_one_unmodified _ _ _ H0) as Hd.
  unfold update_task.
  destruct (update_one task_id _ (tasks w)) as [n docs]. simpl in *. subst.
  reflexivity.
Qed.

(** ** The round trip through the public interface *)

(** The id [create_task] returns is a string; no stored ['_id'] equals it,
    so an update through it changes nothing, whatever the store holds. *)
Lemma update_with_returned_id now s updates w :
  fst (update_task now (IdStr s) updates w) = false
  /\ tasks (snd (update_task now (IdStr s) updates w)) = tasks w.
Proof. rewrite update_task_str. split; reflexivity. Qed.

(** With the ObjectId of the document, as the task list page passes it, the
    scenario goes through: the task is completed and never overdue. *)
Lemma object_id_round_trip later :
  let r1 := create_task (jan_2024 15)
              (item_with "Prepare the quarterly report" None None) None
              empty_world in
  let r2 := mark_task_in_progress (jan_2024 16) (IdOid 0) (snd r1) in
  let r3 := mark_task_completed (jan_2024 17) (IdOid 0) (snd r2) in
  fst r2 = true /\ fst r3 = true
  /\ map (fun d => status (body d)) (tasks (snd r3)) = ["completed"]
  /\ get_overdue_tasks later (snd r3) = [].
Proof.
  cbv zeta. split; [vm_compute; reflexivity|].
  split; [vm_compute; reflexivity|].
  split; [vm_compute; reflexivity|].
  unfold get_overdue_tasks.
  match goal with
  | |- context [tasks ?w] =>
      let t := eval vm_compute in (tasks w) in change (tasks w) with t
  end.
  reflexivity.
Qed.

(** C1 (the code departs from the claim): a task created at 2024-01-15
    without deadline fields is stored with [actual_deadline] 2024-01-22,
    but [mark_task_in_progress] and [mark_task_completed], called with the
    id that [create_task] returned, both return [False] and leave the status
    at [pending]; at 2024-01-23 [get_overdue_tasks] lists the task. *)
Theorem returned_id_round_trip :
  let r1 := create_task (jan_2024 15)
              (item_with "Prepare the quarterly report" None None) None
              empty_world in
  let task_id :=
    match fst r1 with Returned s => IdStr s | Raised _ => IdStr "" end in
  let r2 := mark_task_in_progress (jan_2024 16) task_id (snd r1) in
  let r3 := mark_task_completed (jan_2024 17) task_id (snd r2) in
  fst r1 = Returned "000000000000000000000000"
  /\ map (fun d => actual_deadline (body d)) (tasks (snd r1))
     = [Some "2024-01-22"]
  /\ fst r2 = false
  /\ fst r3 = false
  /\ map (fun d => status (body d)) (tasks (snd r3)) = ["pending"]
  /\ map _id (get_overdue_tasks (jan_2024 23) (snd r3)) = [0%N].
Proof. cbv zeta. repeat split; vm_compute; reflexivity. Qed.

(** ** Priority *)

Lemma clean_action_item_priority item cleaned :
  clean_action_item item = Some cleaned ->
  let p := py_lower (default "medium" (raw_priority item)) in
  raw_priority cleaned
  = Some (if existsb (String.eqb p) ["high"; "medium"; "low"]
          then p else "medium").
Proof.
  unfold clean_action_item. destruct (raw_task item); [|discriminate].
  intros [= <-]. reflexivity.
Qed.

Lemma priority_list_lower p :
  existsb (String.eqb p) ["high"; "medium"; "low"] = true ->
  (p = "high" \/ p = "medium" \/ p = "low") /\ py_lower p = p.
Proof.
  simpl. rewrite orb_false_r, !orb_true_iff, !String.eqb_eq.
  intros [->|[->| ->]]; split; auto.
Qed.

(** On the path through [_parse_action_items] the priority is checked: a
    cleaned item is stored with one of high, medium, low. *)
Lemma parsed_item_priority now item cleaned meeting w :
  clean_action_item item = Some cleaned ->
  blank_task cleaned = false ->
  clock_ok now = true ->
  exists w' b,
    create_task now cleaned meeting w = (Returned (oid_str (next_oid w)), w')
    /\ tasks w' = (tasks w ++ [{| _id := next_oid w; body := b |}])%list
    /\ (priority b = "high" \/ priority b = "medium" \/ priority b = "low").
Proof.
  intros Hcl Hb Hc.
  pose proof (clean_action_item_priority _ _ Hcl) as Hp. cbv zeta in Hp.
  destruct (deadline_policy_Some now cleaned Hc) as [dl Hdl].
  destruct (create_task_returns now cleaned meeting w dl Hb Hdl)
    as (w' & b & Hr & Ht & _ & _ & _ & Hpr & _).
  exists w', b. split; [exact Hr|]. split; [exact Ht|].
  rewrite Hpr, Hp. simpl default.
  set (p := py_lower (default "medium" (raw_priority item))).
  destruct (existsb (String.eqb p) ["high"; "medium"; "low"]) eqn:E.
  - destruct (priority_list_lower _ E) as [H Hl].
    simpl in E. rewrite E, Hl. exact H.
  - simpl in E. rewrite E. right. left. reflexivity.
Qed.

(** C2 (the code departs from the claim): [create_task] lower-cases the
    priority, so "HIGH" is stored as "high" and an absent priority as
    "medium", but it does not check the value: "urgent" is stored as
    "urgent".  The check against high, medium and low is made on the other
    path only, in the cleaning of [_parse_action_items], which turns
    "urgent" into "medium". *)
Theorem create_task_priority_unchecked :
  let stored p :=
    map (fun d => priority (body d))
      (tasks (snd (create_task (jan_2024 15)
                     (item_with "Ship the release" None p) None empty_world))) in
  stored (Some "HIGH") = ["high"]
  /\ stored None = ["medium"]
  /\ stored (Some "urgent") = ["urgent"]
  /\ option_map raw_priority
       (clean_action_item (item_with "Ship the release" None (Some "urgent")))
     = Some (Some "medium").
Proof. cbv zeta. repeat split; vm_compute; reflexivity. Qed.

Lemma set_updated_at_same v b :
  apply_update (SetUpdatedAt v) b = b <-> v = updated_at b.
Proof.
  destruct b; simpl. split; [intros [= ->]|intros ->]; reflexivity.
Qed.

Lemma set_status_same v b : status b = v -> apply_update (SetStatus v) b = b.
Proof. destruct b; simpl. intros ->. reflexivity. Qed.

Lemma update_task_true_iff now task_id updates w d :
  get_task task_id w = Some d ->
  fst (update_task now task_id updates w) = true
  <-> set_fields (updates ++ [SetUpdatedAt now]) (body d) <> body d.
Proof.
  intros Hd. rewrite update_task_result.
  rewrite (update_one_found _ _ _ _ Hd).
  destruct (task_dict_eqb _ _) eqn:E.
  - apply task_dict_eqb_eq in E. simpl. split; [discriminate|congruence].
  - simpl. split; [|reflexivity]. intros _ H.
    apply task_dict_eqb_eq in H. congruence.
Qed.

Lemma update_task_noop_patch now task_id updates w d :
  get_task task_id w = Some d ->
  set_fields updates (body d) = body d ->
  fst (update_task now task_id updates w) = false
  <-> bson_datetime now = updated_at (body d).
Proof.
  intros Hd Hp.
  pose proof (update_task_true_iff now task_id updates w d Hd) as Ht.
  rewrite set_fields_app, Hp in Ht.
  change (set_fields [SetUpdatedAt now] (body d))
    with (apply_update (SetUpdatedAt (bson_datetime now)) (body d)) in Ht.
  rewrite set_updated_at_same in Ht.
  destruct (fst (update_task now task_id updates w)); split; intros H.
  - discriminate.
  - exfalso. apply (proj1 Ht); [reflexivity|exact H].
  - destruct (datetime_eqb (bson_datetime now) (updated_at (body d))) eqn:E.
    + apply datetime_eqb_eq. exact E.
    + assert (true = false); [|discriminate].
      symmetry. apply Ht. intros E'. apply datetime_eqb_eq in E'. congruence.
  - reflexivity.
Qed.

(** C10, as the code has it: for a task id found in the store,
    [update_task] returns [True] exactly when the document differs after
    the patch and the [updated_at] stamp are written; a patch whose values
    all equal the stored ones (marking a completed task completed again)
    returns [False] only when the clock, to the millisecond, equals the
    stored [updated_at], and [True] otherwise; and whenever the result is
    [False] the store and the jobs are as before and no scheduler call was
    made, also when [actual_deadline] is in the patch. *)
Theorem update_task_true_iff_document_changes now task_id updates w d :
  get_task task_id w = Some d ->
  (fst (update_task now task_id updates w) = true
   <-> set_fields (updates ++ [SetUpdatedAt now]) (body d) <> body d)
  /\ (set_fields updates (body d) = body d ->
      (fst (update_task now task_id updates w) = false
       <-> bson_datetime now = updated_at (body d)))
  /\ (status (body d) = "completed" ->
      (fst (mark_task_completed now task_id w) = false
       <-> bson_datetime now = updated_at (body d)))
  /\ (fst (update_task now task_id updates w) = false ->
      tasks (snd (update_task now task_id updates w)) = tasks w
      /\ jobs (snd (update_task now task_id updates w)) = jobs w
      /\ trace (snd (update_task now task_id updates w))
         = (trace w ++ [UpdateOne task_id])%list).
Proof.
  intros Hd. split; [|split; [|split]].
  - apply update_task_true_iff. exact Hd.
  - apply update_task_noop_patch. exact Hd.
  - intros Hs. unfold mark_task_completed.
    apply update_task_noop_patch; [exact Hd|].
    apply set_status_same. exact Hs.
  - intros Hf. rewrite (update_task_false _ _ _ _ Hf). repeat split.
Qed.

Lemma update_task_true_iff_document_changes_witness :
  get_task (IdOid 0) sample_world = Some sample_doc
  /\ (fst (update_task (jan_2024 15) (IdOid 0)
             [SetActualDeadline (Some "2024-01-22")] sample_world) = false
      <-> bson_datetime (jan_2024 15) = updated_at (body sample_doc)).
Proof.
  split; [reflexivity|].
  apply (update_task_true_iff_document_changes (jan_2024 15) (IdOid 0)
           [SetActualDeadline (Some "2024-01-22")] sample_world sample_doc);
    reflexivity.
Defined.

(** C10 as stated fails: a task that is already completed is marked
    completed again one day later, and the result is [True]. *)
Lemma mark_completed_again_counterexample :
  let w := snd (mark_task_completed (jan_2024 16) (IdOid 0) sample_world) in
  (exists d, get_task (IdOid 0) w = Some d
             /\ status (body d) = "completed"
             /\ set_fields [SetStatus "completed"] (body d) = body d)
  /\ fst (mark_task_completed (jan_2024 17) (IdOid 0) w) = true.
Proof.
  cbv zeta. split; [|vm_compute; reflexivity].
  eexists. split; [vm_compute; reflexivity|].
  split; reflexivity.
Qed.

(** ** Cancelling and deleting *)

Lemma cancel_jobs task_id w :
  jobs (snd (_cancel_task_reminders task_id w))
  = delete ("overdue_check_" ++ id_text task_id)%string
      (delete ("reminder_deadline_" ++ id_text task_id)%string
         (delete ("reminder_1day_" ++ id_text task_id)%string (jobs w))).
Proof. rewrite cancel_unfold. reflexivity. Qed.


Lemma cancel_lookup_in task_id w k :
  In k (job_ids task_id) ->
  jobs (snd (_cancel_task_reminders task_id w)) !! k = None.
Proof.
  rewrite cancel_jobs. unfold job_ids. simpl.
  intros [<-|[<-|[<-|[]]]]; rewrite !lookup_delete;
    repeat case_decide; congruence.
Qed.

Lemma cancel_lookup_out task_id w k :
  ~ In k (job_ids task_id) ->
  jobs (snd (_cancel_task_reminders task_id w)) !! k = jobs w !! k.
Proof.
  rewrite cancel_jobs. unfold job_ids. simpl. intros Hk.
  rewrite !lookup_delete. repeat case_decide; try reflexivity;
    exfalso; apply Hk; auto.
Qed.


Lemma delete_task_unfold task_id w :
  delete_task task_id w
  = let w1 := snd (_cancel_task_reminders task_id w) in
    ((0 <? fst (delete_one task_id (tasks w)))%nat,
     {| tasks := snd (delete_one task_id (tasks w));
        next_oid := next_oid w;
        jobs := jobs w1;
        trace := trace w1 ++ [DeleteOne task_id] |}).
Proof.
  unfold delete_task. rewrite cancel_unfold. simpl.
  destruct (delete_one task_id (tasks w)). reflexivity.
Qed.

Lemma delete_one_found task_id docs d :
  find_one task_id docs = Some d -> fst (delete_one task_id docs) = 1%nat.
Proof.
  unfold find_one. induction docs as [|x xs IH]; [discriminate|].
  simpl. destruct (id_matches task_id x); [reflexivity|].
  intros H. specialize (IH H). destruct (delete_one task_id xs). exact IH.
Qed.



(** ** Statistics *)

Lemma apply_update_enum u b :
  patch_keeps_enum [u] = true ->
  status_in_enum (status b) = true ->
  status_in_enum (status (apply_update (bson_update u) b)) = true.
Proof.
  destruct u; simpl; intros Hu Hb; try exact Hb.
  rewrite andb_true_r in Hu. exact Hu.
Qed.

Lemma set_fields_enum updates b :
  patch_keeps_enum updates = true ->
  status_in_enum (status b) = true ->
  status_in_enum (status (set_fields updates b)) = true.
Proof.
  revert b. induction updates as [|u us IH]; intros b Hu Hb; [exact Hb|].
  simpl in Hu. apply andb_prop in Hu. destruct Hu as [Hu Hus].
  unfold set_fields. simpl. apply IH; [exact Hus|].
  apply apply_update_enum; [|exact Hb].
  simpl. rewrite Hu. reflexivity.
Qed.

Lemma update_one_enum task_id updates docs :
  patch_keeps_enum updates = true ->
  enum_only docs -> enum_only (snd (update_one task_id updates docs)).
Proof.
  intros Hu. induction docs as [|d ds IH]; intros Hd; [constructor|].
  inversion Hd as [|? ? Hx Hxs]; subst. simpl.
  destruct (id_matches task_id d).
  - simpl. constructor; [|exact Hxs]. simpl.
    apply set_fields_enum; assumption.
  - specialize (IH Hxs). destruct (update_one task_id updates ds).
    simpl in *. constructor; assumption.
Qed.

Lemma delete_one_enum task_id docs :
  enum_only docs -> enum_only (snd (delete_one task_id docs)).
Proof.
  induction docs as [|d ds IH]; intros Hd; [constructor|].
  inversion Hd as [|? ? Hx Hxs]; subst. simpl.
  destruct (id_matches task_id d); [exact Hxs|].
  specialize (IH Hxs). destruct (delete_one task_id ds).
  simpl in *. constructor; assumption.
Qed.

Lemma update_task_tasks now task_id updates w :
  tasks (snd (update_task now task_id updates w))
  = snd (update_one task_id (updates ++ [SetUpdatedAt now]) (tasks w)).
Proof.
  unfold update_task.
  destruct (update_one task_id _ (tasks w)) as [n docs]. simpl.
  destruct (0 <? n)%nat; [|reflexivity].
  destruct (sets_actual_deadline _); [|reflexivity].
  match goal with
  | |- context [_reschedule_task_reminders ?n ?i ?w0] =>
      destruct (reschedule_store n i w0) as [Ht _];
      destruct (_reschedule_task_reminders n i w0) as [[] w2]
  end; exact Ht.
Qed.

Lemma create_task_tasks now task_data meeting w :
  tasks (snd (create_task now task_data meeting w)) = tasks w
  \/ exists b,
       tasks (snd (create_task now task_data meeting w))
       = (tasks w ++ [{| _id := next_oid w; body := b |}])%list
       /\ status b = "pending".
Proof.
  destruct (blank_task task_data) eqn:Hb.
  { left. rewrite create_task_blank by exact Hb. reflexivity. }
  destruct (deadline_policy_spec now task_data) as [dl|] eqn:Hp.
  - right.
    destruct (create_task_returns now task_data meeting w dl Hb Hp)
      as (w' & b & Hr & Ht & _ & _ & _ & _ & _ & Hs & _).
    exists b. rewrite Hr. split; assumption.
  - left. rewrite create_task_overflow by assumption. reflexivity.
Qed.

Lemma patch_keeps_enum_app u1 u2 :
  patch_keeps_enum (u1 ++ u2) = patch_keeps_enum u1 && patch_keeps_enum u2.
Proof. unfold patch_keeps_enum. apply forallb_app. Qed.

Lemma run_call_enum w c :
  call_keeps_enum c = true ->
  enum_only (tasks w) -> enum_only (tasks (run_call w c)).
Proof.
  intros Hc Hw. destruct c as [now td m|now id ups|now id|now id|id]; simpl.
  - destruct (create_task_tasks now td m w) as [->|(b & -> & Hs)];
      [exact Hw|].
    apply Forall_app_2; [exact Hw|]. constructor; [|constructor].
    simpl. rewrite Hs. reflexivity.
  - rewrite update_task_tasks. apply update_one_enum; [|exact Hw].
    rewrite patch_keeps_enum_app. simpl in Hc. rewrite Hc. reflexivity.
  - unfold mark_task_in_progress. rewrite update_task_tasks.
    apply update_one_enum; [reflexivity|exact Hw].
  - unfold mark_task_completed. rewrite update_task_tasks.
    apply update_one_enum; [reflexivity|exact Hw].
  - rewrite delete_task_unfold. simpl. apply delete_one_enum. exact Hw.
Qed.

Lemma fold_run_call_enum calls w :
  forallb call_keeps_enum calls = true ->
  enum_only (tasks w) -> enum_only (tasks (fold_left run_call calls w)).
Proof.
  revert w. induction calls as [|c cs IH]; intros w Hc Hw; [exact Hw|].
  simpl in Hc. apply andb_prop in Hc. destruct Hc as [Hc Hcs].
  simpl. apply IH; [exact Hcs|]. apply run_call_enum; assumption.
Qed.

Lemma count_status_enum docs :
  enum_only docs ->
  List.length docs
  = (count_status "pending" docs + count_status "in_progress" docs
     + count_status "completed" docs)%nat.
Proof.
  unfold count_status.
  induction docs as [|d ds IH]; intros Hd; [reflexivity|].
  inversion Hd as [|? ? Hx Hxs]; subst. specialize (IH Hxs).
  unfold status_in_enum, status_enum in Hx. simpl in Hx.
  rewrite orb_false_r in Hx.
  apply orb_prop in Hx. destruct Hx as [Hx|Hx];
    [|apply orb_prop in Hx; destruct Hx as [Hx|Hx]];
    apply String.eqb_eq in Hx; simpl; rewrite Hx; simpl; lia.
Qed.

Lemma get_task_statistics_returns now w :
  clock_ok now = true ->
  exists s,
    get_task_statistics now w = Returned s
    /\ total_tasks s = List.length (tasks w)
    /\ pending_tasks s = count_status "pending" (tasks w)
    /\ in_progress_tasks s = count_status "in_progress" (tasks w)
    /\ completed_tasks s = count_status "completed" (tasks w).
Proof.
  intros Hc. destruct (add_days_Some now 7 Hc ltac:(lia)) as [d Hd].
  unfold get_task_statistics, get_upcoming_tasks. rewrite Hd.
  eexists. split; [reflexivity|]. repeat split.
Qed.

(** C4, as the code has it: after any sequence of [create_task],
    [update_task], [mark_task_in_progress], [mark_task_completed] and
    [delete_task] calls on the empty store in which every [update_task]
    patch leaves [status] alone or sets it to pending, in_progress or
    completed, [get_task_statistics] returns counts with total = pending +
    in_progress + completed; on the empty store all counts are zero. *)
Theorem statistics_total_is_sum calls now :
  forallb call_keeps_enum calls = true ->
  clock_ok now = true ->
  (exists s,
     get_task_statistics now (run_calls calls) = Returned s
     /\ total_tasks s
        = (pending_tasks s + in_progress_tasks s + completed_tasks s)%nat)
  /\ get_task_statistics now (run_calls [])
     = Returned {| total_tasks := 0; pending_tasks := 0;
                   in_progress_tasks := 0; completed_tasks := 0;
                   overdue_tasks := 0; upcoming_tasks := 0 |}.
Proof.
  intros Hcalls Hc. split.
  - destruct (get_task_statistics_returns now (run_calls calls) Hc)
      as (s & Hs & Ht & Hp & Hi & Hd).
    exists s. split; [exact Hs|]. rewrite Ht, Hp, Hi, Hd.
    apply count_status_enum. unfold run_calls.
    apply fold_run_call_enum; [exact Hcalls|constructor].
  - destruct (add_days_Some now 7 Hc ltac:(lia)) as [d Hd].
    unfold get_task_statistics, get_upcoming_tasks. rewrite Hd. reflexivity.
Qed.

Lemma statistics_total_is_sum_witness :
  forallb call_keeps_enum
    [CreateTask (jan_2024 15) (item_with "Book a room" None None) None;
     MarkTaskInProgress (jan_2024 16) (IdOid 0)] = true
  /\ clock_ok (jan_2024 17) = true
  /\ exists s,
       get_task_statistics (jan_2024 17)
         (run_calls
            [CreateTask (jan_2024 15) (item_with "Book a room" None None) None;
             MarkTaskInProgress (jan_2024 16) (IdOid 0)]) = Returned s
       /\ total_tasks s
          = (pending_tasks s + in_progress_tasks s + completed_tasks s)%nat.
Proof.
  split; [reflexivity|]. split; [reflexivity|].
  apply (statistics_total_is_sum
           [CreateTask (jan_2024 15) (item_with "Book a room" None None) None;
            MarkTaskInProgress (jan_2024 16) (IdOid 0)] (jan_2024 17));
    reflexivity.
Defined.

(** C4 as stated fails: [update_task] writes any status it is given; after
    a task is created and its status set to "archived", the total is 1 and
    the three status counts are 0. *)
Lemma statistics_counterexample :
  exists s,
    get_task_statistics (jan_2024 17)
      (run_calls
         [CreateTask (jan_2024 15) (item_with "Book a room" None None) None;
          UpdateTask (jan_2024 16) (IdOid 0) [SetStatus "archived"]])
    = Returned s
    /\ total_tasks s = 1%nat
    /\ (pending_tasks s + in_progress_tasks s + completed_tasks s)%nat = 0%nat.
Proof. eexists. split; [vm_compute; reflexivity|]. split; reflexivity. Qed.

(** ** Sorting by deadline *)

Lemma string_compare_refl s : String.compare s s = Eq.
Proof.
  pose proof (String.compare_antisym s s) as H.
  destruct (String.compare s s); simpl in H; congruence.
Qed.

Lemma string_leb_iff s t :
  String.leb s t = true <-> s = t \/ String_as_OT.lt s t.
Proof.
  unfold String.leb. split.
  - destruct (String.compare s t) eqn:E; try discriminate; intros _.
    + left. apply String.compare_eq_iff. exact E.
    + right. apply String_as_OT.cmp_lt. exact E.
  - intros [->|H].
    + rewrite string_compare_refl. reflexivity.
    + apply String_as_OT.cmp_lt in H. unfold String_as_OT.cmp in H.
      rewrite H. reflexivity.
Qed.

Lemma string_leb_trans s t u :
  String.leb s t = true -> String.leb t u = true -> String.leb s u = true.
Proof.
  rewrite !string_leb_iff. intros [->|H1] [->|H2]; auto.
  right. eapply String_as_OT.lt_trans; eassumption.
Qed.

Lemma deadline_le_total a b : deadline_le a b \/ deadline_le b a.
Proof.
  unfold deadline_le, deadline_leb.
  destruct (actual_deadline (body a)) as [x|], (actual_deadline (body b)) as [y|];
    auto.
  apply String.leb_total.
Qed.

Lemma deadline_le_trans a b c :
  deadline_le a b -> deadline_le b c -> deadline_le a c.
Proof.
  unfold deadline_le, deadline_leb.
  destruct (actual_deadline (body a)) as [x|], (actual_deadline (body b)) as [y|],
    (actual_deadline (body c)) as [z|]; try discriminate; auto.
  apply string_leb_trans.
Qed.

Lemma insert_by_deadline_perm d l : Permutation (insert_by_deadline d l) (d :: l).
Proof.
  induction l as [|x xs IH]; simpl; [reflexivity|].
  destruct (deadline_leb d x); [reflexivity|].
  rewrite IH. apply perm_swap.
Qed.

Lemma sort_by_actual_deadline_perm l : Permutation (sort_by_actual_deadline l) l.
Proof.
  induction l as [|x xs IH]; simpl; [reflexivity|].
  rewrite insert_by_deadline_perm. apply perm_skip. exact IH.
Qed.

Lemma insert_by_deadline_sorted d l :
  StronglySorted deadline_le l -> StronglySorted deadline_le (insert_by_deadline d l).
Proof.
  induction l as [|x xs IH]; intros Hs; simpl.
  - constructor; constructor.
  - inversion Hs as [|? ? Hxs Hall]; subst.
    destruct (deadline_leb d x) eqn:E.
    + constructor; [exact Hs|]. constructor; [exact E|].
      eapply List.Forall_impl; [|exact Hall].
      intros y Hy. eapply deadline_le_trans; [exact E|exact Hy].
    + constructor; [apply IH; exact Hxs|].
      eapply Permutation_Forall.
      * symmetry. apply insert_by_deadline_perm.
      * constructor; [|exact Hall].
        destruct (deadline_le_total d x) as [H|H]; [|exact H].
        unfold deadline_le in H. congruence.
Qed.

Lemma sort_by_actual_deadline_sorted l :
  StronglySorted deadline_le (sort_by_actual_deadline l).
Proof.
  induction l as [|x xs IH]; simpl; [constructor|].
  apply insert_by_deadline_sorted. exact IH.
Qed.

(** ** Overdue tasks *)

Lemma is_open_iff d :
  is_open d = true
  <-> status (body d) = "pending" \/ status (body d) = "in_progress".
Proof.
  unfold is_open. rewrite orb_true_iff, !String.eqb_eq. reflexivity.
Qed.

Lemma deadline_lt_iff bound d :
  deadline_lt bound d = true
  <-> exists dl, actual_deadline (body d) = Some dl
                 /\ String.ltb dl bound = true.
Proof.
  unfold deadline_lt. destruct (actual_deadline (body d)) as [s|].
  - split; [eauto|]. intros (dl & [= <-] & H). exact H.
  - split; [discriminate|]. intros (dl & H & _). discriminate.
Qed.

Section Overdue.

Variable now : datetime.
Variable w : world.

Lemma get_overdue_tasks_In d :
  In d (get_overdue_tasks now w)
  <-> In d (tasks w) /\ is_open d = true /\ deadline_lt (strftime now) d = true.
Proof.
  unfold get_overdue_tasks. split.
  - intros H.
    apply (Permutation_in _ (sort_by_actual_deadline_perm _)) in H.
    apply filter_In in H. destruct H as [Hin Hp].
    apply andb_prop in Hp. tauto.
  - intros (Hin & Ho & Hl).
    apply (Permutation_in _ (Permutation_sym (sort_by_actual_deadline_perm _))).
    apply filter_In. split; [exact Hin|]. rewrite Ho, Hl. reflexivity.
Qed.

Lemma ltb_strftime dl :
  date_wf dl = true -> date_wf now = true ->
  String.ltb (strftime dl) (strftime now) = true <-> date_compare dl now = Lt.
Proof.
  intros Hd Hn. unfold String.ltb. rewrite (strftime_compare _ _ Hd Hn).
  destruct (date_compare dl now); split; congruence.
Qed.

(** C6: [get_overdue_tasks] at the clock reading [now] returns exactly the
    stored tasks whose status is pending or in_progress and whose
    [actual_deadline], as a string, is strictly smaller than the date of
    [now] printed YYYY-MM-DD, ordered by ascending deadline string; a
    completed task is never in the result.  For a deadline stored as the
    zero-padded YYYY-MM-DD print of a date of the years 1000 to 9999, and
    [now] in those years, this is: the deadline's day is strictly before
    the day of [now], earliest deadline first.  (For other strings that
    [strptime] still reads as dates it is not: see the counterexample
    below.) *)
Theorem get_overdue_tasks_exact :
  Permutation (get_overdue_tasks now w)
    (List.filter (fun d => is_open d && deadline_lt (strftime now) d) (tasks w))
  /\ (forall d,
        In d (get_overdue_tasks now w)
        <-> In d (tasks w)
            /\ (status (body d) = "pending" \/ status (body d) = "in_progress")
            /\ exists dl, actual_deadline (body d) = Some dl
                          /\ String.ltb dl (strftime now) = true)
  /\ StronglySorted deadline_le (get_overdue_tasks now w)
  /\ (forall d, In d (get_overdue_tasks now w) -> status (body d) <> "completed")
  /\ (forall d dl,
        In d (tasks w) -> date_wf now = true -> date_wf dl = true ->
        actual_deadline (body d) = Some (strftime dl) ->
        (In d (get_overdue_tasks now w)
         <-> (status (body d) = "pending" \/ status (body d) = "in_progress")
             /\ date_compare dl now = Lt))
  /\ (forall a b da db,
        date_wf da = true -> date_wf db = true ->
        actual_deadline (body a) = Some (strftime da) ->
        actual_deadline (body b) = Some (strftime db) ->
        (deadline_le a b <-> date_compare da db <> Gt))
  /\ (forall dl,
        valid_date dl = true -> valid_date now = true ->
        (date_compare dl now = Lt <-> toordinal dl < toordinal now)).
Proof.
  split; [apply sort_by_actual_deadline_perm|].
  split.
  { intros d. rewrite get_overdue_tasks_In, is_open_iff, deadline_lt_iff.
    reflexivity. }
  split; [apply sort_by_actual_deadline_sorted|].
  split.
  { intros d Hd. apply get_overdue_tasks_In in Hd.
    destruct Hd as (_ & Ho & _). apply is_open_iff in Ho.
    destruct Ho as [-> | ->]; discriminate. }
  split; [|split].
  - intros d dl Hin Hn Hdl Had.
    rewrite get_overdue_tasks_In, is_open_iff.
    unfold deadline_lt. rewrite Had.
    rewrite (ltb_strftime dl Hdl Hn). tauto.
  - intros a b da db Ha Hb Haa Hbb.
    unfold deadline_le, deadline_leb. rewrite Haa, Hbb.
    unfold String.leb. rewrite (strftime_compare _ _ Ha Hb).
    destruct (date_compare da db); split; congruence.
  - intros dl Hdl Hn. rewrite (date_compare_toordinal _ _ Hdl Hn).
    apply Z.compare_lt_iff.
Qed.

End Overdue.

(** The example of the specification: at 2024-01-20 a pending task due
    2024-01-19 is overdue and a completed one with the same deadline is
    not. *)
Example get_overdue_tasks_jan_20 :
  let w0 := fold_left run_call
              [CreateTask (jan_2024 10) (item_with "Draft the agenda" None None) None;
               CreateTask (jan_2024 10) (item_with "Send the minutes" None None) None;
               UpdateTask (jan_2024 11) (IdOid 0) [SetActualDeadline (Some "2024-01-19")];
               UpdateTask (jan_2024 11) (IdOid 1)
                 [SetActualDeadline (Some "2024-01-19"); SetStatus "completed"]]
              empty_world in
  map (fun d => (task (body d), status (body d), actual_deadline (body d)))
    (tasks w0)
  = [("Draft the agenda", "pending", Some "2024-01-19");
     ("Send the minutes", "completed", Some "2024-01-19")]
  /\ map _id (get_overdue_tasks (jan_2024 20) w0) = [0%N].
Proof. cbv zeta. split; vm_compute; reflexivity. Qed.

(** The deadline is stored as it comes.  ['2024-1-5'] is a date for
    [strptime] (the reminder of the task is set for 5 January), yet on
    20 January the pending task is not overdue; ['2024-01- 9'] is 9 January
    for [strptime], yet on 5 January the pending task is overdue. *)
Lemma overdue_unpadded_deadline_counterexample :
  (exists d dl,
     tasks (snd (create_task (jan_2024 1) (item_due "Draft the agenda" "2024-1-5")
                   None empty_world)) = [d]
     /\ status (body d) = "pending"
     /\ actual_deadline (body d) = Some "2024-1-5"
     /\ strptime "2024-1-5" = Some dl
     /\ jobs (snd (create_task (jan_2024 1)
                     (item_due "Draft the agenda" "2024-1-5") None empty_world))
         !! "reminder_deadline_000000000000000000000000"
        = Some (job_deadline (IdStr "000000000000000000000000") dl)
     /\ date_compare dl (jan_2024 20) = Lt
     /\ get_overdue_tasks (jan_2024 20)
          (snd (create_task (jan_2024 1)
                  (item_due "Draft the agenda" "2024-1-5") None empty_world))
        = [])
  /\ (exists d dl,
        tasks (snd (create_task (jan_2024 1)
                      (item_due "Send the minutes" "2024-01- 9") None
                      empty_world)) = [d]
        /\ status (body d) = "pending"
        /\ actual_deadline (body d) = Some "2024-01- 9"
        /\ strptime "2024-01- 9" = Some dl
        /\ date_compare dl (jan_2024 5) = Gt
        /\ get_overdue_tasks (jan_2024 5)
             (snd (create_task (jan_2024 1)
                     (item_due "Send the minutes" "2024-01- 9") None
                     empty_world))
           = [d]).
Proof.
  split; eexists; eexists; repeat split; vm_compute; reflexivity.
Qed.

(** ** Keywords in a text *)

Lemma prefix_iff kw s :
  String.prefix kw s = true <-> exists post, s = (kw ++ post)%string.
Proof.
  revert s. induction kw as [|c kw IH]; intros s.
  - split; [intros _; exists s; reflexivity|]. intros _. destruct s; reflexivity.
  - destruct s as [|c' s'].
    + split; [discriminate|]. intros [post H]. discriminate.
    + simpl. destruct (ascii_dec c c') as [->|Hne].
      * rewrite IH. split; intros [post H]; exists post.
        -- rewrite append_cons, H. reflexivity.
        -- rewrite append_cons in H. congruence.
      * split; [discriminate|]. intros [post H].
        rewrite append_cons in H. congruence.
Qed.

Lemma py_in_iff kw s :
  py_in kw s = true <-> exists pre post, s = (pre ++ kw ++ post)%string.
Proof.
  induction s as [|c s IH].
  - change (py_in kw EmptyString) with (String.prefix kw EmptyString || false).
    rewrite orb_false_r, prefix_iff. split.
    + intros [post H]. exists EmptyString, post. exact H.
    + intros (pre & post & H). destruct pre; [eauto|discriminate].
  - change (py_in kw (String c s))
      with (String.prefix kw (String c s) || py_in kw s).
    rewrite orb_true_iff, prefix_iff, IH. split.
    + intros [[post H]|(pre & post & H)].
      * exists EmptyString, post. exact H.
      * exists (String c pre), post. rewrite append_cons, H. reflexivity.
    + intros (pre & post & H). destruct pre as [|c' pre].
      * left. exists post. exact H.
      * right. exists pre, post. rewrite append_cons in H. congruence.
Qed.

Lemma py_lower_app a b : py_lower (a ++ b) = (py_lower a ++ py_lower b)%string.
Proof.
  induction a as [|c a IH]; [reflexivity|].
  rewrite append_cons. simpl. rewrite IH. reflexivity.
Qed.

Lemma py_lower_split t a b :
  py_lower t = (a ++ b)%string ->
  exists x y, t = (x ++ y)%string /\ py_lower x = a /\ py_lower y = b.
Proof.
  revert t. induction a as [|c a IH]; intros t H.
  - exists EmptyString, t. repeat split. exact H.
  - destruct t as [|c' t]; [discriminate|].
    rewrite append_cons in H. simpl in H. injection H as Hc Ht.
    destruct (IH t Ht) as (x & y & -> & Hx & Hy).
    exists (String c' x), y. simpl. rewrite Hx, Hc. repeat split. exact Hy.
Qed.

Lemma occurs_ci_iff kw text :
  occurs_ci kw text <-> py_in kw (py_lower text) = true.
Proof.
  rewrite py_in_iff. unfold occurs_ci. split.
  - intros (pre & mid & post & -> & <-).
    exists (py_lower pre), (py_lower post). rewrite !py_lower_app. reflexivity.
  - intros (pre & post & H).
    destruct (py_lower_split _ _ _ H) as (x & y & -> & _ & Hy).
    destruct (py_lower_split _ _ _ Hy) as (m & z & -> & Hm & _).
    exists x, m, z. split; [reflexivity|exact Hm].
Qed.

Lemma any_in_iff keywords text :
  any_in keywords (py_lower text) = true
  <-> exists kw, In kw keywords /\ occurs_ci kw text.
Proof.
  unfold any_in. rewrite existsb_exists.
  split; intros (kw & Hin & H); exists kw; (split; [exact Hin|]);
    apply occurs_ci_iff; exact H.
Qed.

Lemma suggest_deadline_days now task_text k :
  clock_ok now = true ->
  k = (if any_in urgent_keywords (py_lower task_text) then 1
       else if any_in medium_keywords (py_lower task_text) then 3 else 7) ->
  exists d, add_days now k = Some d
            /\ valid_date d = true
            /\ toordinal d = toordinal now + k
            /\ _suggest_deadline now task_text = Returned (strftime d)
            /\ (1000 <= year now -> ymd_shape (strftime d) = true).
Proof.
  intros Hc Hk.
  assert (Hr : 0 <= k <= 7).
  { subst k. destruct (any_in urgent_keywords _); [lia|].
    destruct (any_in medium_keywords _); lia. }
  destruct (add_days_printed now k Hc Hr) as (d & Hd & Hv & Ho & Hs).
  exists d. split; [exact Hd|]. split; [exact Hv|]. split; [exact Ho|].
  split; [|apply Hs].
  unfold _suggest_deadline. rewrite <- Hk, Hd. reflexivity.
Qed.

(** C7: [_suggest_deadline] depends on the task text and on the current
    date only.  If one of urgent, asap, immediately, today, tomorrow,
    deadline, critical occurs in the text, in any letter case, the result is
    the current date plus one day; else if one of next week, soon, priority,
    important occurs, plus three days; else plus seven days; the result is
    that calendar date printed with [strftime('%Y-%m-%d')], which from the
    year 1000 on has the shape YYYY-MM-DD. *)
Theorem suggest_deadline_by_keywords now task_text :
  clock_ok now = true ->
  let urgent := exists kw, In kw urgent_keywords /\ occurs_ci kw task_text in
  let medium := exists kw, In kw medium_keywords /\ occurs_ci kw task_text in
  urgent_keywords
  = ["urgent"; "asap"; "immediately"; "today"; "tomorrow"; "deadline"; "critical"]
  /\ medium_keywords = ["next week"; "soon"; "priority"; "important"]
  /\ (urgent ->
      exists d, add_days now 1 = Some d
                /\ valid_date d = true
                /\ toordinal d = toordinal now + 1
                /\ _suggest_deadline now task_text = Returned (strftime d)
                /\ (1000 <= year now -> ymd_shape (strftime d) = true))
  /\ (~ urgent -> medium ->
      exists d, add_days now 3 = Some d
                /\ valid_date d = true
                /\ toordinal d = toordinal now + 3
                /\ _suggest_deadline now task_text = Returned (strftime d)
                /\ (1000 <= year now -> ymd_shape (strftime d) = true))
  /\ (~ urgent -> ~ medium ->
      exists d, add_days now 7 = Some d
                /\ valid_date d = true
                /\ toordinal d = toordinal now + 7
                /\ _suggest_deadline now task_text = Returned (strftime d)
                /\ (1000 <= year now -> ymd_shape (strftime d) = true))
  /\ (forall now',
        year now' = year now -> month now' = month now -> day now' = day now ->
        _suggest_deadline now' task_text = _suggest_deadline now task_text).
Proof.
  intros Hc urgent medium. subst urgent medium.
  rewrite <- !any_in_iff.
  split; [reflexivity|]. split; [reflexivity|].
  split; [|split; [|split]].
  - intros Hu. apply suggest_deadline_days; [exact Hc|]. rewrite Hu. reflexivity.
  - intros Hu Hm. apply suggest_deadline_days; [exact Hc|].
    apply not_true_is_false in Hu. rewrite Hu, Hm. reflexivity.
  - intros Hu Hm. apply suggest_deadline_days; [exact Hc|].
    apply not_true_is_false in Hu. apply not_true_is_false in Hm.
    rewrite Hu, Hm. reflexivity.
  - intros now' Hy Hm Hd. unfold _suggest_deadline.
    match goal with
    | |- context [add_days now' ?k] =>
        pose proof (strftime_add_days_date now' now k Hy Hm Hd) as H
    end.
    destruct (add_days now' _), (add_days now _); simpl in H;
      congruence.
Qed.

Lemma suggest_deadline_by_keywords_witness :
  clock_ok (jan_2024 15) = true
  /\ _suggest_deadline (jan_2024 15) "Send the report ASAP" = Returned "2024-01-16".
Proof.
  split; [reflexivity|].
  destruct (suggest_deadline_by_keywords (jan_2024 15) "Send the report ASAP"
              eq_refl) as (_ & _ & Hu & _).
  destruct Hu as (d & Hd & _ & _ & Hr & _).
  - exists "asap". split; [simpl; auto|].
    exists "Send the report ", "ASAP", "". split; reflexivity.
  - rewrite Hr. vm_compute in Hd. injection Hd as <-. reflexivity.
Defined.

(** The examples of the specification, at 2024-01-15. *)
Example suggest_deadline_examples :
  _suggest_deadline (jan_2024 15) "Fix the login bug ASAP" = Returned "2024-01-16"
  /\ _suggest_deadline (jan_2024 15) "Review the design next week"
     = Returned "2024-01-18"
  /\ _suggest_deadline (jan_2024 15) "Water the plants" = Returned "2024-01-22"
  /\ _suggest_deadline (jan_2024 15) "Important and urgent fix" = Returned "2024-01-16".
Proof. repeat split; vm_compute; reflexivity. Qed.


(** * Further properties *)

(** ** Document ids *)

Lemma update_one_ids task_id updates docs :
  map _id (snd (update_one task_id updates docs)) = map _id docs.
Proof.
  induction docs as [|d ds IH]; [reflexivity|].
  simpl. destruct (id_matches task_id d); [reflexivity|].
  destruct (update_one task_id updates ds). simpl in *. rewrite IH. reflexivity.
Qed.

Lemma delete_one_nodup o docs :
  NoDup (map _id docs) ->
  snd (delete_one (IdOid o) docs)
  = List.filter (fun d => negb (o =? _id d)%N) docs.
Proof.
  induction docs as [|d ds IH]; intros Hn; [reflexivity|].
  inversion Hn as [|? ? Hnotin Hn']; subst. simpl.
  destruct (N.eqb_spec o (_id d)) as [E|E]; simpl.
  - symmetry. apply forallb_filter_id. apply forallb_forall.
    intros x Hx. apply negb_true_iff. apply N.eqb_neq. intros E'.
    apply Hnotin. rewrite <- E, E'. apply list_elem_of_In, in_map. exact Hx.
  - specialize (IH Hn'). destruct (delete_one (IdOid o) ds). simpl in *.
    rewrite IH. reflexivity.
Qed.

Lemma ids_fresh_empty : ids_fresh empty_world.
Proof. split; constructor. Qed.

Lemma ids_fresh_same w w' :
  map _id (tasks w') = map _id (tasks w) -> next_oid w' = next_oid w ->
  ids_fresh w -> ids_fresh w'.
Proof.
  intros Ht Hn [Hd Hb]. split; [rewrite Ht; exact Hd|].
  rewrite Hn. rewrite List.Forall_forall in *. intros d Hd'.
  assert (Hin : In (_id d) (map _id (tasks w)))
    by (rewrite <- Ht; apply in_map; exact Hd').
  apply in_map_iff in Hin. destruct Hin as (d0 & E & Hd0).
  rewrite <- E. apply Hb. exact Hd0.
Qed.

Lemma ids_fresh_create now task_data meeting w :
  ids_fresh w -> ids_fresh (snd (create_task now task_data meeting w)).
Proof.
  intros Hw. destruct (blank_task task_data) eqn:Hb.
  { rewrite create_task_blank by exact Hb. exact Hw. }
  destruct (deadline_policy_spec now task_data) as [dl|] eqn:Hp.
  2:{ rewrite create_task_overflow by assumption. exact Hw. }
  destruct (create_task_returns now task_data meeting w dl Hb Hp)
    as (w' & b & Hr & Ht & Hn & _).
  rewrite Hr. simpl. destruct Hw as [Hd Hf]. split.
  - rewrite Ht, map_app. simpl. apply NoDup_app. split; [exact Hd|].
    split; [|constructor; [intros H; inversion H|constructor]].
    intros x Hx Hx'. apply list_elem_of_In in Hx, Hx'.
    destruct Hx' as [<-|[]]. apply in_map_iff in Hx.
    destruct Hx as (d & E & Hin). rewrite List.Forall_forall in Hf.
    specialize (Hf d Hin). lia.
  - rewrite Ht, Hn. apply Forall_app_2.
    + eapply List.Forall_impl; [|exact Hf]. simpl. intros d Hlt. lia.
    + constructor; [simpl; lia|constructor].
Qed.

Lemma delete_one_In task_id docs x :
  In x (snd (delete_one task_id docs)) -> In x docs.
Proof.
  induction docs as [|d ds IH]; simpl; [tauto|].
  destruct (id_matches task_id d); simpl; [tauto|].
  destruct (delete_one task_id ds). simpl in *. tauto.
Qed.

Lemma ids_fresh_delete task_id w :
  ids_fresh w -> ids_fresh (snd (delete_task task_id w)).
Proof.
  intros [Hd Hf]. rewrite delete_task_unfold. cbv zeta.
  split; simpl.
  - clear Hf. induction (tasks w) as [|d ds IH]; simpl; [exact Hd|].
    apply NoDup_cons in Hd. destruct Hd as [Hnotin Hd].
    destruct (id_matches task_id d); simpl; [exact Hd|].
    specialize (IH Hd).
    pose proof (delete_one_In task_id ds) as Hin.
    destruct (delete_one task_id ds) as [n ds']. simpl in *.
    apply NoDup_cons. split; [|exact IH].
    intros Hx. apply Hnotin. apply list_elem_of_In in Hx.
    apply in_map_iff in Hx. destruct Hx as (x & E & Hx).
    apply list_elem_of_In, in_map_iff. exists x. split; [exact E|].
    apply Hin. exact Hx.
  - rewrite List.Forall_forall in *. intros x Hx. apply Hf.
    eapply delete_one_In. exact Hx.
Qed.

Lemma ids_fresh_run_call w c : ids_fresh w -> ids_fresh (run_call w c).
Proof.
  intros Hw. destruct c as [now td m|now id ups|now id|now id|id]; simpl.
  - apply ids_fresh_create. exact Hw.
  - eapply ids_fresh_same; [| |exact Hw].
    + rewrite update_task_tasks. apply update_one_ids.
    + unfold update_task. destruct (update_one id _ (tasks w)) as [n docs].
      destruct (0 <? n)%nat; [|reflexivity].
      destruct (sets_actual_deadline _); [|reflexivity].
      match goal with
      | |- context [_reschedule_task_reminders ?n ?i ?w0] =>
          destruct (reschedule_store n i w0) as [_ Hn];
          destruct (_reschedule_task_reminders n i w0) as [[] w2]
      end; exact Hn.
  - eapply ids_fresh_same; [| |exact Hw].
    + unfold mark_task_in_progress. rewrite update_task_tasks.
      apply update_one_ids.
    + unfold mark_task_in_progress, update_task.
      destruct (update_one id _ (tasks w)) as [n docs].
      destruct (0 <? n)%nat; reflexivity.
  - eapply ids_fresh_same; [| |exact Hw].
    + unfold mark_task_completed. rewrite update_task_tasks.
      apply update_one_ids.
    + unfold mark_task_completed, update_task.
      destruct (update_one id _ (tasks w)) as [n docs].
      destruct (0 <? n)%nat; reflexivity.
  - apply ids_fresh_delete. exact Hw.
Qed.

(** After any sequence of manager calls, the stored ids are distinct. *)
Lemma ids_fresh_run_calls calls : ids_fresh (run_calls calls).
Proof.
  unfold run_calls. generalize ids_fresh_empty. generalize empty_world.
  induction calls as [|c cs IH]; intros w Hw; [exact Hw|].
  simpl. apply IH. apply ids_fresh_run_call. exact Hw.
Qed.

(** ** Trimming twice *)

Lemma py_rstrip_cons c r :
  py_isspace c = false -> py_rstrip (String c r) = String c (py_rstrip r).
Proof. intros Hc. simpl. destruct (py_rstrip r); [rewrite Hc|]; reflexivity. Qed.

Lemma py_rstrip_idem s : py_rstrip (py_rstrip s) = py_rstrip s.
Proof.
  induction s as [|c s IH]; [reflexivity|].
  simpl. destruct (py_rstrip s) as [|c' r] eqn:E.
  - destruct (py_isspace c) eqn:Hc; [reflexivity|].
    simpl. rewrite Hc. reflexivity.
  - change (py_rstrip (String c (String c' r)))
      with (match py_rstrip (String c' r) with
            | EmptyString =>
                if py_isspace c then EmptyString else String c EmptyString
            | r' => String c r'
            end).
    rewrite IH. reflexivity.
Qed.

Lemma py_strip_idem s : py_strip (py_strip s) = py_strip s.
Proof.
  unfold py_strip.
  destruct (py_lstrip_cases s) as [[Hl _]|(c & r & Hl & Hc & _)]; rewrite Hl.
  - reflexivity.
  - rewrite (py_rstrip_cons c r Hc). simpl py_lstrip. rewrite Hc.
    rewrite (py_rstrip_cons c _ Hc), py_rstrip_idem. reflexivity.
Qed.

Lemma py_strip_not_blank s : py_strip s <> "" -> all_space (py_strip s) = false.
Proof.
  intros Hne. apply not_true_is_false. intros Ha.
  apply py_strip_empty_iff in Ha. rewrite py_strip_idem in Ha. congruence.
Qed.

(** ** Creating, then reading back *)

Lemma find_one_app task_id docs x :
  find_one task_id (docs ++ [x])
  = match find_one task_id docs with
    | Some d => Some d
    | None => if id_matches task_id x then Some x else None
    end.
Proof.
  unfold find_one. induction docs as [|d ds IH]; simpl.
  - destruct (id_matches task_id x); reflexivity.
  - destruct (id_matches task_id d); [reflexivity|exact IH].
Qed.

Lemma find_one_fresh o docs :
  Forall (fun d => (_id d < o)%N) docs -> find_one (IdOid o) docs = None.
Proof.
  unfold find_one. induction docs as [|d ds IH]; intros H; [reflexivity|].
  inversion H as [|? ? Hd Hds]; subst. simpl.
  destruct (N.eqb_spec o (_id d)); [lia|]. apply IH. exact Hds.
Qed.

Lemma find_one_id o docs d : find_one (IdOid o) docs = Some d -> _id d = o.
Proof.
  unfold find_one. intros H. apply find_some in H. destruct H as [_ H].
  simpl in H. apply N.eqb_eq in H. congruence.
Qed.

(** X1: on a store reached through the manager's calls, a task that
    [create_task] accepts can be read back with [get_task] under the
    ObjectId the store gave it: the document holds the trimmed, non-empty
    description and the status pending; every other id reads as before and
    the store has grown by one document. *)
Theorem create_task_then_get_task calls now task_data meeting :
  blank_task task_data = false ->
  clock_ok now = true ->
  let w := run_calls calls in
  exists w' d,
    create_task now task_data meeting w = (Returned (oid_str (next_oid w)), w')
    /\ get_task (IdOid (next_oid w)) w' = Some d
    /\ _id d = next_oid w
    /\ task (body d) = py_strip (default "" (raw_task task_data))
    /\ task (body d) <> ""
    /\ py_strip (task (body d)) = task (body d)
    /\ status (body d) = "pending"
    /\ (forall o, o <> next_oid w ->
        get_task (IdOid o) w' = get_task (IdOid o) w)
    /\ List.length (tasks w') = S (List.length (tasks w)).
Proof.
  intros Hb Hc w.
  destruct (deadline_policy_Some now task_data Hc) as [dl Hdl].
  destruct (create_task_returns now task_data meeting w dl Hb Hdl)
    as (w' & b & Hr & Ht & _ & Htask & _ & _ & _ & Hst & _).
  destruct (ids_fresh_run_calls calls) as [_ Hf]. fold w in Hf.
  exists w', {| _id := next_oid w; body := b |}.
  split; [exact Hr|]. unfold get_task. rewrite Ht.
  split.
  { rewrite find_one_app, (find_one_fresh _ _ Hf). simpl.
    rewrite N.eqb_refl. reflexivity. }
  split; [reflexivity|]. simpl. split; [exact Htask|].
  rewrite Htask. split.
  { intros E. apply py_strip_empty_iff in E. unfold blank_task in Hb.
    congruence. }
  split; [apply py_strip_idem|]. split; [exact Hst|]. split.
  - intros o Ho. rewrite find_one_app. simpl.
    destruct (find_one (IdOid o) (tasks w)); [reflexivity|].
    destruct (N.eqb_spec o (next_oid w)); [contradiction|reflexivity].
  - rewrite length_app. simpl. lia.
Qed.

Lemma create_task_then_get_task_witness :
  blank_task (item_with "  Book a room " None None) = false
  /\ clock_ok (jan_2024 15) = true
  /\ exists w' d,
       create_task (jan_2024 15) (item_with "  Book a room " None None) None
         (run_calls []) = (Returned (oid_str 0), w')
       /\ get_task (IdOid 0) w' = Some d
       /\ task (body d) = "Book a room".
Proof.
  split; [reflexivity|]. split; [reflexivity|].
  destruct (create_task_then_get_task [] (jan_2024 15)
              (item_with "  Book a room " None None) None eq_refl eq_refl)
    as (w' & d & Hr & Hg & _ & Ht & _).
  exists w', d. split; [exact Hr|]. split; [exact Hg|]. rewrite Ht. reflexivity.
Defined.

(** ** Deleting by ObjectId *)

Lemma find_one_filter_other o o' docs :
  o' <> o ->
  find_one (IdOid o') (List.filter (fun d => negb (o =? _id d)%N) docs)
  = find_one (IdOid o') docs.
Proof.
  intros Hne. unfold find_one. induction docs as [|d ds IH]; [reflexivity|].
  simpl. destruct (N.eqb_spec o (_id d)) as [E|E]; simpl.
  - destruct (N.eqb_spec o' (_id d)); [congruence|exact IH].
  - destruct (o' =? _id d)%N; [reflexivity|exact IH].
Qed.

Lemma find_one_filter_self o docs :
  find_one (IdOid o) (List.filter (fun d => negb (o =? _id d)%N) docs) = None.
Proof.
  unfold find_one. induction docs as [|d ds IH]; [reflexivity|].
  simpl. destruct (N.eqb_spec o (_id d)) as [E|E]; simpl; [exact IH|].
  destruct (N.eqb_spec o (_id d)); [contradiction|exact IH].
Qed.

Lemma delete_one_length task_id docs :
  (List.length (snd (delete_one task_id docs)) + fst (delete_one task_id docs)
   = List.length docs)%nat.
Proof.
  induction docs as [|d ds IH]; [reflexivity|].
  simpl. destruct (id_matches task_id d); simpl; [lia|].
  destruct (delete_one task_id ds). simpl in *. lia.
Qed.

(** X2: on a store reached through the manager's calls, [delete_task] with
    the ObjectId of a stored task returns [True] and removes exactly that
    document: [get_task] no longer finds it, every other id reads as
    before, and the store has one document less. *)
Theorem delete_task_removes_document calls o d :
  let w := run_calls calls in
  get_task (IdOid o) w = Some d ->
  fst (delete_task (IdOid o) w) = true
  /\ get_task (IdOid o) (snd (delete_task (IdOid o) w)) = None
  /\ (forall o', o' <> o ->
      get_task (IdOid o') (snd (delete_task (IdOid o) w))
      = get_task (IdOid o') w)
  /\ tasks (snd (delete_task (IdOid o) w))
     = List.filter (fun x => negb (o =? _id x)%N) (tasks w)
  /\ S (List.length (tasks (snd (delete_task (IdOid o) w))))
     = List.length (tasks w).
Proof.
  intros w Hd. destruct (ids_fresh_run_calls calls) as [Hn _]. fold w in Hn.
  unfold get_task in *. rewrite delete_task_unfold. cbv zeta. simpl.
  pose proof (delete_one_found _ _ _ Hd) as H1.
  pose proof (delete_one_length (IdOid o) (tasks w)) as Hl.
  rewrite (delete_one_nodup o _ Hn) in *. rewrite H1 in *.
  split; [reflexivity|]. split; [apply find_one_filter_self|].
  split; [intros o' Ho; apply find_one_filter_other; exact Ho|].
  split; [reflexivity|lia].
Qed.

Lemma delete_task_removes_document_witness :
  get_task (IdOid 0)
    (run_calls [CreateTask (jan_2024 15) (item_with "Book a room" None None) None])
  = Some sample_doc
  /\ fst (delete_task (IdOid 0)
            (run_calls [CreateTask (jan_2024 15)
                          (item_with "Book a room" None None) None])) = true.
Proof.
  split; [reflexivity|].
  apply (delete_task_removes_document
           [CreateTask (jan_2024 15) (item_with "Book a room" None None) None]
           0%N sample_doc).
  reflexivity.
Defined.

(** ** The jobs of a task *)

Lemma job_ids_distinct x :
  ("reminder_1day_" ++ x)%string <> ("reminder_deadline_" ++ x)%string
  /\ ("reminder_1day_" ++ x)%string <> ("overdue_check_" ++ x)%string
  /\ ("reminder_deadline_" ++ x)%string <> ("overdue_check_" ++ x)%string.
Proof. repeat split; rewrite !append_cons; congruence. Qed.

Lemma schedule_cases now task_id b w :
  (_schedule_task_reminders now task_id b w = w
   /\ (truthy (actual_deadline b) = false
       \/ strptime (default "" (actual_deadline b)) = None
       \/ exists deadline,
            strptime (default "" (actual_deadline b)) = Some deadline
            /\ add_days deadline (-1) = None))
  \/ (exists deadline reminder_date,
        truthy (actual_deadline b) = true
        /\ strptime (default "" (actual_deadline b)) = Some deadline
        /\ add_days deadline (-1) = Some reminder_date
        /\ jobs (_schedule_task_reminders now task_id b w)
           = <[("overdue_check_" ++ id_text task_id)%string := job_overdue]>
               (insert_if (date_geb deadline now)
                  ("reminder_deadline_" ++ id_text task_id)%string
                  (job_deadline task_id deadline)
                  (insert_if (datetime_gtb reminder_date now)
                     ("reminder_1day_" ++ id_text task_id)%string
                     (job_1day task_id reminder_date) (jobs w)))).
Proof.
  unfold _schedule_task_reminders.
  destruct (truthy (actual_deadline b)) eqn:Ht; simpl; [|left; auto].
  destruct (strptime _) as [deadline|] eqn:Hs; [|left; auto].
  destruct (add_days deadline (-1)) as [r|] eqn:Hr; [|left; eauto 6].
  right. exists deadline, r.
  split; [reflexivity|]. split; [reflexivity|]. split; [exact Hr|].
  destruct (datetime_gtb r now), (date_geb deadline now); reflexivity.
Qed.

Lemma schedule_jobs_ext now task_id b w1 w2 :
  jobs w1 = jobs w2 ->
  jobs (_schedule_task_reminders now task_id b w1)
  = jobs (_schedule_task_reminders now task_id b w2).
Proof.
  intros H.
  destruct (schedule_cases now task_id b w1) as [[E1 C1]|(d1 & r1 & T1 & S1 & A1 & J1)];
    destruct (schedule_cases now task_id b w2) as [[E2 C2]|(d2 & r2 & T2 & S2 & A2 & J2)].
  - rewrite E1, E2. exact H.
  - exfalso. destruct C1 as [C|[C|(d & C & C')]]; congruence.
  - exfalso. destruct C2 as [C|[C|(d & C & C')]]; congruence.
  - rewrite J1, J2. congruence.
Qed.

Lemma insert_if_lookup c k j (m : gmap string job) k' :
  insert_if c k j m !! k'
  = if c && bool_decide (k = k') then Some j else m !! k'.
Proof.
  unfold insert_if. destruct c; simpl; [|reflexivity].
  rewrite lookup_insert. destruct (decide (k = k')) as [E|E].
  - rewrite bool_decide_eq_true_2 by exact E. reflexivity.
  - rewrite bool_decide_eq_false_2 by exact E. reflexivity.
Qed.

Lemma schedule_lookup_other now task_id b w k :
  ~ In k (job_ids task_id) ->
  jobs (_schedule_task_reminders now task_id b w) !! k = jobs w !! k.
Proof.
  intros Hk.
  destruct (schedule_cases now task_id b w) as [[E _]|(d & r & _ & _ & _ & J)].
  - rewrite E. reflexivity.
  - rewrite J. unfold job_ids in Hk. simpl in Hk.
    rewrite lookup_insert_ne by tauto.
    rewrite !insert_if_lookup.
    rewrite !bool_decide_eq_false_2 by tauto.
    rewrite !andb_false_r. reflexivity.
Qed.

(** X3: [_schedule_task_reminders] is idempotent and local: scheduling the
    same task again at the same time leaves the job store as it was after
    the first time, every job outside the task's three keys is untouched,
    and the store of tasks is never changed. *)
Theorem schedule_twice_is_once now task_id b w :
  jobs (_schedule_task_reminders now task_id b
          (_schedule_task_reminders now task_id b w))
  = jobs (_schedule_task_reminders now task_id b w)
  /\ (forall k, ~ In k (job_ids task_id) ->
      jobs (_schedule_task_reminders now task_id b w) !! k = jobs w !! k)
  /\ tasks (_schedule_task_reminders now task_id b w) = tasks w.
Proof.
  split; [|split; [intros k; apply schedule_lookup_other
                  |apply schedule_store]].
  destruct (job_ids_distinct (id_text task_id)) as (N12 & N13 & N23).
  destruct (schedule_cases now task_id b w)
    as [[E _]|(d & r & T & S & A & J)].
  { rewrite !E. reflexivity. }
  destruct (schedule_cases now task_id b
              (_schedule_task_reminders now task_id b w))
    as [[E _]|(d' & r' & T' & S' & A' & J')].
  { rewrite E. reflexivity. }
  rewrite J', J.
  assert (d' = d) as -> by congruence.
  assert (r' = r) as -> by congruence.
  apply map_eq. intros k.
  rewrite !lookup_insert, !insert_if_lookup, !lookup_insert, !insert_if_lookup.
  destruct (decide (("overdue_check_" ++ id_text task_id)%string = k));
    [reflexivity|].
  destruct (date_geb d now), (datetime_gtb r now); simpl;
    repeat case_bool_decide; subst; try reflexivity; congruence.
Qed.

(** ** Updates, seen through [get_task] and the job store *)

Lemma update_one_find task_id updates docs :
  find_one task_id (snd (update_one task_id updates docs))
  = option_map
      (fun d => {| _id := _id d; body := set_fields updates (body d) |})
      (find_one task_id docs).
Proof.
  unfold find_one. induction docs as [|d ds IH]; [reflexivity|].
  simpl. destruct (id_matches task_id d) eqn:E; simpl.
  - assert (E' : id_matches task_id
                   {| _id := _id d; body := set_fields updates (body d) |} = true)
      by (destruct task_id; exact E).
    rewrite E'. reflexivity.
  - destruct (update_one task_id updates ds). simpl in *. rewrite E. exact IH.
Qed.

Lemma update_one_find_other o o' updates docs :
  o' <> o ->
  find_one (IdOid o') (snd (update_one (IdOid o) updates docs))
  = find_one (IdOid o') docs.
Proof.
  intros Hne. unfold find_one. induction docs as [|d ds IH]; [reflexivity|].
  simpl. destruct (N.eqb_spec o (_id d)) as [E|E]; simpl.
  - destruct (N.eqb_spec o' (_id d)); [congruence|reflexivity].
  - destruct (update_one (IdOid o) updates ds). simpl in *.
    rewrite IH. reflexivity.
Qed.

Lemma update_one_length task_id updates docs :
  List.length (snd (update_one task_id updates docs)) = List.length docs.
Proof.
  rewrite <- (length_map _id), update_one_ids. apply length_map.
Qed.







Lemma update_task_no_deadline now task_id updates w :
  sets_actual_deadline updates = false ->
  jobs (snd (update_task now task_id updates w)) = jobs w
  /\ trace (snd (update_task now task_id updates w))
     = (trace w ++ [UpdateOne task_id])%list.
Proof.
  intros Hs. unfold update_task.
  destruct (update_one task_id _ (tasks w)) as [n docs].
  assert (Hs' : sets_actual_deadline (updates ++ [SetUpdatedAt now]) = false).
  { unfold sets_actual_deadline in *. rewrite existsb_app, Hs. reflexivity. }
  rewrite Hs'. destruct (0 <? n)%nat; split; reflexivity.
Qed.

Lemma send_task_reminder_str s reminder_type w :
  _send_task_reminder (IdStr s) reminder_type w = [].
Proof.
  unfold _send_task_reminder, get_task. rewrite find_one_str. reflexivity.
Qed.

Lemma update_one_In_other o updates docs x :
  _id x <> o ->
  In x (snd (update_one (IdOid o) updates docs)) <-> In x docs.
Proof.
  intros Hx. induction docs as [|d ds IH]; [reflexivity|].
  cbn [update_one id_matches]. destruct (N.eqb_spec o (_id d)) as [E|E].
  - cbn [snd In]. split; intros [H|H]; auto; exfalso; subst x; simpl in Hx;
      congruence.
  - destruct (update_one (IdOid o) updates ds) as [n ds'].
    cbn [snd In] in *. rewrite IH. reflexivity.
Qed.

(** X5: [mark_task_completed] with the ObjectId of a stored task writes the
    status completed and the time stamp and nothing else: each of the nine
    other fields of the document, the documents of other ids and the job
    store are as before; the task's reminders stay registered, and from
    then on [_send_task_reminder] logs nothing for it. *)
Theorem mark_task_completed_effect now o w d :
  get_task (IdOid o) w = Some d ->
  let w' := snd (mark_task_completed now (IdOid o) w) in
  exists d',
    get_task (IdOid o) w' = Some d'
    /\ _id d' = _id d
    /\ status (body d') = "completed"
    /\ updated_at (body d') = bson_datetime now
    /\ task (body d') = task (body d)
    /\ assignee (body d') = assignee (body d)
    /\ priority (body d') = priority (body d)
    /\ context (body d') = context (body d)
    /\ meeting_id (body d') = meeting_id (body d)
    /\ transcript_id (body d') = transcript_id (body d)
    /\ suggested_deadline (body d') = suggested_deadline (body d)
    /\ actual_deadline (body d') = actual_deadline (body d)
    /\ created_at (body d') = created_at (body d)
    /\ body d' = apply_update (SetUpdatedAt (bson_datetime now))
                   (apply_update (SetStatus "completed") (body d))
    /\ (forall o', o' <> o -> get_task (IdOid o') w' = get_task (IdOid o') w)
    /\ (forall x, _id x <> o -> In x (tasks w') <-> In x (tasks w))
    /\ map _id (tasks w') = map _id (tasks w)
    /\ List.length (tasks w') = List.length (tasks w)
    /\ jobs w' = jobs w
    /\ (forall reminder_type,
          _send_task_reminder (IdOid o) reminder_type w' = []).
Proof.
  intros Hd w'.
  assert (Ht : tasks w'
               = snd (update_one (IdOid o)
                        ([SetStatus "completed"] ++ [SetUpdatedAt now])
                        (tasks w)))
    by apply update_task_tasks.
  assert (Hg : get_task (IdOid o) w'
               = Some {| _id := _id d;
                         body := set_fields
                                   ([SetStatus "completed"]
                                    ++ [SetUpdatedAt now]) (body d) |}).
  { unfold get_task in *. rewrite Ht, update_one_find, Hd. reflexivity. }
  eexists. split; [exact Hg|].
  destruct d as [i b]. destruct b. simpl.
  repeat (split; [reflexivity|]).
  split.
  { intros o' Ho. unfold get_task. rewrite Ht.
    apply update_one_find_other. exact Ho. }
  split.
  { intros x Hx. rewrite Ht. apply update_one_In_other. exact Hx. }
  split; [rewrite Ht; apply update_one_ids|].
  split; [rewrite Ht; apply update_one_length|].
  split; [apply (update_task_no_deadline now (IdOid o) [SetStatus "completed"] w);
          reflexivity|].
  intros rt. unfold _send_task_reminder. rewrite Hg. reflexivity.
Qed.

Lemma mark_task_completed_effect_witness :
  get_task (IdOid 0) sample_world = Some sample_doc
  /\ exists d',
       get_task (IdOid 0)
         (snd (mark_task_completed (jan_2024 16) (IdOid 0) sample_world))
       = Some d'
       /\ status (body d') = "completed".
Proof.
  split; [reflexivity|].
  destruct (mark_task_completed_effect (jan_2024 16) 0%N sample_world
              sample_doc eq_refl) as (d' & Hg & _ & Hs & _).
  exists d'. split; [exact Hg|exact Hs].
Defined.

(** ** The reminders of a new task *)

Lemma create_task_jobs now task_data meeting w dl :
  blank_task task_data = false ->
  deadline_policy_spec now task_data = Some dl ->
  exists w' b,
    create_task now task_data meeting w = (Returned (oid_str (next_oid w)), w')
    /\ actual_deadline b = Some dl
    /\ tasks w' = (tasks w ++ [{| _id := next_oid w; body := to_bson b |}])%list
    /\ jobs w'
       = jobs (_schedule_task_reminders now (IdStr (oid_str (next_oid w))) b w).
Proof.
  unfold blank_task, deadline_policy_spec. intros Hb Hp.
  assert (Hne : String.eqb (py_strip (default "" (raw_task task_data))) "" = false).
  { apply not_true_is_false. intros E. apply String.eqb_eq in E.
    apply py_strip_empty_iff in E. congruence. }
  unfold create_task. simpl. rewrite Hne.
  destruct (raw_actual_deadline task_data) as [[|c a]|] eqn:Ha;
    destruct (raw_suggested_deadline task_data) as [[|c' s']|] eqn:Hs;
    simpl in *; try discriminate;
    try (destruct (add_days now 7) as [d7|]; simpl in *; try discriminate);
    injection Hp as <-;
    unfold save_task, insert_one; simpl;
    match goal with
    | |- context [_schedule_task_reminders ?n ?i ?b ?w0] =>
        destruct (schedule_store n i b w0) as [Ht Hn];
        exists (_schedule_task_reminders n i b w0), b
    end;
    (split; [reflexivity|]); (split; [reflexivity|]);
    (split; [rewrite Ht; reflexivity|]);
    apply schedule_jobs_ext; reflexivity.
Qed.

Lemma toordinal_midnight d : toordinal (midnight d) = toordinal d.
Proof. reflexivity. Qed.

Lemma date_compare_midnight_l a b :
  date_compare (midnight a) b = date_compare a b.
Proof. reflexivity. Qed.

Lemma add_days_back now :
  clock_ok now = true ->
  exists d6 d7,
    add_days now 6 = Some d6 /\ add_days now 7 = Some d7
    /\ valid_date d6 = true /\ valid_date d7 = true
    /\ toordinal d6 = toordinal now + 6 /\ toordinal d7 = toordinal now + 7
    /\ add_days (midnight d7) (-1) = Some (midnight d6).
Proof.
  intros Hc.
  destruct (add_days_Some now 6 Hc ltac:(lia)) as [d6 H6].
  destruct (add_days_Some now 7 Hc ltac:(lia)) as [d7 H7].
  destruct (add_days_spec _ _ _ H6) as (V6 & O6 & _).
  destruct (add_days_spec _ _ _ H7) as (V7 & O7 & _).
  exists d6, d7. repeat (split; [assumption|]).
  pose proof (toordinal_bounds now Hc) as Hb.
  unfold add_days in *. rewrite toordinal_midnight, O7.
  replace (toordinal now + 7 + -1) with (toordinal now + 6) by lia.
  destruct ((0 <? toordinal now + 6) && (toordinal now + 6 <=? _MAXORDINAL));
    [|discriminate].
  destruct (_ord2ymd (toordinal now + 6)) as [[y m] d].
  injection H6 as <-. reflexivity.
Qed.

(** X6: a task created without deadline fields, at a clock reading of the
    years 1000..9998, gets its three jobs under the keys of the returned
    id: a reminder at midnight six days later, a reminder at midnight of
    the deadline seven days later, and the daily overdue check; no other
    job is touched. *)
Theorem create_task_registers_reminders now task_data meeting w :
  blank_task task_data = false ->
  clock_ok now = true ->
  1000 <= year now ->
  truthy (raw_actual_deadline task_data) = false ->
  truthy (raw_suggested_deadline task_data) = false ->
  let task_id := oid_str (next_oid w) in
  exists w' d6 d7,
    create_task now task_data meeting w = (Returned task_id, w')
    /\ add_days now 6 = Some d6
    /\ add_days now 7 = Some d7
    /\ jobs w' !! ("reminder_1day_" ++ task_id)%string
       = Some (job_1day (IdStr task_id) (midnight d6))
    /\ jobs w' !! ("reminder_deadline_" ++ task_id)%string
       = Some (job_deadline (IdStr task_id) (midnight d7))
    /\ jobs w' !! ("overdue_check_" ++ task_id)%string = Some job_overdue
    /\ (forall k, ~ In k (job_ids (IdStr task_id)) ->
        jobs w' !! k = jobs w !! k).
Proof.
  intros Hb Hc Hy Ha Hs task_id. subst task_id.
  destruct (add_days_back now Hc)
    as (d6 & d7 & H6 & H7 & V6 & V7 & O6 & O7 & Hback).
  assert (Hp : deadline_policy_spec now task_data = Some (strftime d7)).
  { unfold deadline_policy_spec. rewrite Ha, Hs, H7. reflexivity. }
  destruct (create_task_jobs now task_data meeting w _ Hb Hp)
    as (w' & b & Hr & Hd & _ & Hj).
  exists w', d6, d7. split; [exact Hr|]. split; [exact H6|].
  split; [exact H7|].
  pose proof (add_days_year now 7 d7 (clock_ok_valid _ Hc) ltac:(lia) H7) as Hy7.
  pose proof (strptime_strftime d7 V7 ltac:(lia)) as Hparse.
  fold (midnight d7) in Hparse.
  destruct (job_ids_distinct (oid_str (next_oid w))) as (N12 & N13 & N23).
  destruct (schedule_cases now (IdStr (oid_str (next_oid w))) b w)
    as [[E C]|(dl & r & T & S & A & J)].
  { exfalso. rewrite Hd in C. simpl default in C.
    destruct C as [C|[C|(x & C & C')]]; try congruence.
    pose proof (strftime_shape d7 (valid_date_wf _ V7 ltac:(lia))) as Hsh.
    simpl in C. destruct (strftime d7); discriminate. }
  rewrite Hd in S. simpl default in S.
  assert (dl = midnight d7) as -> by congruence.
  assert (r = midnight d6) as -> by congruence.
  assert (G1 : datetime_gtb (midnight d6) now = true).
  { unfold datetime_gtb, datetime_compare.
    rewrite date_compare_midnight_l,
      (date_compare_toordinal _ _ V6 (clock_ok_valid _ Hc)).
    replace (toordinal d6 ?= toordinal now) with Gt; [reflexivity|].
    symmetry. apply Z.compare_gt_iff. lia. }
  assert (G2 : date_geb (midnight d7) now = true).
  { unfold date_geb.
    rewrite date_compare_midnight_l,
      (date_compare_toordinal _ _ V7 (clock_ok_valid _ Hc)).
    replace (toordinal d7 ?= toordinal now) with Gt; [reflexivity|].
    symmetry. apply Z.compare_gt_iff. lia. }
  rewrite Hj, J, G1, G2. simpl id_text. unfold insert_if.
  split; [rewrite !lookup_insert_ne by congruence; apply lookup_insert_eq|].
  split; [rewrite lookup_insert_ne by congruence; apply lookup_insert_eq|].
  split; [apply lookup_insert_eq|].
  intros k Hk. unfold job_ids in Hk. simpl in Hk.
  rewrite !lookup_insert_ne by tauto. reflexivity.
Qed.

Lemma create_task_registers_reminders_witness :
  blank_task (item_with "Book a room" None None) = false
  /\ clock_ok (jan_2024 15) = true
  /\ jobs sample_world !! "overdue_check_000000000000000000000000"
     = Some job_overdue.
Proof.
  split; [reflexivity|]. split; [reflexivity|].
  destruct (create_task_registers_reminders (jan_2024 15)
              (item_with "Book a room" None None) None empty_world
              eq_refl eq_refl ltac:(simpl; lia) eq_refl eq_refl)
    as (w' & d6 & d7 & Hr & _ & _ & _ & _ & Ho & _).
  unfold sample_world. rewrite Hr. exact Ho.
Defined.

Lemma create_task_Returned_inv now task_data meeting w task_id w' :
  create_task now task_data meeting w = (Returned task_id, w') ->
  blank_task task_data = false
  /\ exists dl, deadline_policy_spec now task_data = Some dl.
Proof.
  intros H. destruct (blank_task task_data) eqn:Hb.
  { rewrite create_task_blank in H by exact Hb. discriminate. }
  split; [reflexivity|].
  destruct (deadline_policy_spec now task_data) as [dl|] eqn:Hp; [eauto|].
  rewrite create_task_overflow in H by assumption. discriminate.
Qed.

(** X7: [delete_task], called with the id string that [create_task] has
    just returned, answers [False] and leaves the new document in the store,
    yet it has removed the task's three jobs from the scheduler. *)
Theorem delete_with_returned_id now task_data meeting w task_id w1 :
  create_task now task_data meeting w = (Returned task_id, w1) ->
  fst (delete_task (IdStr task_id) w1) = false
  /\ tasks (snd (delete_task (IdStr task_id) w1)) = tasks w1
  /\ List.length (tasks w1) = S (List.length (tasks w))
  /\ (forall k, In k (job_ids (IdStr task_id)) ->
      jobs (snd (delete_task (IdStr task_id) w1)) !! k = None)
  /\ (forall k, ~ In k (job_ids (IdStr task_id)) ->
      jobs (snd (delete_task (IdStr task_id) w1)) !! k = jobs w1 !! k).
Proof.
  intros Hr.
  destruct (create_task_Returned_inv _ _ _ _ _ _ Hr) as (Hb & dl & Hp).
  destruct (create_task_returns now task_data meeting w dl Hb Hp)
    as (w' & b & Hr' & Ht & _).
  rewrite Hr in Hr'. injection Hr' as -> ->.
  rewrite delete_task_unfold. cbv zeta. simpl.
  rewrite delete_one_str. simpl.
  split; [reflexivity|]. split; [reflexivity|].
  split; [rewrite Ht, length_app; simpl; lia|].
  split; intros k Hk.
  - apply (cancel_lookup_in (IdStr (oid_str (next_oid w)))). exact Hk.
  - apply (cancel_lookup_out (IdStr (oid_str (next_oid w)))). exact Hk.
Qed.

Lemma delete_with_returned_id_witness :
  create_task (jan_2024 15) (item_with "Book a room" None None) None empty_world
  = (Returned "000000000000000000000000", sample_world)
  /\ fst (delete_task (IdStr "000000000000000000000000") sample_world) = false
  /\ jobs (snd (delete_task (IdStr "000000000000000000000000") sample_world))
     !! "overdue_check_000000000000000000000000" = None.
Proof.
  assert (H : create_task (jan_2024 15) (item_with "Book a room" None None)
                None empty_world
              = (Returned "000000000000000000000000", sample_world))
    by reflexivity.
  split; [exact H|].
  destruct (delete_with_returned_id _ _ _ _ _ _ H) as (Hf & _ & _ & Hj & _).
  split; [exact Hf|]. apply Hj. unfold job_ids. simpl. auto.
Defined.

(** X8: every job that [create_task] registers or replaces is either the
    daily overdue check or a reminder whose run logs nothing, at any time
    and whatever the store then holds: the reminder carries the id string,
    under which [get_task] finds no document. *)
Theorem created_reminders_are_silent now task_data meeting w task_id w' k j :
  create_task now task_data meeting w = (Returned task_id, w') ->
  jobs w' !! k = Some j ->
  jobs w !! k <> Some j ->
  (k = ("overdue_check_" ++ task_id)%string /\ j = job_overdue)
  \/ (In k (job_ids (IdStr task_id))
      /\ forall later store, run_job later j store = []).
Proof.
  intros Hr Hk Hnew.
  destruct (create_task_Returned_inv _ _ _ _ _ _ Hr) as (Hb & dl & Hp).
  destruct (create_task_jobs now task_data meeting w dl Hb Hp)
    as (w0 & b & Hr' & _ & _ & Hj).
  rewrite Hr in Hr'. injection Hr' as -> ->.
  rewrite Hj in Hk.
  destruct (schedule_cases now (IdStr (oid_str (next_oid w))) b w)
    as [[E _]|(d & r & _ & _ & _ & J)].
  { rewrite E in Hk. contradiction. }
  rewrite J in Hk. simpl id_text in Hk.
  rewrite lookup_insert in Hk.
  destruct (decide (("overdue_check_" ++ oid_str (next_oid w))%string = k))
    as [<-|N3].
  { left. split; [reflexivity|congruence]. }
  right. rewrite !insert_if_lookup in Hk.
  destruct (date_geb d now && bool_decide _) eqn:C2.
  { apply andb_prop in C2. destruct C2 as [_ C2].
    apply bool_decide_eq_true_1 in C2. subst k. injection Hk as <-.
    split; [unfold job_ids; simpl; auto|].
    intros later store. apply send_task_reminder_str. }
  destruct (datetime_gtb r now && bool_decide _) eqn:C1.
  { apply andb_prop in C1. destruct C1 as [_ C1].
    apply bool_decide_eq_true_1 in C1. subst k. injection Hk as <-.
    split; [unfold job_ids; simpl; auto|].
    intros later store. apply send_task_reminder_str. }
  contradiction.
Qed.

Lemma created_reminders_are_silent_witness :
  create_task (jan_2024 15) (item_with "Book a room" None None) None empty_world
  = (Returned "000000000000000000000000", sample_world)
  /\ jobs sample_world !! "reminder_deadline_000000000000000000000000"
     = Some (job_deadline (IdStr "000000000000000000000000")
               (midnight (jan_2024 22)))
  /\ run_job (jan_2024 22)
       (job_deadline (IdStr "000000000000000000000000") (midnight (jan_2024 22)))
       sample_world = [].
Proof.
  assert (H : create_task (jan_2024 15) (item_with "Book a room" None None)
                None empty_world
              = (Returned "000000000000000000000000", sample_world))
    by reflexivity.
  assert (Hk : jobs sample_world !! "reminder_deadline_000000000000000000000000"
               = Some (job_deadline (IdStr "000000000000000000000000")
                         (midnight (jan_2024 22))))
    by (vm_compute; reflexivity).
  split; [exact H|]. split; [exact Hk|].
  assert (Hnew : jobs empty_world !! "reminder_deadline_000000000000000000000000"
                 <> Some (job_deadline (IdStr "000000000000000000000000")
                            (midnight (jan_2024 22))))
    by (simpl; rewrite lookup_empty; discriminate).
  destruct (created_reminders_are_silent _ _ _ _ _ _ _ _ H Hk Hnew)
    as [[E _]|[_ Hs]].
  - discriminate E.
  - apply Hs.
Defined.

(** ** Overdue and upcoming *)

Lemma ltb_not_leb s t : String.ltb s t = true -> String.leb t s = false.
Proof.
  unfold String.ltb, String.leb. rewrite (String.compare_antisym s t).
  destruct (String.compare t s); simpl; congruence.
Qed.

Lemma get_upcoming_tasks_In now days_ahead w l d :
  get_upcoming_tasks now days_ahead w = Returned l ->
  In d l
  <-> exists future,
        add_days now days_ahead = Some future
        /\ In d (tasks w) /\ is_open d = true
        /\ deadline_between (strftime now) (strftime future) d = true.
Proof.
  unfold get_upcoming_tasks.
  destruct (add_days now days_ahead) as [future|]; [|discriminate].
  intros [= <-]. split.
  - intros H.
    apply (Permutation_in _ (sort_by_actual_deadline_perm _)) in H.
    apply filter_In in H. destruct H as [Hin Hp].
    apply andb_prop in Hp. exists future. tauto.
  - intros (f & [= <-] & Hin & Ho & Hb).
    apply (Permutation_in _ (Permutation_sym (sort_by_actual_deadline_perm _))).
    apply filter_In. split; [exact Hin|]. rewrite Ho, Hb. reflexivity.
Qed.

Lemma filter_disjoint_length {A} (p q r : A -> bool) l :
  (forall x, p x = true -> q x = false) ->
  (forall x, p x = true -> r x = true) ->
  (forall x, q x = true -> r x = true) ->
  (List.length (List.filter p l) + List.length (List.filter q l)
   <= List.length (List.filter r l))%nat.
Proof.
  intros Hpq Hpr Hqr. induction l as [|x xs IH]; [reflexivity|].
  simpl. destruct (p x) eqn:Ep, (q x) eqn:Eq, (r x) eqn:Er; simpl;
    try lia;
    solve [ rewrite (Hpq x Ep) in Eq; discriminate
          | rewrite (Hpr x Ep) in Er; discriminate
          | rewrite (Hqr x Eq) in Er; discriminate ].
Qed.

Lemma open_count docs :
  List.length (List.filter is_open docs)
  = (count_status "pending" docs + count_status "in_progress" docs)%nat.
Proof.
  unfold count_status, is_open. induction docs as [|d ds IH]; [reflexivity|].
  simpl. destruct (String.eqb_spec (status (body d)) "pending") as [E|E].
  - rewrite E. simpl. lia.
  - simpl. destruct (String.eqb (status (body d)) "in_progress"); simpl; lia.
Qed.

(** X9: no task is both overdue and upcoming, and in the statistics that
    [get_task_statistics] returns the overdue and the upcoming tasks
    together are never more than the pending and in-progress ones, for any
    store. *)
Theorem overdue_and_upcoming_are_disjoint now w s :
  get_task_statistics now w = Returned s ->
  (forall d upcoming,
     get_upcoming_tasks now 7 w = Returned upcoming ->
     In d (get_overdue_tasks now w) -> ~ In d upcoming)
  /\ (overdue_tasks s + upcoming_tasks s
      <= pending_tasks s + in_progress_tasks s)%nat
  /\ (pending_tasks s + in_progress_tasks s + completed_tasks s
      <= total_tasks s)%nat.
Proof.
  intros Hs. split; [|split].
  - intros d l Hl Ho Hu.
    apply get_overdue_tasks_In in Ho. destruct Ho as (_ & _ & Hlt).
    apply (get_upcoming_tasks_In _ _ _ _ _ Hl) in Hu.
    destruct Hu as (f & _ & _ & _ & Hb).
    unfold deadline_lt, deadline_between in *.
    destruct (actual_deadline (body d)) as [x|]; [|discriminate].
    apply ltb_not_leb in Hlt. rewrite Hlt in Hb. discriminate.
  - unfold get_task_statistics in Hs.
    destruct (get_upcoming_tasks now 7 w) as [l|] eqn:Hl; [|discriminate].
    injection Hs as <-. simpl.
    unfold get_upcoming_tasks in Hl.
    destruct (add_days now 7) as [future|]; [|discriminate].
    injection Hl as <-. unfold get_overdue_tasks.
    rewrite !(Permutation_length (sort_by_actual_deadline_perm _)).
    rewrite <- open_count.
    apply filter_disjoint_length.
    + intros x Hx. apply andb_prop in Hx. destruct Hx as [_ Hlt].
      unfold deadline_lt, deadline_between in *.
      destruct (actual_deadline (body x)) as [y|]; [|discriminate].
      apply ltb_not_leb in Hlt. rewrite Hlt. apply andb_false_r.
    + intros x Hx. apply andb_prop in Hx. tauto.
    + intros x Hx. apply andb_prop in Hx. tauto.
  - unfold get_task_statistics in Hs.
    destruct (get_upcoming_tasks now 7 w) as [l|]; [|discriminate].
    injection Hs as <-. simpl. unfold count_status.
    induction (tasks w) as [|d ds IH]; [reflexivity|]. simpl.
    destruct (String.eqb_spec (status (body d)) "pending") as [E|E];
      [rewrite E; simpl; lia|].
    destruct (String.eqb_spec (status (body d)) "in_progress") as [E'|E'];
      [rewrite E'; simpl; lia|].
    destruct (String.eqb (status (body d)) "completed"); simpl; lia.
Qed.

Lemma overdue_and_upcoming_are_disjoint_witness :
  get_task_statistics (jan_2024 23) sample_world
  = Returned {| total_tasks := 1; pending_tasks := 1; in_progress_tasks := 0;
                completed_tasks := 0; overdue_tasks := 1; upcoming_tasks := 0 |}
  /\ (1 + 0 <= 1 + 0)%nat.
Proof.
  assert (H : get_task_statistics (jan_2024 23) sample_world
              = Returned {| total_tasks := 1; pending_tasks := 1;
                            in_progress_tasks := 0; completed_tasks := 0;
                            overdue_tasks := 1; upcoming_tasks := 0 |})
    by (vm_compute; reflexivity).
  split; [exact H|].
  exact (proj1 (proj2 (overdue_and_upcoming_are_disjoint _ _ _ H))).
Defined.

Lemma leb_strftime_ordinal a b :
  valid_date a = true -> 1000 <= year a ->
  valid_date b = true -> 1000 <= year b ->
  String.leb (strftime a) (strftime b) = true <-> toordinal a <= toordinal b.
Proof.
  intros Va Ya Vb Yb. unfold String.leb.
  rewrite (strftime_compare _ _ (valid_date_wf _ Va Ya) (valid_date_wf _ Vb Yb)).
  rewrite (date_compare_toordinal _ _ Va Vb).
  destruct (Z.compare_spec (toordinal a) (toordinal b)) as [E|E|E];
    split; intros Hx; try reflexivity; try discriminate; lia.
Qed.

(** X10: [get_upcoming_tasks] raises only when the last day of the window
    falls outside the years 1 to 9999; otherwise it returns exactly the stored tasks that
    are pending or in progress and whose deadline string lies between the
    string of today and the string of the last day of the window, both
    included, ordered by ascending deadline; for deadlines written
    YYYY-MM-DD these are the tasks due from today to [days_ahead] days from
    today. *)
Theorem get_upcoming_tasks_exact now days_ahead w :
  (add_days now days_ahead = None ->
   get_upcoming_tasks now days_ahead w = Raised OverflowError)
  /\ (forall future,
        add_days now days_ahead = Some future ->
        exists l,
          get_upcoming_tasks now days_ahead w = Returned l
          /\ Permutation l
               (List.filter
                  (fun d => is_open d
                            && deadline_between (strftime now)
                                 (strftime future) d) (tasks w))
          /\ StronglySorted deadline_le l
          /\ (forall d, In d l -> status (body d) <> "completed")
          /\ (forall d dl,
                In d (tasks w) ->
                valid_date now = true -> 1000 <= year now ->
                0 <= days_ahead ->
                valid_date dl = true -> 1000 <= year dl ->
                actual_deadline (body d) = Some (strftime dl) ->
                (In d l
                 <-> (status (body d) = "pending"
                      \/ status (body d) = "in_progress")
                     /\ toordinal now <= toordinal dl
                        <= toordinal now + days_ahead))).
Proof.
  split.
  { intros H. unfold get_upcoming_tasks. rewrite H. reflexivity. }
  intros future Hf.
  assert (Hl : get_upcoming_tasks now days_ahead w
               = Returned
                   (sort_by_actual_deadline
                      (List.filter
                         (fun d => is_open d
                                   && deadline_between (strftime now)
                                        (strftime future) d) (tasks w))))
    by (unfold get_upcoming_tasks; rewrite Hf; reflexivity).
  eexists. split; [exact Hl|].
  split; [apply sort_by_actual_deadline_perm|].
  split; [apply sort_by_actual_deadline_sorted|].
  split.
  - intros d Hd. apply (get_upcoming_tasks_In _ _ _ _ _ Hl) in Hd.
    destruct Hd as (_ & _ & _ & Ho & _). apply is_open_iff in Ho.
    destruct Ho as [-> | ->]; discriminate.
  - intros d dl Hin Vn Yn Hk Vd Yd Had.
    destruct (add_days_spec _ _ _ Hf) as (Vf & Of & _).
    pose proof (add_days_year _ _ _ Vn Hk Hf) as Yf.
    rewrite (get_upcoming_tasks_In _ _ _ _ _ Hl), <- is_open_iff.
    unfold deadline_between. rewrite Had.
    split.
    + intros (f & Hf' & _ & Ho & Hb). split; [exact Ho|].
      assert (f = future) as -> by congruence.
      apply andb_prop in Hb. destruct Hb as [H1 H2].
      apply leb_strftime_ordinal in H1; [|assumption|lia|assumption|lia].
      apply leb_strftime_ordinal in H2; [|assumption|lia|assumption|lia].
      lia.
    + intros (Ho & H1 & H2). exists future.
      split; [exact Hf|]. split; [exact Hin|]. split; [exact Ho|].
      apply andb_true_intro. split; apply leb_strftime_ordinal;
        try assumption; lia.
Qed.

Example get_upcoming_tasks_boundaries :
  let w := fold_left run_call
             [CreateTask (jan_2024 10) (item_with "Due today" None None) None;
              CreateTask (jan_2024 10) (item_with "Due in a week" None None) None;
              CreateTask (jan_2024 10) (item_with "Due in eight days" None None) None;
              CreateTask (jan_2024 10) (item_with "Due yesterday" None None) None;
              UpdateTask (jan_2024 11) (IdOid 0) [SetActualDeadline (Some "2024-01-20")];
              UpdateTask (jan_2024 11) (IdOid 1) [SetActualDeadline (Some "2024-01-27")];
              UpdateTask (jan_2024 11) (IdOid 2) [SetActualDeadline (Some "2024-01-28")];
              UpdateTask (jan_2024 11) (IdOid 3) [SetActualDeadline (Some "2024-01-19")]]
             empty_world in
  match get_upcoming_tasks (jan_2024 20) 7 w with
  | Returned l => map _id l = [0%N; 1%N]
  | Raised _ => False
  end
  /\ map _id (get_overdue_tasks (jan_2024 20) w) = [3%N].
Proof. cbv zeta. split; vm_compute; reflexivity. Qed.

(** ** Listing tasks *)

Lemma datetime_leb_iff a b :
  datetime_leb a b = true
  <-> year a < year b
      \/ (year a = year b
          /\ (month a < month b
              \/ (month a = month b
                  /\ (day a < day b
                      \/ (day a = day b /\ usec a <= usec b))))).
Proof.
  unfold datetime_leb, datetime_compare, date_compare.
  destruct (Z.compare_spec (year a) (year b));
    [destruct (Z.compare_spec (month a) (month b));
     [destruct (Z.compare_spec (day a) (day b));
      [destruct (Z.compare_spec (usec a) (usec b))|..]|..]|..];
    split; intros Hx; try reflexivity; try discriminate; lia.
Qed.

Lemma created_geb_total a b : created_geb a b = true \/ created_geb b a = true.
Proof. unfold created_geb. rewrite !datetime_leb_iff. lia. Qed.

Lemma created_geb_trans a b c :
  created_geb a b = true -> created_geb b c = true -> created_geb a c = true.
Proof. unfold created_geb. rewrite !datetime_leb_iff. lia. Qed.

Lemma insert_by_created_perm d l : Permutation (insert_by_created d l) (d :: l).
Proof.
  induction l as [|x xs IH]; simpl; [reflexivity|].
  destruct (created_geb d x); [reflexivity|].
  rewrite IH. apply perm_swap.
Qed.

Lemma sort_by_created_desc_perm l : Permutation (sort_by_created_desc l) l.
Proof.
  induction l as [|x xs IH]; simpl; [reflexivity|].
  rewrite insert_by_created_perm. apply perm_skip. exact IH.
Qed.

Lemma insert_by_created_sorted d l :
  StronglySorted (fun a b => created_geb a b = true) l ->
  StronglySorted (fun a b => created_geb a b = true) (insert_by_created d l).
Proof.
  induction l as [|x xs IH]; intros Hs; simpl.
  - constructor; constructor.
  - inversion Hs as [|? ? Hxs Hall]; subst.
    destruct (created_geb d x) eqn:E.
    + constructor; [exact Hs|]. constructor; [exact E|].
      eapply List.Forall_impl; [|exact Hall].
      intros y Hy. eapply created_geb_trans; [exact E|exact Hy].
    + constructor; [apply IH; exact Hxs|].
      eapply Permutation_Forall.
      * symmetry. apply insert_by_created_perm.
      * constructor; [|exact Hall].
        destruct (created_geb_total d x) as [H|H]; [congruence|exact H].
Qed.

Lemma sort_by_created_desc_sorted l :
  StronglySorted (fun a b => created_geb a b = true) (sort_by_created_desc l).
Proof.
  induction l as [|x xs IH]; simpl; [constructor|].
  apply insert_by_created_sorted. exact IH.
Qed.

Lemma matches_query_status s d :
  matches_query [SetStatus s] d = String.eqb (status (body d)) s.
Proof.
  unfold matches_query.
  destruct (String.eqb_spec (status (body d)) s) as [E|E].
  - apply task_dict_eqb_eq. apply set_status_same. exact E.
  - apply not_true_is_false. intros H. apply task_dict_eqb_eq in H.
    apply E. rewrite <- H. destruct (body d). reflexivity.
Qed.

Lemma filter_all {A} (l : list A) : List.filter (fun _ => true) l = l.
Proof. induction l as [|x xs IH]; simpl; congruence. Qed.

(** X11: [get_tasks] returns exactly the stored tasks that match the
    filter, the most recently created first; without a filter, or with the
    empty one, these are all the stored tasks; with a status as the filter
    they are the tasks of that status, the same that [get_all_tasks] lists
    and [get_task_statistics] counts. *)
Theorem get_tasks_exact filters w :
  Permutation (get_tasks filters w)
    (List.filter (matches_query (default [] filters)) (tasks w))
  /\ StronglySorted (fun a b => created_geb a b = true) (get_tasks filters w)
  /\ Permutation (get_tasks None w) (tasks w)
  /\ get_tasks (Some []) w = get_tasks None w
  /\ get_all_tasks None w = get_tasks None w
  /\ (forall s,
        get_all_tasks (Some s) w = get_tasks (Some [SetStatus s]) w
        /\ (forall d, In d (get_all_tasks (Some s) w)
                      <-> In d (tasks w) /\ status (body d) = s)
        /\ List.length (get_all_tasks (Some s) w) = count_status s (tasks w))
  /\ (forall now st,
        get_task_statistics now w = Returned st ->
        total_tasks st = List.length (get_tasks None w)
        /\ pending_tasks st = List.length (get_all_tasks (Some "pending") w)
        /\ in_progress_tasks st
           = List.length (get_all_tasks (Some "in_progress") w)
        /\ completed_tasks st
           = List.length (get_all_tasks (Some "completed") w)).
Proof.
  assert (Hall : Permutation (get_tasks None w) (tasks w)).
  { unfold get_tasks. rewrite sort_by_created_desc_perm.
    simpl. unfold matches_query. simpl.
    erewrite filter_ext; [rewrite filter_all; reflexivity|].
    intros d. apply task_dict_eqb_eq. reflexivity. }
  assert (Hlen : forall s,
             List.length (get_all_tasks (Some s) w) = count_status s (tasks w)).
  { intros s. unfold get_all_tasks, count_status.
    rewrite (Permutation_length (sort_by_created_desc_perm _)).
    f_equal. apply filter_ext. intros d. apply matches_query_status. }
  split; [apply sort_by_created_desc_perm|].
  split; [apply sort_by_created_desc_sorted|].
  split; [exact Hall|]. split; [reflexivity|]. split; [reflexivity|].
  split.
  - intros s. split; [reflexivity|]. split; [|apply Hlen].
    intros d. unfold get_all_tasks. split.
    + intros H. apply (Permutation_in _ (sort_by_created_desc_perm _)) in H.
      apply filter_In in H. rewrite matches_query_status in H.
      destruct H as [Hin H]. apply String.eqb_eq in H. tauto.
    + intros [Hin Hs].
      apply (Permutation_in _ (Permutation_sym (sort_by_created_desc_perm _))).
      apply filter_In. rewrite matches_query_status. split; [exact Hin|].
      apply String.eqb_eq. exact Hs.
  - intros now st Hst. unfold get_task_statistics in Hst.
    destruct (get_upcoming_tasks now 7 w); [|discriminate].
    injection Hst as <-. simpl. rewrite !Hlen.
    rewrite (Permutation_length Hall). repeat split.
Qed.

(** ** Ids as strings and as ObjectIds *)

Lemma hex_fixed_S width n acc :
  hex_fixed (S width) n acc
  = hex_fixed width (n / 16)%N (String (hex_char (n mod 16)%N) acc).
Proof. reflexivity. Qed.

Lemma hex_fixed_length width n acc :
  String.length (hex_fixed width n acc) = (width + String.length acc)%nat.
Proof.
  revert n acc. induction width as [|k IH]; intros n acc; [reflexivity|].
  rewrite hex_fixed_S, IH. simpl. lia.
Qed.

Lemma hex_char_read d :
  (d < 16)%N ->
  is_ascii_space (hex_char d) = false /\ hex_val (hex_char d) = Some d.
Proof.
  intros H.
  assert (Hc : In d (map N.of_nat (seq 0 16))).
  { apply in_map_iff. exists (N.to_nat d). split; [lia|].
    apply in_seq. lia. }
  simpl in Hc.
  repeat (destruct Hc as [<-|Hc]; [split; reflexivity|]). destruct Hc.
Qed.

Lemma be_value_snoc bytes b :
  be_value (bytes ++ [b]) = (256 * be_value bytes + b)%N.
Proof. unfold be_value. rewrite fold_left_app. reflexivity. Qed.

Lemma bytes_fromhex_hex_fixed k n acc bytes :
  bytes_fromhex acc = Some bytes ->
  exists pre,
    bytes_fromhex (hex_fixed (2 * k) n acc) = Some (pre ++ bytes)%list
    /\ List.length pre = k
    /\ be_value pre = (n mod 256 ^ N.of_nat k)%N.
Proof.
  revert n acc bytes. induction k as [|k IH]; intros n acc bytes Hacc.
  - exists []. simpl. rewrite N.mod_1_r. auto.
  - replace (2 * S k)%nat with (S (S (2 * k))) by lia.
    rewrite !hex_fixed_S.
    assert (H0 : (n mod 16 < 16)%N) by (apply N.mod_lt; lia).
    assert (H1 : (n / 16 mod 16 < 16)%N) by (apply N.mod_lt; lia).
    destruct (hex_char_read _ H0) as [S0 V0].
    destruct (hex_char_read _ H1) as [S1 V1].
    assert (Hstep : bytes_fromhex
                      (String (hex_char (n / 16 mod 16)%N)
                         (String (hex_char (n mod 16)%N) acc))
                    = Some ((16 * (n / 16 mod 16) + n mod 16)%N :: bytes)).
    { cbn [bytes_fromhex]. rewrite S1, V1, V0, Hacc. reflexivity. }
    destruct (IH (n / 16 / 16)%N _ _ Hstep) as (pre & Hp & Hl & Hv).
    exists (pre ++ [(16 * (n / 16 mod 16) + n mod 16)%N])%list.
    rewrite <- app_assoc. split; [exact Hp|].
    split; [rewrite length_app; simpl; lia|].
    rewrite be_value_snoc, Hv.
    replace (N.of_nat (S k)) with (N.succ (N.of_nat k)) by lia.
    rewrite N.pow_succ_r'.
    rewrite N.Div0.div_div.
    change (16 * 16)%N with 256%N.
    assert (E16 : (16 * (n / 16 mod 16) + n mod 16 = n mod 256)%N).
    { change 256%N with (16 * 16)%N. rewrite N.Div0.mod_mul_r. lia. }
    rewrite E16. rewrite (N.Div0.mod_mul_r n 256 (256 ^ N.of_nat k)). lia.
Qed.

Lemma ObjectId_oid_str o : (o < 2 ^ 96)%N -> ObjectId (oid_str o) = Some o.
Proof.
  intros Ho. unfold ObjectId, oid_str.
  rewrite hex_fixed_length. simpl (24 + _ =? 24)%nat. cbv iota.
  destruct (bytes_fromhex_hex_fixed 12 o EmptyString [] eq_refl)
    as (pre & Hp & Hl & Hv).
  change (2 * 12)%nat with 24%nat in Hp. rewrite Hp, app_nil_r, Hl.
  simpl (12 =? 12)%nat. cbv iota. rewrite Hv.
  rewrite N.mod_small; [reflexivity|].
  change (256 ^ N.of_nat 12)%N with (2 ^ 96)%N. exact Ho.
Qed.

Lemma set_status_stamp_same s t b :
  set_fields [SetStatus s; SetUpdatedAt t] b = b
  <-> status b = s /\ updated_at b = bson_datetime t.
Proof.
  unfold set_fields. simpl. split.
  - intros H. split.
    + rewrite <- H. reflexivity.
    + rewrite <- H at 1. reflexivity.
  - intros [<- E]. destruct b. simpl in *. rewrite <- E. reflexivity.
Qed.

(** X12: [update_task_status] turns the id string back into the ObjectId
    it prints, so with the string that [create_task] has just returned it
    reaches the new document: the document then holds the new status and
    the time of the call, its other fields and the scheduler's jobs stay as
    they were, and the answer is [True] unless status and time were already
    these.  [update_task] with the same string answers [False]. *)
Theorem update_task_status_with_returned_id
    now now' task_data meeting s w task_id w1 :
  ids_fresh w -> (next_oid w < 2 ^ 96)%N ->
  create_task now task_data meeting w = (Returned task_id, w1) ->
  ObjectId task_id = Some (next_oid w)
  /\ exists d,
       find_one (IdOid (next_oid w)) (tasks w1) = Some d
       /\ status (body d) = "pending"
       /\ find_one (IdOid (next_oid w))
            (tasks (snd (update_task_status now' task_id s w1)))
          = Some {| _id := next_oid w;
                    body := apply_update (SetUpdatedAt (bson_datetime now'))
                              (apply_update (SetStatus s) (body d)) |}
       /\ (fst (update_task_status now' task_id s w1) = false
           <-> s = "pending" /\ updated_at (body d) = bson_datetime now')
       /\ jobs (snd (update_task_status now' task_id s w1)) = jobs w1
       /\ List.length (tasks (snd (update_task_status now' task_id s w1)))
          = List.length (tasks w1)
       /\ fst (update_task now' (IdStr task_id) [SetStatus s] w1) = false.
Proof.
  intros Hw Hn Hr.
  destruct (create_task_Returned_inv _ _ _ _ _ _ Hr) as (Hb & dl & Hp).
  destruct (create_task_returns now task_data meeting w dl Hb Hp)
    as (w' & b & Hr' & Ht & _ & _ & _ & _ & _ & Hs & _).
  rewrite Hr in Hr'. injection Hr' as -> <-.
  pose proof (ObjectId_oid_str _ Hn) as Ho.
  split; [exact Ho|].
  exists {| _id := next_oid w; body := b |}.
  assert (Hfind : find_one (IdOid (next_oid w)) (tasks w1)
                  = Some {| _id := next_oid w; body := b |}).
  { rewrite Ht, find_one_app, (find_one_fresh _ _ (proj2 Hw)).
    simpl. rewrite N.eqb_refl. reflexivity. }
  split; [exact Hfind|]. split; [exact Hs|].
  unfold update_task_status. rewrite Ho.
  pose proof (update_one_find (IdOid (next_oid w))
                [SetStatus s; SetUpdatedAt now'] (tasks w1)) as Hu.
  pose proof (update_one_found (IdOid (next_oid w))
                [SetStatus s; SetUpdatedAt now'] (tasks w1) _ Hfind) as Hc.
  pose proof (update_one_length (IdOid (next_oid w))
                [SetStatus s; SetUpdatedAt now'] (tasks w1)) as Hlen.
  destruct (update_one (IdOid (next_oid w)) _ (tasks w1)) as [n docs].
  simpl in Hu, Hc, Hlen |- *.
  split; [rewrite Hu, Hfind; reflexivity|].
  split.
  { rewrite Hc.
    destruct (task_dict_eqb _ b) eqn:E.
    - apply task_dict_eqb_eq in E.
      apply (set_status_stamp_same s now' b) in E.
      destruct E as [E1 E2]. split; [intros _|reflexivity].
      split; congruence.
    - split; [discriminate|]. intros [E1 E2].
      assert (E' : set_fields [SetStatus s; SetUpdatedAt now'] b = b).
      { apply set_status_stamp_same. split; congruence. }
      apply task_dict_eqb_eq in E'. unfold set_fields in E'. simpl in E'.
      congruence. }
  split; [reflexivity|]. split; [exact Hlen|].
  rewrite update_task_str. reflexivity.
Qed.

Lemma update_task_status_with_returned_id_witness :
  ids_fresh empty_world
  /\ create_task (jan_2024 15) (item_with "Book a room" None None) None
       empty_world
     = (Returned "000000000000000000000000", sample_world)
  /\ ObjectId "000000000000000000000000" = Some 0%N
  /\ fst (update_task (jan_2024 16) (IdStr "000000000000000000000000")
            [SetStatus "completed"] sample_world) = false.
Proof.
  assert (Hw : ids_fresh empty_world) by apply ids_fresh_empty.
  assert (H : create_task (jan_2024 15) (item_with "Book a room" None None)
                None empty_world
              = (Returned "000000000000000000000000", sample_world))
    by reflexivity.
  split; [exact Hw|]. split; [exact H|].
  destruct (update_task_status_with_returned_id (jan_2024 15) (jan_2024 16)
              _ _ "completed" _ _ _ Hw ltac:(simpl; lia) H)
    as (Ho & d & _ & _ & _ & _ & _ & _ & Hf).
  split; [exact Ho|exact Hf].
Defined.

(** X13: [update_task_status] with an id that is not 24 hexadecimal digits
    (another length, or a character that is neither a hexadecimal digit nor
    ASCII white space) answers [False] and leaves store, scheduler and
    trace as they are. *)
Theorem update_task_status_malformed_id now task_id s w :
  (String.length task_id <> 24%nat
   \/ exists pre c post,
        task_id = (pre ++ String c post)%string
        /\ hex_val c = None /\ is_ascii_space c = false) ->
  ObjectId task_id = None
  /\ update_task_status now task_id s w = (false, w).
Proof.
  intros H.
  assert (Ho : ObjectId task_id = None).
  { unfold ObjectId. destruct H as [H|(pre & c & post & -> & Hv & Hsp)].
    - apply Nat.eqb_neq in H. rewrite H. reflexivity.
    - destruct (_ =? 24)%nat; [|reflexivity].
      assert (Hbad : forall n pre, (String.length pre <= n)%nat ->
                bytes_fromhex (pre ++ String c post) = None).
      { clear pre. induction n as [|n IH]; intros pre Hn.
        - destruct pre; [|simpl in Hn; lia].
          rewrite append_empty. cbn [bytes_fromhex]. rewrite Hsp, Hv.
          reflexivity.
        - destruct pre as [|a pre'].
          { rewrite append_empty. cbn [bytes_fromhex]. rewrite Hsp, Hv.
            reflexivity. }
          rewrite append_cons. cbn [bytes_fromhex]. simpl in Hn.
          destruct (is_ascii_space a); [apply IH; lia|].
          destruct (hex_val a); [|reflexivity].
          destruct pre' as [|a' pre''].
          { rewrite append_empty. rewrite Hv. reflexivity. }
          rewrite append_cons. destruct (hex_val a'); [|reflexivity].
          simpl in Hn. rewrite IH by lia. reflexivity. }
      rewrite (Hbad (String.length pre) pre) by lia. reflexivity. }
  split; [exact Ho|]. unfold update_task_status. rewrite Ho. reflexivity.
Qed.

Lemma update_task_status_malformed_id_witness :
  update_task_status (jan_2024 16) "00000000000000000000000g" "completed"
    sample_world = (false, sample_world)
  /\ update_task_status (jan_2024 16) "0" "completed" sample_world
     = (false, sample_world).
Proof.
  split.
  - apply (update_task_status_malformed_id (jan_2024 16)
             "00000000000000000000000g" "completed" sample_world).
    right. exists "00000000000000000000000", "g"%char, "".
    repeat split; reflexivity.
  - apply (update_task_status_malformed_id (jan_2024 16) "0" "completed"
             sample_world).
    left. simpl. lia.
Defined.

(** ** Batches of action items *)

Lemma batch_cons_created now item rest meeting transcript w :
  blank_task item = false ->
  clock_ok now = true ->
  exists w' d,
    tasks w' = (tasks w ++ [d])%list
    /\ _id d = next_oid w
    /\ next_oid w' = N.succ (next_oid w)
    /\ stored_for meeting item d
    /\ create_tasks_from_action_items now (item :: rest) meeting transcript w
       = (oid_str (next_oid w)
            :: fst (create_tasks_from_action_items now rest meeting
                      transcript w'),
          snd (create_tasks_from_action_items now rest meeting transcript w')).
Proof.
  intros Hb Hc.
  set (task_data :=
         {| raw_task := Some (default "" (raw_task item));
            raw_assignee := Some (default "TBD" (raw_assignee item));
            raw_priority := Some (default "medium" (raw_priority item));
            raw_context := Some (default "" (raw_context item));
            raw_transcript_id := transcript;
            raw_suggested_deadline := raw_suggested_deadline item;
            raw_actual_deadline := None |}).
  assert (Hb' : blank_task task_data = false) by exact Hb.
  destruct (deadline_policy_Some now task_data Hc) as [dl Hdl].
  destruct (create_task_returns now task_data meeting w dl Hb' Hdl)
    as (w' & b & Hr & Ht & Hn & H1 & H2 & H3 & H4 & Hs & Hm & _).
  exists w', {| _id := next_oid w; body := b |}.
  split; [exact Ht|]. split; [reflexivity|]. split; [exact Hn|].
  split; [repeat split; assumption|].
  cbn [create_tasks_from_action_items]. fold task_data. rewrite Hr.
  destruct (create_tasks_from_action_items now rest meeting transcript w').
  reflexivity.
Qed.

Lemma batch_created now items meeting transcript w :
  clock_ok now = true ->
  let described := List.filter (fun item => negb (blank_task item)) items in
  let r := create_tasks_from_action_items now items meeting transcript w in
  fst r = map (fun i => oid_str (next_oid w + N.of_nat i))
            (seq 0 (List.length described))
  /\ next_oid (snd r) = (next_oid w + N.of_nat (List.length described))%N
  /\ exists new,
       tasks (snd r) = (tasks w ++ new)%list
       /\ map _id new
          = map (fun i => (next_oid w + N.of_nat i)%N)
              (seq 0 (List.length described))
       /\ Forall2 (stored_for meeting) described new.
Proof.
  intros Hc. cbv zeta. revert w.
  induction items as [|item rest IH]; intros w.
  - simpl. split; [reflexivity|]. split; [lia|].
    exists []. rewrite app_nil_r. auto.
  - destruct (blank_task item) eqn:Hb.
    + rewrite batch_skips_blank by exact Hb.
      cbn [List.filter]. rewrite Hb. cbn [negb]. apply IH.
    + destruct (batch_cons_created now item rest meeting transcript w Hb Hc)
        as (w' & d & Ht & Hid & Hn & Hst & ->).
      cbn [List.filter]. rewrite Hb. cbn [negb List.length fst snd].
      destruct (IH w') as (Hids & Hnext & new & Hnew & Hmap & Hall).
      rewrite <- cons_seq, <- seq_shift. cbn [map]. rewrite !map_map.
      rewrite N.add_0_r.
      assert (Hshift : forall i,
                (next_oid w + N.of_nat (S i) = next_oid w' + N.of_nat i)%N)
        by (intros i; lia).
      split.
      { f_equal. rewrite Hids. apply map_ext. intros i.
        rewrite Hshift. reflexivity. }
      split; [lia|].
      exists (d :: new).
      split; [rewrite Hnew, Ht, <- app_assoc; reflexivity|].
      split.
      { cbn [map]. rewrite Hid. f_equal. rewrite Hmap. apply map_ext.
        intros i. rewrite Hshift. reflexivity. }
      constructor; [exact Hst|exact Hall].
Qed.

(** X14: [create_tasks_from_action_items] creates one task for every item
    whose description is not blank and skips the others without stopping:
    the ids it returns are those of consecutive new documents, in the order
    of the items; each new document is pending, belongs to the meeting
    given, and holds the trimmed task, assignee and context and the
    lower-cased priority of its item, with TBD and medium for what the item
    lacks. *)
Theorem batch_creates_described_items now items meeting transcript w :
  clock_ok now = true ->
  let described := List.filter (fun item => negb (blank_task item)) items in
  let r := create_tasks_from_action_items now items meeting transcript w in
  fst r = map (fun i => oid_str (next_oid w + N.of_nat i))
            (seq 0 (List.length described))
  /\ next_oid (snd r) = (next_oid w + N.of_nat (List.length described))%N
  /\ exists new,
       tasks (snd r) = (tasks w ++ new)%list
       /\ map _id new
          = map (fun i => (next_oid w + N.of_nat i)%N)
              (seq 0 (List.length described))
       /\ Forall2 (stored_for meeting) described new.
Proof. exact (batch_created now items meeting transcript w). Qed.

Lemma batch_creates_described_items_witness :
  clock_ok (jan_2024 15) = true
  /\ fst (create_tasks_from_action_items (jan_2024 15)
            [item_with "Book a room" None None; item_with "  " None None;
             item_with "Send minutes" None None] None None empty_world)
     = ["000000000000000000000000"; "000000000000000000000001"].
Proof.
  split; [reflexivity|].
  destruct (batch_creates_described_items (jan_2024 15)
              [item_with "Book a room" None None; item_with "  " None None;
               item_with "Send minutes" None None] None None empty_world
              eq_refl) as (H & _).
  exact H.
Defined.

(** ** The text fallback of the parser *)

Lemma prefix_char a c s :
  String.prefix (String a EmptyString) (String c s) = Ascii.eqb c a.
Proof.
  destruct (Ascii.eqb_spec c a) as [->|Hne].
  - apply prefix_iff. exists s. rewrite append_cons, append_empty. reflexivity.
  - apply not_true_is_false. intros H. apply prefix_iff in H.
    destruct H as [post H]. rewrite append_cons in H. congruence.
Qed.

Lemma py_split_once_colon line l :
  py_split_once ":" line = l ->
  py_in ":" line = true ->
  exists head rest,
    l = [head; rest] /\ line = (head ++ String ":" rest)%string
    /\ py_in ":" head = false.
Proof.
  revert l. induction line as [|c s IH]; intros l Hl Hin.
  - discriminate.
  - cbn [py_split_once] in Hl. cbn [py_in] in Hin.
    rewrite prefix_char in Hin.
    destruct (Ascii.eqb_spec c ":"%char) as [->|Hne].
    + exists EmptyString, s. subst l. repeat split.
    + cbn [orb] in Hin.
      destruct (IH _ eq_refl Hin) as (head & rest & E & -> & Hh).
      rewrite E in Hl. subst l.
      exists (String c head), rest. split; [reflexivity|].
      split; [rewrite append_cons; reflexivity|].
      cbn [py_in]. rewrite Hh, orb_false_r, prefix_char.
      apply Ascii.eqb_neq. exact Hne.
Qed.

Lemma extracted_item_inv text item :
  In item (_extract_action_items_from_text text) ->
  exists line head rest,
    In line (py_split "010" text)
    /\ py_strip line = (head ++ String ":" rest)%string
    /\ py_in ":" head = false
    /\ (py_in "task" (py_lower (py_strip line))
        || py_in "action" (py_lower (py_strip line))
        || py_in "todo" (py_lower (py_strip line))) = true
    /\ py_strip rest <> ""
    /\ raw_task item = Some (py_strip rest)
    /\ raw_assignee item = Some "TBD"
    /\ raw_priority item = Some "medium"
    /\ raw_context item = Some ""
    /\ raw_suggested_deadline item = None
    /\ blank_task item = false.
Proof.
  unfold _extract_action_items_from_text. intros H.
  apply in_flat_map in H. destruct H as (line & Hline & H).
  unfold extract_from_line in H.
  destruct (String.eqb_spec (py_strip line) "") as [E|E]; [destruct H|].
  cbn [negb andb] in H.
  destruct (py_in "task" _ || py_in "action" _ || py_in "todo" _) eqn:Hk;
    [|destruct H].
  destruct (py_in ":" (py_strip line)) eqn:Hc; [|destruct H].
  destruct (py_split_once_colon _ _ eq_refl Hc)
    as (head & rest & Hs & Hl & Hh).
  rewrite Hs in H.
  destruct (String.eqb_spec (py_strip rest) "") as [E'|E']; [destruct H|].
  cbn [negb] in H. destruct H as [<-|[]].
  exists line, head, rest. cbn.
  repeat (split; [first [assumption|reflexivity]|]).
  unfold blank_task. cbn. apply py_strip_not_blank. exact E'.
Qed.

(** X15: every item that [_extract_action_items_from_text] returns comes
    from one line of the text that, trimmed, mentions task, action or todo
    in any case and holds a colon; its task is the trimmed text after the
    first colon and is not empty, its assignee is TBD, its priority medium
    and its context empty.  [create_task] therefore never rejects such an
    item as lacking a description. *)
Theorem extracted_items_are_described text item :
  In item (_extract_action_items_from_text text) ->
  exists line head rest,
    In line (py_split "010" text)
    /\ py_strip line = (head ++ String ":" rest)%string
    /\ py_in ":" head = false
    /\ (py_in "task" (py_lower (py_strip line))
        || py_in "action" (py_lower (py_strip line))
        || py_in "todo" (py_lower (py_strip line))) = true
    /\ py_strip rest <> ""
    /\ raw_task item = Some (py_strip rest)
    /\ raw_assignee item = Some "TBD"
    /\ raw_priority item = Some "medium"
    /\ raw_context item = Some ""
    /\ raw_suggested_deadline item = None
    /\ blank_task item = false.
Proof. exact (extracted_item_inv text item). Qed.

Lemma extracted_items_are_described_witness :
  In (item_with "send the minutes" (Some "TBD") (Some "medium"))
     (map (fun item => item_with (default "" (raw_task item))
                         (raw_assignee item) (raw_priority item))
        (_extract_action_items_from_text
           (String "010" "Notes"
            ++ String "010" "  Action: send the minutes  ")))
  /\ Forall (fun item => blank_task item = false)
       (_extract_action_items_from_text
          (String "010" "Notes"
           ++ String "010" "  Action: send the minutes  ")).
Proof.
  split; [vm_compute; left; reflexivity|].
  apply List.Forall_forall. intros item H.
  destruct (extracted_items_are_described _ _ H)
    as (_ & _ & _ & _ & _ & _ & _ & _ & _ & _ & _ & _ & _ & Hb).
  exact Hb.
Defined.

Lemma filter_nonblank_all items :
  Forall (fun item => blank_task item = false) items ->
  List.filter (fun item => negb (blank_task item)) items = items.
Proof.
  induction 1 as [|x xs Hx _ IH]; [reflexivity|].
  simpl. rewrite Hx, IH. reflexivity.
Qed.

Lemma Forall2_weaken_In {A B} (P Q : A -> B -> Prop) l l' :
  Forall2 P l l' ->
  (forall a b, In a l -> P a b -> Q a b) ->
  Forall2 Q l l'.
Proof.
  induction 1 as [|a b l l' Hab _ IH]; intros H; [constructor|].
  constructor.
  - apply H; [left; reflexivity|exact Hab].
  - apply IH. intros a' b' Hin. apply H. right. exact Hin.
Qed.

(** X16: what the text fallback extracts, [create_tasks_from_action_items]
    stores in full: one pending task per extracted item, in order, with the
    item's task text unchanged, assignee TBD and priority medium. *)
Theorem fallback_items_all_created now text meeting transcript w :
  clock_ok now = true ->
  let items := _extract_action_items_from_text text in
  let r := create_tasks_from_action_items now items meeting transcript w in
  List.length (fst r) = List.length items
  /\ exists new,
       tasks (snd r) = (tasks w ++ new)%list
       /\ Forall2 (fun item d =>
                     Some (task (body d)) = raw_task item
                     /\ assignee (body d) = "TBD"
                     /\ priority (body d) = "medium"
                     /\ context (body d) = ""
                     /\ status (body d) = "pending"
                     /\ meeting_id (body d) = meeting) items new.
Proof.
  intros Hc. cbv zeta.
  set (items := _extract_action_items_from_text text).
  assert (Hall : Forall (fun item => blank_task item = false) items).
  { apply List.Forall_forall. intros item H.
    destruct (extracted_item_inv _ _ H)
      as (_ & _ & _ & _ & _ & _ & _ & _ & _ & _ & _ & _ & _ & Hb).
    exact Hb. }
  destruct (batch_created now items meeting transcript w Hc)
    as (Hids & _ & new & Hnew & _ & Hst).
  rewrite (filter_nonblank_all _ Hall) in Hids, Hst.
  split; [rewrite Hids, length_map, length_seq; reflexivity|].
  exists new. split; [exact Hnew|].
  apply (Forall2_weaken_In _ _ _ _ Hst). intros item d Hi Hd.
  destruct (extracted_item_inv _ _ Hi)
    as (_ & _ & rest & _ & _ & _ & _ & _ & Et & Ea & Ep & Ec & _).
  destruct Hd as (H1 & H2 & H3 & H4 & H5 & H6).
  rewrite Et, Ea, Ep, Ec in *. simpl in H1, H2, H3, H4.
  rewrite py_strip_idem in H1.
  repeat split; try assumption. congruence.
Qed.

Lemma fallback_items_all_created_witness :
  clock_ok (jan_2024 15) = true
  /\ List.length
       (fst (create_tasks_from_action_items (jan_2024 15)
               (_extract_action_items_from_text
                  (String "010" "TODO: book a room"
                   ++ String "010" "Action: send the minutes"))
               None None empty_world)) = 2%nat.
Proof.
  split; [reflexivity|].
  destruct (fallback_items_all_created (jan_2024 15)
              (String "010" "TODO: book a room"
               ++ String "010" "Action: send the minutes")
              None None empty_world eq_refl) as (H & _).
  exact H.
Defined.

(** ** Cleaning parsed items *)

Lemma clean_action_item_fixed t a p c :
  existsb (String.eqb p) ["high"; "medium"; "low"] = true ->
  clean_action_item
    {| raw_task := Some (py_strip t); raw_assignee := Some (py_strip a);
       raw_priority := Some p; raw_context := Some (py_strip c);
       raw_transcript_id := None; raw_suggested_deadline := None;
       raw_actual_deadline := None |}
  = Some {| raw_task := Some (py_strip t); raw_assignee := Some (py_strip a);
            raw_priority := Some p; raw_context := Some (py_strip c);
            raw_transcript_id := None; raw_suggested_deadline := None;
            raw_actual_deadline := None |}.
Proof.
  intros Hp. destruct (priority_list_lower _ Hp) as [_ Hl].
  unfold clean_action_item.
  cbn [raw_task raw_assignee raw_priority raw_context from_option id].
  rewrite !py_strip_idem, Hl, Hp. reflexivity.
Qed.

(** X17: the cleaning that [_parse_action_items] applies to an item is
    idempotent: a cleaned item is cleaned to itself, and its priority is
    one of high, medium, low. *)
Theorem clean_action_item_idempotent item cleaned :
  clean_action_item item = Some cleaned ->
  clean_action_item cleaned = Some cleaned
  /\ (raw_priority cleaned = Some "high"
      \/ raw_priority cleaned = Some "medium"
      \/ raw_priority cleaned = Some "low").
Proof.
  unfold clean_action_item at 1.
  destruct (raw_task item) as [t|]; [|discriminate].
  set (p := py_lower (default "medium" (raw_priority item))).
  set (q := if existsb (String.eqb p) ["high"; "medium"; "low"]
            then p else "medium").
  assert (Hq : existsb (String.eqb q) ["high"; "medium"; "low"] = true).
  { unfold q. destruct (existsb (String.eqb p) ["high"; "medium"; "low"]) eqn:E;
      [exact E|reflexivity]. }
  intros H. apply (inj Some) in H. rewrite <- H.
  split; [apply clean_action_item_fixed; exact Hq|].
  cbn [raw_priority].
  destruct (priority_list_lower _ Hq) as [[E|[E|E]] _]; rewrite E; auto.
Qed.

Lemma clean_action_item_idempotent_witness :
  clean_action_item (item_with "  Book a room " None (Some "URGENT"))
  = Some {| raw_task := Some "Book a room"; raw_assignee := Some "TBD";
            raw_priority := Some "medium"; raw_context := Some "";
            raw_transcript_id := None; raw_suggested_deadline := None;
            raw_actual_deadline := None |}
  /\ clean_action_item
       {| raw_task := Some "Book a room"; raw_assignee := Some "TBD";
          raw_priority := Some "medium"; raw_context := Some "";
          raw_transcript_id := None; raw_suggested_deadline := None;
          raw_actual_deadline := None |}
     = Some {| raw_task := Some "Book a room"; raw_assignee := Some "TBD";
               raw_priority := Some "medium"; raw_context := Some "";
               raw_transcript_id := None; raw_suggested_deadline := None;
               raw_actual_deadline := None |}.
Proof.
  assert (H : clean_action_item
                (item_with "  Book a room " None (Some "URGENT"))
              = Some {| raw_task := Some "Book a room";
                        raw_assignee := Some "TBD";
                        raw_priority := Some "medium";
                        raw_context := Some "";
                        raw_transcript_id := None;
                        raw_suggested_deadline := None;
                        raw_actual_deadline := None |})
    by reflexivity.
  split; [exact H|].
  exact (proj1 (clean_action_item_idempotent _ _ H)).
Defined.

(** ** A new task in the listings *)

Lemma matches_query_meeting m d :
  matches_query [SetMeetingId (Some m)] d = true
  <-> meeting_id (body d) = Some m.
Proof.
  unfold matches_query. rewrite task_dict_eqb_eq. unfold set_fields. simpl.
  split.
  - intros H. rewrite <- H. reflexivity.
  - intros <-. destruct (body d). reflexivity.
Qed.

Lemma in_sorted_filter f docs d :
  In d (sort_by_created_desc (List.filter f docs))
  <-> In d docs /\ f d = true.
Proof.
  rewrite <- filter_In. split; apply Permutation_in;
    [|symmetry]; apply sort_by_created_desc_perm.
Qed.

(** X18: [get_tasks_by_meeting] lists exactly the stored tasks of the
    meeting, the most recently created first; a task that [create_task] has
    just created for a meeting is in that list, in the list of pending
    tasks and in the list of all tasks. *)
Theorem created_task_is_listed now task_data m w task_id w' :
  create_task now task_data (Some m) w = (Returned task_id, w') ->
  (forall d, In d (get_tasks_by_meeting m w')
             <-> In d (tasks w') /\ meeting_id (body d) = Some m)
  /\ StronglySorted (fun a b => created_geb a b = true)
       (get_tasks_by_meeting m w')
  /\ exists d,
       _id d = next_oid w
       /\ oid_str (_id d) = task_id
       /\ In d (get_tasks_by_meeting m w')
       /\ In d (get_all_tasks (Some "pending") w')
       /\ In d (get_tasks None w')
       /\ ~ In d (get_all_tasks (Some "completed") w').
Proof.
  intros Hr.
  split.
  { intros d. unfold get_tasks_by_meeting.
    rewrite in_sorted_filter, matches_query_meeting. reflexivity. }
  split; [apply sort_by_created_desc_sorted|].
  destruct (create_task_Returned_inv _ _ _ _ _ _ Hr) as (Hb & dl & Hp).
  destruct (create_task_returns now task_data (Some m) w dl Hb Hp)
    as (w1 & b & Hr' & Ht & _ & _ & _ & _ & _ & Hs & Hm & _).
  rewrite Hr in Hr'. injection Hr' as -> <-.
  exists {| _id := next_oid w; body := b |}.
  assert (Hin : In {| _id := next_oid w; body := b |} (tasks w'))
    by (rewrite Ht; apply in_or_app; right; left; reflexivity).
  split; [reflexivity|]. split; [reflexivity|].
  unfold get_tasks_by_meeting, get_all_tasks, get_tasks.
  rewrite !in_sorted_filter, !matches_query_status, matches_query_meeting.
  cbn [body default]. rewrite Hs.
  split; [split; assumption|]. split; [split; [assumption|reflexivity]|].
  split.
  - split; [assumption|]. unfold matches_query.
    apply task_dict_eqb_eq. reflexivity.
  - intros [_ H]. discriminate.
Qed.

Lemma created_task_is_listed_witness :
  create_task (jan_2024 15) (item_with "Book a room" None None)
    (Some "weekly") empty_world
  = (Returned "000000000000000000000000",
     snd (create_task (jan_2024 15) (item_with "Book a room" None None)
            (Some "weekly") empty_world))
  /\ exists d,
       _id d = 0%N
       /\ In d (get_tasks_by_meeting "weekly"
                  (snd (create_task (jan_2024 15)
                          (item_with "Book a room" None None)
                          (Some "weekly") empty_world))).
Proof.
  assert (H : create_task (jan_2024 15) (item_with "Book a room" None None)
                (Some "weekly") empty_world
              = (Returned "000000000000000000000000",
                 snd (create_task (jan_2024 15)
                        (item_with "Book a room" None None)
                        (Some "weekly") empty_world)))
    by reflexivity.
  split; [exact H|].
  destruct (created_task_is_listed _ _ _ _ _ _ H)
    as (_ & _ & d & Hid & _ & Hin & _).
  exists d. split; [exact Hid|exact Hin].
Defined.
